(** * Verification of the report-parsing and CSV-diff core of project-unitrust-api

    Shallow embedding of
    - [app/parsers/underwriting_parser.py]  (POLICY_RE, UW_RE, the column and
      token fallbacks, [parse_report]),
    - [app/parsers/returns_parser.py]       ([parse_return_items]),
    - [app/parsers/csv_parser.py]           ([_mostly_in_first_column],
      [detect_policy_column], the policy-column fallback of
      [parse_csv_robust], [normalize_csv_content],
      [clean_and_normalize_row_with_policy_column], the diff loop of
      [compare_files_as_json_sync]),
    - the report-date extractors [extract_report_date_iso] and
      [extract_return_report_date_iso],
    - [app/utils/helpers.py]                ([to_float_premium], [date_to_iso],
      [normalize_filename], [is_valid_policy_number]),
    - [app/config.py]                       (keyword and field tables).

    Python [str] values are modelled as lists of ASCII characters.  Python
    exceptions that the code could raise are modelled by the [exc] monad;
    Python [float] is IEEE binary64, modelled with the Standard Library's
    [SpecFloat] at precision 53 and maximal exponent 1024. *)

From Stdlib Require Import ZArith Ascii Bool Lia.
From Stdlib Require Import Floats.SpecFloat.
From stdpp Require Import base list gmap sets strings.

Local Open Scope bool_scope.

Abbreviation pystr := (list ascii).

Definition chars (s : string) : pystr := String.list_ascii_of_string s.

(** ** Characters *)

Definition code (c : ascii) : nat := nat_of_ascii c.

(** Python's [\s] and [str.isspace] on ASCII: [\t\n\v\f\r], the
    separators [\x1c]-[\x1f] and the space. *)
Definition is_space (c : ascii) : bool :=
  let n := code c in ((9 <=? n) && (n <=? 13)) || ((28 <=? n) && (n <=? 32)).

Definition is_digit (c : ascii) : bool :=
  let n := code c in (48 <=? n) && (n <=? 57).

Definition is_upper (c : ascii) : bool :=
  let n := code c in (65 <=? n) && (n <=? 90).

Definition is_lower (c : ascii) : bool :=
  let n := code c in (97 <=? n) && (n <=? 122).

Definition is_cased (c : ascii) : bool := is_upper c || is_lower c.

Definition in_chars (l : pystr) (c : ascii) : bool := existsb (Ascii.eqb c) l.

Definition to_upper (c : ascii) : ascii :=
  if is_lower c then ascii_of_nat (code c - 32) else c.

Definition to_lower (c : ascii) : ascii :=
  if is_upper c then ascii_of_nat (code c + 32) else c.

(** ** Python string methods *)

Definition py_upper (s : pystr) : pystr := map to_upper s.
Definition py_lower (s : pystr) : pystr := map to_lower s.

(** [str.title]: a cased character is upper-cased when the previous
    character is not cased, lower-cased otherwise. *)
Fixpoint title_go (prev_cased : bool) (s : pystr) : pystr :=
  match s with
  | [] => []
  | c :: t =>
      let c' := if prev_cased then to_lower c else to_upper c in
      c' :: title_go (is_cased c) t
  end.
Definition py_title (s : pystr) : pystr := title_go false s.

Fixpoint lstrip (s : pystr) : pystr :=
  match s with
  | c :: t => if is_space c then lstrip t else s
  | [] => []
  end.
Definition py_rstrip (s : pystr) : pystr := rev (lstrip (rev s)).
Definition py_strip (s : pystr) : pystr := py_rstrip (lstrip s).

Fixpoint py_join (sep : pystr) (l : list pystr) : pystr :=
  match l with
  | [] => []
  | [x] => x
  | x :: t => x ++ sep ++ py_join sep t
  end.

(** Substring test [needle in hay]. *)
Fixpoint py_contains (needle hay : pystr) : bool :=
  match hay with
  | [] => match needle with [] => true | _ => false end
  | _ :: t =>
      bool_decide (take (length needle) hay = needle)
      || py_contains needle t
  end.

(** [str.replace(old_char, "")] for a one-character pattern. *)
Definition remove_char (c : ascii) (s : pystr) : pystr :=
  filter (fun x => negb (Ascii.eqb x c)) s.

(** [re.split(r"\s{k,}", s)] for [k >= 1]: the separators are the maximal
    runs of at least [k] whitespace characters; a shorter run stays inside
    the field.  [pend] holds the whitespace run being read. *)
Definition prepend (x : pystr) (ps : list pystr) : list pystr :=
  match ps with
  | p :: ps' => (x ++ p) :: ps'
  | [] => [x]
  end.

Fixpoint split_go (k : nat) (pend : pystr) (s : pystr) : list pystr :=
  match s with
  | [] => if k <=? length pend then [[]; []] else [pend]
  | c :: t =>
      if is_space c then split_go k (pend ++ [c]) t
      else if k <=? length pend then [] :: prepend [c] (split_go k [] t)
      else prepend (pend ++ [c]) (split_go k [] t)
  end.

Definition re_split_ws (k : nat) (s : pystr) : list pystr := split_go k [] s.

(** [str.splitlines()]: line boundaries [\n], [\r], [\r\n], [\v], [\f],
    [\x1c], [\x1d], [\x1e]; no empty last line for a trailing boundary. *)
Definition is_line_break (c : ascii) : bool :=
  let n := code c in ((10 <=? n) && (n <=? 13)) || ((28 <=? n) && (n <=? 30)).

Fixpoint splitlines_go (cur : pystr) (s : pystr) : list pystr :=
  match s with
  | [] => match cur with [] => [] | _ => [rev cur] end
  | c :: t =>
      if is_line_break c then
        let t' := if (code c =? 13) then
                    match t with d :: t'' => if code d =? 10 then t'' else t | [] => t end
                  else t in
        rev cur :: splitlines_go [] t'
      else splitlines_go (c :: cur) t
  end.
Definition py_splitlines (s : pystr) : list pystr := splitlines_go [] s.

(** ** Python exceptions *)

Inductive py_error := IndexError | ValueError.

Inductive exc (A : Type) := Ok (a : A) | Raise (e : py_error).
Arguments Ok {A} a.
Arguments Raise {A} e.

Definition exc_bind {A B} (m : exc A) (f : A -> exc B) : exc B :=
  match m with Ok a => f a | Raise e => Raise e end.

Notation "'let!' x ':=' m 'in' k" := (exc_bind m (fun x => k))
  (at level 200, x name, m at level 100, k at level 200).

(** [l[i]] with Python's negative indices and [IndexError]. *)
Definition py_get {A} (l : list A) (i : Z) : exc A :=
  let n := Z.of_nat (length l) in
  let j := if (i <? 0)%Z then (i + n)%Z else i in
  if ((j <? 0)%Z || (n <=? j)%Z) then Raise IndexError
  else match l !! Z.to_nat j with Some x => Ok x | None => Raise IndexError end.

(** [l[a:b]] with Python's clamping of negative and out-of-range bounds. *)
Definition py_norm (n : Z) (i : Z) : nat :=
  Z.to_nat (Z.max 0 (Z.min n (if (i <? 0)%Z then i + n else i)))%Z.

Definition py_slice {A} (l : list A) (a b : option Z) : list A :=
  let n := Z.of_nat (length l) in
  let i := match a with Some a => py_norm n a | None => 0 end in
  let j := match b with Some b => py_norm n b | None => length l end in
  take (j - i) (drop i l).

(** ** A backtracking regular-expression matcher

    The patterns of the code only quantify single character classes, so a
    pattern is a list of items, each a quantified class or a named group of
    quantified classes.  [match_items] explores the alternatives in the
    order of Python's [re] engine (greedy: most repetitions first; lazy:
    fewest first) and returns the first success of the continuation. *)

Record atom := Atom {
  a_cls : ascii -> bool;
  a_lo : nat;
  a_hi : option nat;
  a_greedy : bool
}.

Inductive item :=
  | IAtom (a : atom)
  | IGroup (g : string) (body : list atom).

Definition env := list (string * pystr).

Fixpoint span (p : ascii -> bool) (s : pystr) : nat :=
  match s with
  | c :: t => if p c then S (span p t) else 0
  | [] => 0
  end.

Definition counts (a : atom) (s : pystr) : list nat :=
  let m := match a_hi a with
           | Some h => Nat.min h (span (a_cls a) s)
           | None => span (a_cls a) s
           end in
  let l := seq (a_lo a) (S m - a_lo a) in
  if a_greedy a then rev l else l.

Fixpoint first_some {A B} (f : A -> option B) (l : list A) : option B :=
  match l with
  | [] => None
  | x :: t => match f x with Some r => Some r | None => first_some f t end
  end.

Fixpoint match_atoms {R} (l : list atom) (s : pystr) (k : pystr -> option R)
  : option R :=
  match l with
  | [] => k s
  | a :: l' => first_some (fun n => match_atoms l' (drop n s) k) (counts a s)
  end.

Fixpoint match_items {R} (its : list item) (e : env) (s : pystr)
  (k : env -> pystr -> option R) : option R :=
  match its with
  | [] => k e s
  | IAtom a :: its' => match_atoms [a] s (fun r => match_items its' e r k)
  | IGroup g body :: its' =>
      match_atoms body s (fun r =>
        match_items its' (e ++ [(g, take (length s - length r) s)]) r k)
  end.

(** [$] without MULTILINE: end of string, or just before a final newline. *)
Definition end_ok (r : pystr) : bool :=
  match r with
  | [] => true
  | [c] => Ascii.eqb c "010"%char
  | _ => false
  end.

(** [re.match(P, s)] for a pattern ending in [$]. *)
Definition re_match_end (its : list item) (s : pystr) : option env :=
  match_items its [] s (fun e r => if end_ok r then Some e else None).

(** [re.fullmatch(P, s)]. *)
Definition re_fullmatch (its : list item) (s : pystr) : option env :=
  match_items its [] s (fun e r => match r with [] => Some e | _ => None end).

Definition group (e : env) (g : string) : pystr :=
  match find (fun p => bool_decide (p.1 = g)) e with
  | Some (_, v) => v
  | None => []
  end.

(** Quantifier shorthands. *)
Definition one (p : ascii -> bool) : atom := Atom p 1 (Some 1) true.
Definition opt (p : ascii -> bool) : atom := Atom p 0 (Some 1) true.
Definition rep (p : ascii -> bool) (lo hi : nat) : atom := Atom p lo (Some hi) true.
Definition atleast (p : ascii -> bool) (lo : nat) : atom := Atom p lo None true.
Definition plus (p : ascii -> bool) : atom := Atom p 1 None true.
Definition star (p : ascii -> bool) : atom := Atom p 0 None true.
Definition lazy_plus (p : ascii -> bool) : atom := Atom p 1 None false.
Definition lazy_star (p : ascii -> bool) : atom := Atom p 0 None false.
Definition lit (c : ascii) : atom := one (Ascii.eqb c).
Definition lits (s : string) : list atom := map lit (chars s).

(** Character classes of the patterns. *)
Definition c_name (c : ascii) : bool :=          (* [A-Z0-9 .,'\-&/] *)
  is_upper c || is_digit c || in_chars (chars " .,'-&/") c.
Definition c_plan (c : ascii) : bool :=          (* [A-Z0-9\-] *)
  is_upper c || is_digit c || Ascii.eqb c "-"%char.
Definition c_digit_comma (c : ascii) : bool :=   (* [\d,] *)
  is_digit c || Ascii.eqb c ","%char.
Definition c_any (c : ascii) : bool := negb (Ascii.eqb c "010"%char).   (* . *)
Definition c_not_dash (c : ascii) : bool := negb (Ascii.eqb c "-"%char). (* [^-] *)
Definition c_not_space (c : ascii) : bool := negb (is_space c).      (* \S *)

(** ** Patterns of [underwriting_parser.py] *)

Definition POLICY_RE : list item := [
  IAtom (star is_space);
  IGroup "policy" [rep is_digit 9 10; opt is_upper];
  IAtom (plus is_space);
  IGroup "name" [lazy_plus c_name];
  IAtom (plus is_space);
  IGroup "plan" [plus c_plan];
  IAtom (plus is_space);
  IGroup "premium" [plus c_digit_comma; lit "."; rep is_digit 2 2];
  IAtom (plus is_space);
  IGroup "agent_id" [rep is_digit 6 7];
  IAtom (plus is_space);
  IGroup "agent" [lazy_plus c_name];
  IAtom (star is_space)
].

Definition UW_RE : list item := [
  IAtom (star is_space);
  IGroup "policy" [rep is_digit 9 10; opt is_upper];
  IAtom (plus is_space);
  IGroup "name" [lazy_plus c_name];
  IAtom (atleast is_space 2);
  IGroup "requirement" [one c_not_dash; lazy_star c_any; one c_not_space];
  IAtom (atleast is_space 2);
  IGroup "agent_id" [rep is_digit 6 7];
  IAtom (plus is_space);
  IGroup "agent" [lazy_plus c_name];
  IAtom (star is_space)
].

(** The per-field validators [re.match(r"^...$", x)]. *)
Definition POLICY_SHAPE : list item := [IGroup "0" [rep is_digit 9 10; opt is_upper]].
Definition PLAN_SHAPE : list item := [IGroup "0" [plus c_plan]].
Definition PREMIUM_SHAPE : list item :=
  [IGroup "0" [plus c_digit_comma; lit "."; rep is_digit 2 2]].
Definition AGENT_ID_SHAPE : list item := [IGroup "0" [rep is_digit 6 7]].

Definition re_ok (p : list item) (s : pystr) : bool :=
  match re_match_end p s with Some _ => true | None => false end.

(** ** Python [float] (IEEE binary64) *)

Definition prec : Z := 53.
Definition emax : Z := 1024.
Abbreviation float := spec_float.

(** The binary64 number nearest to [p/q] (ties to even), with sign [neg]:
    the rounding of Python's [int / int] and of its decimal literals. *)
Definition round_rat (neg : bool) (p q : positive) : float :=
  let '(mz, ez, lz) := SFdiv_core_binary prec emax (Zpos p) 0 (Zpos q) 0 in
  binary_round_aux prec emax neg mz ez lz.

(** The value [n * 10^e] of a decimal literal. *)
Definition float_of_decimal (neg : bool) (n : Z) (e : Z) : float :=
  match n with
  | Zpos p =>
      if (0 <=? e)%Z then round_rat neg (p * Z.to_pos (10 ^ e)) 1
      else round_rat neg p (Z.to_pos (10 ^ (- e)))
  | _ => S754_zero neg
  end.

Definition digit_val (c : ascii) : Z := Z.of_nat (code c - 48).

Definition digits_to_Z (ds : pystr) : Z :=
  fold_left (fun acc c => (10 * acc + digit_val c)%Z) ds 0%Z.

(** A digit part [digit (["_"] digit)*] of Python's float syntax. *)
Fixpoint digits_go (s : pystr) : pystr * pystr :=
  match s with
  | c :: t =>
      if is_digit c then let '(ds, r) := digits_go t in (c :: ds, r)
      else if Ascii.eqb c "_"%char then
        match t with
        | d :: t' => if is_digit d then let '(ds, r) := digits_go t' in (d :: ds, r)
                     else ([], s)
        | [] => ([], s)
        end
      else ([], s)
  | [] => ([], [])
  end.

Definition digitpart (s : pystr) : option (pystr * pystr) :=
  match s with
  | c :: _ => if is_digit c then Some (digits_go s) else None
  | [] => None
  end.

Definition read_sign (s : pystr) : bool * pystr :=
  match s with
  | c :: t => if Ascii.eqb c "-"%char then (true, t)
              else if Ascii.eqb c "+"%char then (false, t) else (false, s)
  | [] => (false, [])
  end.

(** [float(s)]: [None] stands for the [ValueError] it raises. *)
Definition float_of_str (s0 : pystr) : option float :=
  let s := py_strip s0 in
  let '(neg, s1) := read_sign s in
  let w := py_lower s1 in
  if bool_decide (w = chars "inf") || bool_decide (w = chars "infinity")
  then Some (S754_infinity neg)
  else if bool_decide (w = chars "nan") then Some S754_nan
  else
    let '(ip, r1) := match digitpart s1 with Some p => p | None => ([], s1) end in
    let '(fp, r2) :=
      match r1 with
      | c :: r => if Ascii.eqb c "."%char then
                    match digitpart r with Some p => p | None => ([], r) end
                  else ([], r1)
      | [] => ([], [])
      end in
    if (bool_decide (ip = []) && bool_decide (fp = [])) then None else
    let ex :=
      match r2 with
      | [] => Some 0%Z
      | c :: r =>
          if Ascii.eqb c "e"%char || Ascii.eqb c "E"%char then
            let '(eneg, r') := read_sign r in
            match digitpart r' with
            | Some (ds, []) => Some (if eneg then - digits_to_Z ds else digits_to_Z ds)%Z
            | _ => None
            end
          else None
      end in
    match ex with
    | Some e => Some (float_of_decimal neg (digits_to_Z (ip ++ fp))
                                        (e - Z.of_nat (length fp))%Z)
    | None => None
    end.

Definition f_sub := SFsub prec emax.
Definition f_abs := SFabs.
Definition f_ltb := SFltb.
Definition f_leb := SFleb.

(** [helpers.to_float_premium]: [float(s.replace(",", ""))], [None] on error. *)
Definition to_float_premium (s : pystr) : option float :=
  float_of_str (remove_char ","%char s).

(** ** [underwriting_parser.py] *)

Record uw_record := UWRec {
  uw_status : pystr;
  uw_policy_no : pystr;
  uw_insured_name : pystr;
  uw_plan : option pystr;
  uw_annual_premium : option float;
  uw_agent_id : pystr;
  uw_writing_agent : pystr;
  uw_requirement_desc : option pystr
}.

Definition set_status (st : pystr) (r : uw_record) : uw_record :=
  UWRec st (uw_policy_no r) (uw_insured_name r) (uw_plan r) (uw_annual_premium r)
    (uw_agent_id r) (uw_writing_agent r) (uw_requirement_desc r).

(** [_parse_policy_line_by_columns]; the returned dict has no status yet
    (modelled by the empty status that [parse_report] overwrites). *)
Definition parse_policy_line_by_columns (line : pystr) : exc (option uw_record) :=
  let parts := re_split_ws 2 (py_strip line) in
  if length parts <? 6 then Ok None else
  match py_slice parts None (Some 6%Z) with
  | [policy; name; plan; premium; agent_id; agent] =>
      if negb (re_ok POLICY_SHAPE policy) then Ok None
      else if negb (re_ok PLAN_SHAPE plan) then Ok None
      else if negb (re_ok PREMIUM_SHAPE premium) then Ok None
      else if negb (re_ok AGENT_ID_SHAPE agent_id) then Ok None
      else Ok (Some (UWRec [] policy (py_title name) (Some plan)
                       (to_float_premium premium) agent_id (py_title agent) None))
  | _ => Raise ValueError
  end.

(** [_parse_uw_line_by_columns]. *)
Definition parse_uw_line_by_columns (line : pystr) : exc (option uw_record) :=
  let parts := re_split_ws 2 (py_strip line) in
  if length parts <? 5 then Ok None else
  match py_slice parts None (Some 5%Z) with
  | [policy; name; requirement; agent_id; agent] =>
      if negb (re_ok POLICY_SHAPE policy) then Ok None
      else if negb (re_ok AGENT_ID_SHAPE agent_id) then Ok None
      else Ok (Some (UWRec [] policy (py_title name) None None agent_id
                       (py_title agent) (Some (py_strip requirement))))
  | _ => Raise ValueError
  end.

(** [max(i for i, t in enumerate(parts) if re.match(r"^\d{6,7}$", t))];
    [None] is the [ValueError] of [max] on an empty sequence. *)
Definition last_agent_id_index (parts : list pystr) : option nat :=
  fold_left (fun acc it => if re_ok AGENT_ID_SHAPE it.2 then Some it.1 else acc)
    (zip (seq 0 (length parts)) parts) None.

(** [_parse_policy_line_by_tokens]. *)
Definition parse_policy_line_by_tokens (line : pystr) : exc (option uw_record) :=
  let parts := re_split_ws 1 (py_strip line) in
  if length parts <? 6 then Ok None else
  let! policy := py_get parts 0 in
  if negb (re_ok POLICY_SHAPE policy) then Ok None else
  match last_agent_id_index parts with
  | None => Ok None
  | Some i =>
      let idx := Z.of_nat i in
      let! agent_id := py_get parts idx in
      if (idx - 1 <? 0)%Z then Ok None else
      let! premium := py_get parts (idx - 1) in
      if negb (re_ok PREMIUM_SHAPE premium) then Ok None else
      if (idx - 2 <? 0)%Z then Ok None else
      let! plan := py_get parts (idx - 2) in
      if negb (re_ok PLAN_SHAPE plan) then Ok None else
      let name_tokens := py_slice parts (Some 1%Z) (Some (idx - 2)%Z) in
      if bool_decide (name_tokens = []) then Ok None else
      let name := py_join [" "%char] name_tokens in
      let agent_tokens := py_slice parts (Some (idx + 1)%Z) None in
      if bool_decide (agent_tokens = []) then Ok None else
      let agent := py_join [" "%char] agent_tokens in
      Ok (Some (UWRec [] policy (py_title name) (Some plan)
                  (to_float_premium premium) agent_id (py_title agent) None))
  end.

(** The strict-pattern record of [parse_report] (strategy 1). *)
Definition policy_re_record (status : pystr) (e : env) : uw_record :=
  UWRec status (group e "policy") (py_title (group e "name")) (Some (group e "plan"))
    (to_float_premium (group e "premium")) (group e "agent_id")
    (py_title (group e "agent")) None.

Definition uw_re_record (status : pystr) (e : env) : uw_record :=
  UWRec status (group e "policy") (py_title (group e "name")) None None
    (group e "agent_id") (py_title (group e "agent"))
    (Some (py_strip (group e "requirement"))).

(** [re.sub(r"\s+", " ", line)]. *)
Definition collapse_ws (s : pystr) : pystr := py_join [" "%char] (re_split_ws 1 s).

(** [detect_status], local to [parse_report]. *)
Definition detect_status (line : pystr) : option pystr :=
  let u := py_upper (py_strip (collapse_ws line)) in
  let has s := py_contains (chars s) u in
  if bool_decide (u = []) then None
  else if has "UNDERWRITING REQUIREMENTS" && has "ADDED"
  then Some (chars "UNDERWRITING REQUIREMENTS ADDED")
  else if has "UNDERWRITING REQUIREMENTS" && has "UPDATED"
  then Some (chars "UNDERWRITING REQUIREMENTS UPDATED")
  else if has "SUBMITTED" then Some (chars "SUBMITTED")
  else if has "ISSUED" then Some (chars "ISSUED")
  else if has "DELIVERED" then Some (chars "DELIVERED")
  else if has "DECLINE" || has "DECLINED" then Some (chars "DECLINE")
  else if has "INCOMPLETE" then Some (chars "INCOMPLETE")
  else if has "WITHDRAWN" then Some (chars "WITHDRAWN")
  else None.

Definition is_policy_status (status : option pystr) : bool :=
  match status with
  | None => true
  | Some s => existsb (fun x => bool_decide (s = chars x))
                ["SUBMITTED"; "ISSUED"; "DELIVERED"; "DECLINE"; "INCOMPLETE";
                 "WITHDRAWN"; "UNKNOWN"]
  end.

Definition is_requirement_status (status : option pystr) : bool :=
  match status with
  | None => false
  | Some s => existsb (fun x => bool_decide (s = chars x))
                ["UNDERWRITING REQUIREMENTS ADDED"; "UNDERWRITING REQUIREMENTS UPDATED"]
  end.

(** [status or "UNKNOWN"]. *)
Definition status_or_unknown (status : option pystr) : pystr :=
  match status with Some ((_ :: _) as s) => s | _ => chars "UNKNOWN" end.

(** The requirement block of the loop body (second [if] of the body). *)
Definition uw_requirement_block (status : option pystr) (line : pystr)
  : exc (option uw_record) :=
  if is_requirement_status status then
    match re_match_end UW_RE line with
    | Some e => Ok (Some (uw_re_record (status_or_unknown status) e))
    | None =>
        let! parsed := parse_uw_line_by_columns line in
        match parsed with
        | Some r => Ok (Some (set_status (status_or_unknown status) r))
        | None => Ok None
        end
    end
  else Ok None.

(** The classification of one non-header data line: the record appended,
    if any. *)
Definition uw_classify (status : option pystr) (line : pystr) : exc (option uw_record) :=
  if is_policy_status status then
    match re_match_end POLICY_RE line with
    | Some e => Ok (Some (policy_re_record (status_or_unknown status) e))
    | None =>
        let! parsed := parse_policy_line_by_columns line in
        match parsed with
        | Some r => Ok (Some (set_status (status_or_unknown status) r))
        | None =>
            let! parsed := parse_policy_line_by_tokens line in
            match parsed with
            | Some r => Ok (Some (set_status (status_or_unknown status) r))
            | None => uw_requirement_block status line
            end
        end
    end
  else uw_requirement_block status line.

Definition uw_state := (option pystr * list uw_record)%type.

(** One iteration of the loop of [parse_report]. *)
Definition uw_step (st : uw_state) (raw : pystr) : exc uw_state :=
  let '(status, out) := st in
  let line := py_rstrip raw in
  if bool_decide (py_strip line = []) then Ok st else
  match detect_status line with
  | Some ns => Ok (Some ns, out)
  | None =>
      let! r := uw_classify status line in
      match r with
      | Some rec => Ok (status, out ++ [rec])
      | None => Ok (status, out)
      end
  end.

Fixpoint uw_loop (st : uw_state) (lines : list pystr) : exc uw_state :=
  match lines with
  | [] => Ok st
  | l :: ls => let! st' := uw_step st l in uw_loop st' ls
  end.

(** [parse_report(text)]. *)
Definition parse_report (text : pystr) : exc (list uw_record) :=
  let! st := uw_loop (None, []) (py_splitlines text) in Ok st.2.

(** ** [helpers.date_to_iso]

    [datetime.strptime(raw, fmt)] for ["%m/%d/%y"] and ["%m/%d/%Y"]: the
    directive patterns of [_strptime] are
    [%m = 1[0-2]|0[1-9]|[1-9]], [%d = 3[01]|[12]\d|0[1-9]|[1-9]| [1-9]],
    [%y = \d\d], [%Y = \d\d\d\d]; none of them contains ["/"], so the
    fields are the ["/"]-separated parts; unconverted trailing data and
    invalid calendar dates raise [ValueError] ([None] here). *)
Fixpoint split_slash (s : pystr) : list pystr :=
  match s with
  | [] => [[]]
  | c :: t => if Ascii.eqb c "/"%char then [] :: split_slash t
              else prepend [c] (split_slash t)
  end.

Definition in_range (lo hi : nat) (c : ascii) : bool := (lo <=? code c) && (code c <=? hi).

Definition month_ok (m : pystr) : bool :=
  match m with
  | [a; b] => (Ascii.eqb a "1"%char && in_range 48 50 b)
              || (Ascii.eqb a "0"%char && in_range 49 57 b)
  | [a] => in_range 49 57 a
  | _ => false
  end.

Definition day_ok (d : pystr) : bool :=
  match d with
  | [a; b] => (Ascii.eqb a "3"%char && in_range 48 49 b)
              || (in_range 49 50 a && is_digit b)
              || (Ascii.eqb a "0"%char && in_range 49 57 b)
              || (Ascii.eqb a " "%char && in_range 49 57 b)
  | [a] => in_range 49 57 a
  | _ => false
  end.

Definition is_leap (y : Z) : bool :=
  ((y mod 4 =? 0)%Z && negb (y mod 100 =? 0)%Z) || (y mod 400 =? 0)%Z.

Definition days_in_month (y m : Z) : Z :=
  if (m =? 2)%Z then (if is_leap y then 29 else 28)
  else if existsb (Z.eqb m) [4; 6; 9; 11]%Z then 30 else 31.

Fixpoint digits_of_nat (fuel n : nat) : pystr :=
  match fuel with
  | 0 => []
  | S f => if n <? 10 then [ascii_of_nat (48 + n)]
           else digits_of_nat f (n / 10) ++ [ascii_of_nat (48 + n mod 10)]
  end.

(** ["%0*d" % (width, n)]. *)
Definition zero_pad (width : nat) (n : Z) : pystr :=
  let ds := digits_of_nat 20 (Z.to_nat n) in
  repeat "0"%char (width - length ds) ++ ds.

Definition digits_value (s : pystr) : Z := digits_to_Z (filter is_digit s).

Definition strptime_mdy (four_digit_year : bool) (s : pystr) : option (Z * Z * Z) :=
  match split_slash s with
  | [m; d; y] =>
      if month_ok m && day_ok d && forallb is_digit y
         && (length y =? (if four_digit_year then 4 else 2)) then
        let yv := digits_to_Z y in
        let year := if four_digit_year then yv
                    else if (yv <=? 68)%Z then (yv + 2000)%Z else (yv + 1900)%Z in
        let month := digits_value m in
        let day := digits_value d in
        if (1 <=? year)%Z && (day <=? days_in_month year month)%Z
        then Some (year, month, day) else None
      else None
  | _ => None
  end.

Definition iso_of (ymd : Z * Z * Z) : pystr :=
  let '(y, m, d) := ymd in
  zero_pad 4 y ++ ["-"%char] ++ zero_pad 2 m ++ ["-"%char] ++ zero_pad 2 d.

Definition date_to_iso (raw : pystr) : option pystr :=
  let r := py_strip raw in
  match strptime_mdy false r with
  | Some ymd => Some (iso_of ymd)
  | None => option_map iso_of (strptime_mdy true r)
  end.

(** ** [returns_parser.py] *)

(** [config.REASON_START]. *)
Definition REASON_START : list string :=
  ["NSF"; "RETURN"; "PAYMENT"; "NO"; "ACCT"; "ACCOUNT"; "CUSTOMER"; "CUST"; "NOT";
   "UNABLE"; "LOCATE"; "LOCAT"; "INVALID"; "REFER"; "STOPPED"; "CLOSED"; "CODE";
   "NUMBER"; "AUTH"; "R98"].

Definition in_reason_start (t : pystr) : bool :=
  existsb (fun k => bool_decide (t = chars k)) REASON_START.

Definition REGION_RE : list item :=
  [IAtom (star is_space)] ++ map IAtom (lits "REGION:") ++
  [IAtom (plus is_space); IGroup "1" [rep is_upper 2 2]; IAtom (plus is_space);
   IGroup "2" [plus is_digit]; IAtom (lit "-"); IGroup "3" [lazy_plus c_any];
   IAtom (star is_space)].

Definition AGENCY_RE : list item :=
  [IAtom (star is_space)] ++ map IAtom (lits "AGENCY:") ++
  [IAtom (plus is_space); IGroup "1" [rep is_upper 2 2; rep is_digit 3 3];
   IAtom (plus is_space); IGroup "2" [plus is_digit]; IAtom (lit "-");
   IGroup "3" [lazy_plus c_any]; IAtom (star is_space)].

(** [^\s*(\d{3})\s+(\d{10}[A-Z]?)\s+(.+)$] *)
Definition ITEM_RE : list item :=
  [IAtom (star is_space); IGroup "1" [rep is_digit 3 3]; IAtom (plus is_space);
   IGroup "2" [rep is_digit 10 10; opt is_upper]; IAtom (plus is_space);
   IGroup "3" [plus c_any]].

Definition TWO_DIGITS : list item := [IAtom (rep is_digit 2 2)].
Definition DATE_TOKEN : list item :=
  [IAtom (rep is_digit 2 2); IAtom (lit "/"); IAtom (rep is_digit 2 2);
   IAtom (lit "/"); IAtom (rep is_digit 2 4)].
Definition AMOUNT_TOKEN : list item :=
  [IAtom (star c_digit_comma); IAtom (lit "."); IAtom (rep is_digit 2 2)].
Definition R_CODE : list item := [IAtom (lit "R"); IAtom (rep is_digit 2 2)].

Definition re_full (p : list item) (s : pystr) : bool :=
  match re_fullmatch p s with Some _ => true | None => false end.

Record ret_record := RetRec {
  r_section : option pystr;
  r_company_code : pystr;
  r_policy_no : pystr;
  r_insured_name : pystr;
  r_bill_day : pystr;
  r_issue_date : option pystr;
  r_bill_no : option pystr;
  r_amount : option float;
  r_agency_code_line : option pystr;
  r_agent_num : option pystr;
  r_agent_name : option pystr;
  r_reason : option pystr;
  r_page_region_code : option pystr;
  r_page_region_desc : option pystr;
  r_page_agency_code : option pystr;
  r_page_agency_desc : option pystr
}.

Record ret_state := RetState {
  rs_items : list ret_record;
  rs_pre_notes : list ret_record;
  rs_region_code : option pystr;
  rs_region_desc : option pystr;
  rs_agency_code : option pystr;
  rs_agency_desc : option pystr;
  rs_section : option pystr
}.

(** The [for i in range(len(tokens) - 1)] scan for the first
    (2-digit, date) pair; [tokens[i]] and [tokens[i + 1]] are in range. *)
Fixpoint find_boundary_go (i : nat) (ts : list pystr) : option nat :=
  match ts with
  | t1 :: ((t2 :: _) as rest) =>
      if re_full TWO_DIGITS t1 && re_full DATE_TOKEN t2 then Some i
      else find_boundary_go (S i) rest
  | _ => None
  end.
Definition find_boundary (ts : list pystr) : option nat := find_boundary_go 0 ts.

(** [enumerate(rest2)] scan for the first reason token. *)
Definition is_reason_start (tok : pystr) : bool :=
  in_reason_start (py_upper tok) || re_full R_CODE (py_upper tok).

Fixpoint find_reason_go (k : nat) (ts : list pystr) : option nat :=
  match ts with
  | [] => None
  | t :: ts' => if is_reason_start t then Some k else find_reason_go (S k) ts'
  end.
Definition find_reason (ts : list pystr) : option nat := find_reason_go 0 ts.

Definition opt_token (ts : list pystr) (i : nat) : option pystr :=
  if i <? length ts then ts !! i else None.

(** The amount: a [[\d,]*\.\d{2}] token or [".00"], parsed in a [try]. *)
Definition parse_amount (raw_amount : option pystr) : option float :=
  match raw_amount with
  | Some ((_ :: _) as raw) =>
      if re_full AMOUNT_TOKEN raw || bool_decide (raw = chars ".00") then
        if bool_decide (raw = chars ".00") then Some (S754_zero false)
        else float_of_str (remove_char ","%char raw)
      else None
  | _ => None
  end.

(** [agent_name] and [reason] from [rest2]. *)
Definition split_agent_reason (rest2 : list pystr) : exc (option pystr * option pystr) :=
  let reason_idx := find_reason rest2 in
  let sp := [" "%char] in
  let agent_name :=
    match reason_idx with
    | Some k => if 0 <? k then Some (py_title (py_join sp (take k rest2)))
                else match rest2 with
                     | [] => None
                     | _ => Some (py_title (py_join sp (py_slice rest2 None (Some (-1)%Z))))
                     end
    | None => match rest2 with
              | [] => None
              | _ => Some (py_title (py_join sp (py_slice rest2 None (Some (-1)%Z))))
              end
    end in
  match reason_idx with
  | Some k => Ok (agent_name, Some (py_upper (py_join sp (drop k rest2))))
  | None =>
      match rest2 with
      | [] => Ok (agent_name, None)
      | _ => let! last := py_get rest2 (-1)%Z in Ok (agent_name, Some (py_upper last))
      end
  end.

Definition PRE_NOTES := chars "RETURNED PRE-NOTES".

(** The tokens of the remainder of an item line: [re.split(r'\s+', rest)]. *)
Definition item_tokens (e : env) : list pystr := re_split_ws 1 (py_strip (group e "3")).

(** One iteration of the loop of [parse_return_items]. *)
Definition ret_step (st : ret_state) (ln : pystr) : exc ret_state :=
  let u := py_strip (py_upper ln) in
  match re_match_end REGION_RE ln with
  | Some e =>
      Ok (RetState (rs_items st) (rs_pre_notes st) (Some (group e "1"))
            (Some (py_strip (group e "3"))) (rs_agency_code st) (rs_agency_desc st)
            (rs_section st))
  | None =>
  match re_match_end AGENCY_RE ln with
  | Some e =>
      Ok (RetState (rs_items st) (rs_pre_notes st) (rs_region_code st)
            (rs_region_desc st) (Some (group e "1")) (Some (py_strip (group e "3")))
            (rs_section st))
  | None =>
  let section :=
    if py_contains (chars "RETURNED ITEMS") u then Some (chars "RETURNED ITEMS")
    else if py_contains (chars "RETURNED PRE-NOTES") u
            || py_contains (chars "RETURNED PRE NOTES") u then Some PRE_NOTES
    else rs_section st in
  let st := RetState (rs_items st) (rs_pre_notes st) (rs_region_code st)
              (rs_region_desc st) (rs_agency_code st) (rs_agency_desc st) section in
  match re_match_end ITEM_RE ln with
  | None => Ok st
  | Some e =>
      let company_code := group e "1" in
      let policy_no := group e "2" in
      let tokens := item_tokens e in
      if length tokens <? 8 then Ok st else
      match find_boundary tokens with
      | None => Ok st
      | Some idx =>
          let sp := [" "%char] in
          let insured_name := py_title (py_join sp (take idx tokens)) in
          let! bill_day := py_get tokens (Z.of_nat idx) in
          let! date_tok := py_get tokens (Z.of_nat (idx + 1)) in
          let issue_date := date_to_iso date_tok in
          let bill_no := opt_token tokens (idx + 2) in
          let amount := parse_amount (opt_token tokens (idx + 3)) in
          let agency_code_line := opt_token tokens (idx + 4) in
          let agent_num := opt_token tokens (idx + 5) in
          let rest2 := drop (idx + 6) tokens in
          let! ar := split_agent_reason rest2 in
          let item := RetRec section company_code policy_no insured_name bill_day
                        issue_date bill_no amount agency_code_line agent_num ar.1 ar.2
                        (rs_region_code st) (rs_region_desc st)
                        (rs_agency_code st) (rs_agency_desc st) in
          if bool_decide (section = Some PRE_NOTES) then
            Ok (RetState (rs_items st) (rs_pre_notes st ++ [item]) (rs_region_code st)
                  (rs_region_desc st) (rs_agency_code st) (rs_agency_desc st) section)
          else
            Ok (RetState (rs_items st ++ [item]) (rs_pre_notes st) (rs_region_code st)
                  (rs_region_desc st) (rs_agency_code st) (rs_agency_desc st) section)
      end
  end end end.

Fixpoint ret_loop (st : ret_state) (lines : list pystr) : exc ret_state :=
  match lines with
  | [] => Ok st
  | l :: ls => let! st' := ret_step st l in ret_loop st' ls
  end.

Definition ret_init : ret_state := RetState [] [] None None None None None.

(** [parse_return_items(text)]: [(returned_items, returned_pre_notes)]. *)
Definition parse_return_items (text : pystr) : exc (list ret_record * list ret_record) :=
  let! st := ret_loop ret_init (py_splitlines text) in
  Ok (rs_items st, rs_pre_notes st).

(** ** [csv_parser.py] *)

(** A row as [csv.DictReader] yields it, and as the cleaning step returns
    it: an insertion-ordered dict from column name to cell ([None] for a
    missing cell). *)
Abbreviation crow := (list (pystr * option pystr)).

Definition dict_get (r : crow) (k : pystr) : option (option pystr) :=
  match find (fun p => bool_decide (p.1 = k)) r with
  | Some (_, v) => Some v
  | None => None
  end.

Definition dict_has (r : crow) (k : pystr) : bool :=
  match dict_get r k with Some _ => true | None => false end.

(** [(r.get(k) or "")]. *)
Definition get_or_empty (r : crow) (k : pystr) : pystr :=
  match dict_get r k with Some (Some v) => v | _ => [] end.

(** [_mostly_in_first_column]. *)
Definition only_first (first : pystr) (rest : list pystr) (r : crow) : bool :=
  negb (bool_decide (py_strip (get_or_empty r first) = []))
  && forallb (fun k => bool_decide (py_strip (get_or_empty r k) = [])) rest.

Definition mostly_in_first_column (rows : list crow) : bool :=
  match rows with
  | [] => false
  | r0 :: _ =>
      match map fst r0 with
      | [] => false
      | first :: rest =>
          let total := Nat.min (length rows) 50 in
          let bad := length (filter (only_first first rest) (take total rows)) in
          total / 2 <=? bad
      end
  end.

(** Step 2 of [parse_csv_robust]: [if not rows or _mostly_in_first_column(rows)]. *)
Definition repair_triggered (rows : list crow) : bool :=
  bool_decide (rows = []) || mostly_in_first_column rows.

(** [helpers.is_valid_policy_number] on a string. *)
Definition is_valid_policy_number (p : pystr) : bool :=
  match p with
  | [] => false
  | _ => re_ok POLICY_SHAPE (py_strip p)
  end.

Definition POLICY_COLUMN_CANDIDATES : list string :=
  ["Policy"; "Company"; "PolicyNumber"; "PolicyNo"; "Policy_Number"; "POLICY"; "COMPANY"].

(** Python's [int / int] on non-negative ints. *)
Definition int_div (a b : nat) : float :=
  if a =? 0 then S754_zero false else round_rat false (Pos.of_nat a) (Pos.of_nat b).

Definition FLOAT_0_3 : float := round_rat false 3 10.

(** The sample counts of one candidate: [(valid_count, total_count)]. *)
Definition column_counts (rows : list crow) (cand : pystr) : nat * nat :=
  fold_left (fun acc row =>
      match dict_get row cand with
      | Some (Some ((_ :: _) as v)) =>
          (if is_valid_policy_number v then S acc.1 else acc.1, S acc.2)
      | _ => acc
      end) (take 100 rows) (0, 0).

Definition detect_candidates (r0 : crow) : list pystr :=
  fold_left (fun cs k => if bool_decide (k ∈ cs) then cs else cs ++ [k])
    (map fst r0) (map chars POLICY_COLUMN_CANDIDATES).

(** The scan of [detect_policy_column]: [(best_column, best_score)]. *)
Definition detect_scan (rows : list crow) (r0 : crow) : option pystr * float :=
  fold_left (fun best cand =>
      if negb (dict_has r0 cand) then best else
      let '(valid, total) := column_counts rows cand in
      if 0 <? total then
        let score := int_div valid total in
        if f_ltb best.2 score then (Some cand, score) else best
      else best) (detect_candidates r0) (None, S754_zero false).

(** [detect_policy_column]. *)
Definition detect_policy_column (rows : list crow) : option pystr :=
  match rows with
  | [] => None
  | r0 :: _ =>
      let '(best_column, best_score) := detect_scan rows r0 in
      if f_leb FLOAT_0_3 best_score then best_column else None
  end.

Definition truthy (c : option pystr) : bool :=
  match c with Some (_ :: _) => true | _ => false end.

(** [str.isdigit()]. *)
Definition py_isdigit (s : pystr) : bool :=
  match s with [] => false | _ => forallb is_digit s end.

(** Step 3 of [parse_csv_robust] on the (non-empty) parsed rows: the
    policy column used for normalisation. *)
Definition choose_policy_column (rows : list crow) : option pystr :=
  let pc := detect_policy_column rows in
  if truthy pc then pc else
  match rows with
  | [] => pc
  | first_row :: _ =>
      let pc := match find (fun kv => match kv.2 with
                                      | Some v => py_isdigit (py_strip v)
                                      | None => false end) first_row with
                | Some (k, _) => Some k
                | None => pc
                end in
      if negb (truthy pc) && negb (bool_decide (first_row = [])) then
        match first_row with (k, _) :: _ => Some k | [] => pc end
      else pc
  end.

(** [config.CSV_COMPARISON_FIELDS] and [config.NUMERIC_FIELDS]. *)
Definition CSV_COMPARISON_FIELDS : list string :=
  ["WritingAgent"; "AgentName"; "Company"; "Status"; "DOB"; "PolicyDate";
   "PaidtoDate"; "RecvDate"; "LastName"; "FirstName"; "MI"; "Plan"; "Face";
   "Form"; "Mode"; "ModePrem"; "Address1"; "Address2"; "Address3"; "Address4";
   "State"; "Zip"; "Phone"; "Email"; "App Date"; "WrtPct"].

Definition NUMERIC_FIELDS : list string := ["Face"; "ModePrem"; "WrtPct"].

(** [str(v).strip().lower() if v is not None else ''] for [v = row.get(field, '')]. *)
Definition norm_value (r : crow) (field : pystr) : pystr :=
  match dict_get r field with
  | Some (Some v) => py_lower (py_strip v)
  | _ => []
  end.

Definition FLOAT_0_01 : float := round_rat false 1 100.

(** [float(x.replace(',', '')) if x else 0]; [None] is the [ValueError]. *)
Definition num_of_norm (x : pystr) : option float :=
  match x with
  | [] => Some (S754_zero false)
  | _ => float_of_str (remove_char ","%char x)
  end.

(** The per-field test of the comparison loop: does [field] count as a change? *)
Definition field_differs (field : string) (old_row new_row : crow) : bool :=
  let old_norm := norm_value old_row (chars field) in
  let new_norm := norm_value new_row (chars field) in
  if bool_decide (field ∈ NUMERIC_FIELDS) then
    match num_of_norm old_norm, num_of_norm new_norm with
    | Some old_num, Some new_num => f_ltb FLOAT_0_01 (f_abs (f_sub old_num new_num))
    | _, _ => negb (bool_decide (old_norm = new_norm))
    end
  else negb (bool_decide (old_norm = new_norm)).

Definition has_changes (old_row new_row : crow) : bool :=
  existsb (fun f => field_differs f old_row new_row) CSV_COMPARISON_FIELDS.

Definition POLICY_KEY : pystr := chars "Policy".

(** [row['Policy']] when [row and row.get('Policy')]. *)
Definition policy_key (r : crow) : option pystr :=
  match r with
  | [] => None
  | _ => match dict_get r POLICY_KEY with
         | Some (Some ((_ :: _) as p)) => Some p
         | _ => None
         end
  end.

(** [{row['Policy']: row for row in rows if row and row.get('Policy')}]. *)
Definition key_rows (rows : list crow) : gmap pystr crow :=
  fold_left (fun m r => match policy_key r with Some p => <[p := r]> m | None => m end)
    rows ∅.

Inductive cmp_result :=
  | CmpError (msg : string)
  | CmpOk (added : list crow) (modified : list crow).

Definition has_policy_column (rows : list crow) : bool :=
  match rows with r0 :: _ => dict_has r0 POLICY_KEY | [] => false end.

(** The diff of [compare_files_as_json_sync] on the two parsed row lists;
    the set iteration order of Python is the order of [elements]. *)
Definition compare_rows (list_new list_old : list crow) : cmp_result :=
  if negb (has_policy_column list_new) then
    CmpError "'Policy' column not found in the new file."
  else if negb (has_policy_column list_old) then
    CmpError "'Policy' column not found in the old file."
  else
    let map_new := key_rows list_new in
    let map_old := key_rows list_old in
    let keys_new : gset pystr := dom map_new in
    let keys_old : gset pystr := dom map_old in
    let added := omap (fun pid => map_new !! pid) (elements (keys_new ∖ keys_old)) in
    let modified :=
      omap (fun pid =>
              match map_old !! pid, map_new !! pid with
              | Some old_row, Some new_row =>
                  if has_changes old_row new_row then Some new_row else None
              | _, _ => None
              end) (elements (keys_new ∩ keys_old)) in
    CmpOk added modified.

(** [compare_files_as_json_sync] once the old content is fetched: both
    contents go through the loader [parse_csv] (an exception of the loader
    becomes the error result of the outer [except]). *)
Definition compare_contents (parse_csv : pystr -> exc (list crow))
  (new_content old_content : pystr) : cmp_result :=
  match parse_csv new_content with
  | Raise _ => CmpError "Error during JSON data comparison"
  | Ok list_new =>
      match parse_csv old_content with
      | Raise _ => CmpError "Error during JSON data comparison"
      | Ok list_old => compare_rows list_new list_old
      end
  end.

(** ** Lines that match no grammar *)

Definition is_none {A} (o : option A) : bool :=
  match o with None => true | Some _ => false end.

(** A report line that is not a status header and that none of the five
    strategies of [parse_report] parses. *)
Definition uw_no_grammar (raw : pystr) : bool :=
  let line := py_rstrip raw in
  let no_record m := match m with Ok None => true | _ => false end in
  is_none (detect_status line) && is_none (re_match_end POLICY_RE line)
  && no_record (parse_policy_line_by_columns line)
  && no_record (parse_policy_line_by_tokens line)
  && is_none (re_match_end UW_RE line)
  && no_record (parse_uw_line_by_columns line).

(** A returns line that is neither a region nor an agency header, names no
    section, and is not an item line with 8 tokens and a boundary. *)
Definition ret_no_grammar (ln : pystr) : bool :=
  let u := py_strip (py_upper ln) in
  is_none (re_match_end REGION_RE ln) && is_none (re_match_end AGENCY_RE ln)
  && negb (py_contains (chars "RETURNED ITEMS") u)
  && negb (py_contains (chars "RETURNED PRE-NOTES") u)
  && negb (py_contains (chars "RETURNED PRE NOTES") u)
  && match re_match_end ITEM_RE ln with
     | None => true
     | Some e => (length (item_tokens e) <? 8) || is_none (find_boundary (item_tokens e))
     end.

(** The shape of an underwriting record: plan and annual premium both set
    or both absent; requirement set exactly when they are absent. *)
Definition uw_shape_ok (r : uw_record) : Prop :=
  (uw_plan r = None <-> uw_annual_premium r = None) /\
  (uw_requirement_desc r <> None <-> uw_plan r = None).

(** The section of a returns record or state: absent, or one of the two
    section names. *)
Definition ret_section_ok (s : option pystr) : Prop :=
  s = None \/ s = Some (chars "RETURNED ITEMS") \/ s = Some PRE_NOTES.

Definition ret_inv (st : ret_state) : Prop :=
  ret_section_ok (rs_section st) /\
  Forall (fun r => r_section r = None \/ r_section r = Some (chars "RETURNED ITEMS"))
    (rs_items st) /\
  Forall (fun r => r_section r = Some PRE_NOTES) (rs_pre_notes st).

(** A line that sets no section in the loop of [parse_return_items]:
    neither test on [u = ln.upper().strip()] succeeds. *)
Definition section_header_free (ln : pystr) : bool :=
  let u := py_strip (py_upper ln) in
  negb (py_contains (chars "RETURNED ITEMS") u) &&
  negb (py_contains (chars "RETURNED PRE-NOTES") u || py_contains (chars "RETURNED PRE NOTES") u).

(** The loop state before any section header: no section, and every
    record so far in returned_items with no section. *)
Definition no_section_yet (st : ret_state) : Prop :=
  rs_section st = None /\ rs_pre_notes st = [] /\
  Forall (fun r => r_section r = None) (rs_items st).

(** ** A relational reading of the matcher *)
Fixpoint atoms_sem (l : list atom) (w : pystr) : Prop :=
  match l with
  | [] => w = []
  | a :: l' =>
      exists n, a_lo a <= n /\
        (match a_hi a with Some h => n <= h | None => True end) /\
        n <= length w /\ Forall (fun c => a_cls a c = true) (take n w) /\
        atoms_sem l' (drop n w)
  end.

Fixpoint items_groups (its : list item) : list (string * list atom) :=
  match its with
  | [] => []
  | IAtom _ :: t => items_groups t
  | IGroup g b :: t => (g, b) :: items_groups t
  end.

(** [items_sem its s gs r]: the items [its] match a prefix of [s], leaving
    [r], with the groups [gs]; it records where each item matched. *)
Fixpoint items_sem (its : list item) (s : pystr) (gs : env) (r : pystr) : Prop :=
  match its with
  | [] => gs = [] /\ r = s
  | IAtom a :: t =>
      exists w s', s = w ++ s' /\ atoms_sem [a] w /\ items_sem t s' gs r
  | IGroup g b :: t =>
      exists w s' gs', s = w ++ s' /\ atoms_sem b w /\ gs = (g, w) :: gs' /\
        items_sem t s' gs' r
  end.

(** A policy-activity line with two six-digit numbers. *)
Definition policy_line_two_ids : pystr :=
  chars "0108338110  X P 1.00 111111 Y  PLAN  2.00  222222  AG".

(** ** Further functions of the parsers and helpers *)


Definition policy_shape (p : pystr) : Prop :=
  exists ds u, p = ds ++ u /\ 9 <= length ds <= 10 /\
    Forall (fun c => is_digit c = true) ds /\
    length u <= 1 /\ Forall (fun c => is_upper c = true) u.

Definition agent_id_shape (p : pystr) : Prop :=
  6 <= length p <= 7 /\ Forall (fun c => is_digit c = true) p.

(** A string that does not end with whitespace. *)
Definition ntw (p : pystr) : Prop := forall x c, p = x ++ [c] -> is_space c = false.

Definition in_strs (l : list string) (x : pystr) : bool :=
  existsb (fun k => bool_decide (x = chars k)) l.

Definition POLICY_STATUSES : list string :=
  ["SUBMITTED"; "ISSUED"; "DELIVERED"; "DECLINE"; "INCOMPLETE"; "WITHDRAWN"; "UNKNOWN"].

Definition REQUIREMENT_STATUSES : list string :=
  ["UNDERWRITING REQUIREMENTS ADDED"; "UNDERWRITING REQUIREMENTS UPDATED"].

Definition uw_status_ok (r : uw_record) : Prop :=
  match uw_plan r with
  | Some _ => in_strs POLICY_STATUSES (uw_status r) = true
  | None => in_strs REQUIREMENT_STATUSES (uw_status r) = true
  end.

Definition uw_ids_ok (r : uw_record) : Prop :=
  policy_shape (uw_policy_no r) /\ agent_id_shape (uw_agent_id r).

Definition fixed_shape (n : nat) (p : ascii -> bool) (w : pystr) : Prop :=
  length w = n /\ Forall (fun c => p c = true) w.

Definition opt_shape (P : pystr -> Prop) (o : option pystr) : Prop :=
  match o with None => True | Some x => P x end.

Definition agency_code_shape (c : pystr) : Prop :=
  exists a b, c = a ++ b /\ fixed_shape 2 is_upper a /\ fixed_shape 3 is_digit b.

Definition item_policy_shape (p : pystr) : Prop :=
  exists ds u, p = ds ++ u /\ fixed_shape 10 is_digit ds /\
    length u <= 1 /\ Forall (fun c => is_upper c = true) u.

Definition ret_rec_ok (r : ret_record) : Prop :=
  fixed_shape 3 is_digit (r_company_code r) /\ item_policy_shape (r_policy_no r) /\
  fixed_shape 2 is_digit (r_bill_day r) /\
  opt_shape (fixed_shape 2 is_upper) (r_page_region_code r) /\
  opt_shape agency_code_shape (r_page_agency_code r).

Definition ret_shape_inv (st : ret_state) : Prop :=
  opt_shape (fixed_shape 2 is_upper) (rs_region_code st) /\
  opt_shape agency_code_shape (rs_agency_code st) /\
  Forall ret_rec_ok (rs_items st) /\ Forall ret_rec_ok (rs_pre_notes st).

(** A Python float [x] with [x >= 0] and a clear sign bit. *)
Definition float_nonneg (f : float) : Prop :=
  match f with
  | S754_zero s | S754_infinity s | S754_finite s _ _ => s = false
  | S754_nan => False
  end.

Definition opt_float_nonneg (o : option float) : Prop :=
  match o with None => True | Some f => float_nonneg f end.

Definition ret_amount_ok (r : ret_record) : Prop := opt_float_nonneg (r_amount r).

Definition uw_premium_ok (r : uw_record) : Prop := opt_float_nonneg (uw_annual_premium r).

(** ** Dates *)

Definition two_digit_year (yy : Z) : Z := if (yy <=? 68)%Z then (yy + 2000)%Z else (yy + 1900)%Z.

Definition valid_ymd (y m d : Z) : Prop :=
  (1 <= y <= 9999)%Z /\ (1 <= m <= 12)%Z /\ (1 <= d <= days_in_month y m)%Z.

Definition mdy_string (mm dd yy : pystr) : pystr := mm ++ "/"%char :: dd ++ "/"%char :: yy.

(** ** Row cleaning *)

(** [d[k] = v] on an insertion-ordered dict: an existing key keeps its
    position, a new key goes last. *)
Definition dict_set (r : crow) (k : pystr) (v : option pystr) : crow :=
  if dict_has r k then map (fun p => if bool_decide (p.1 = k) then (k, v) else p) r
  else r ++ [(k, v)].

(** [clean_value]: [value.strip()] for a string, and [""] becomes [None]. *)
Definition clean_value (v : option pystr) : option pystr :=
  match v with
  | Some s => if bool_decide (py_strip s = []) then None else Some (py_strip s)
  | None => None
  end.

(** [clean_key = key.strip() if key else None]. *)
Definition clean_key (k : pystr) : option pystr :=
  match k with [] => None | _ => Some (py_strip k) end.

(** The loop over [row.items()]: [if clean_key: cleaned_row[clean_key] = clean_value]. *)
Definition clean_fields (row : crow) : crow :=
  fold_left (fun acc kv =>
      match clean_key kv.1 with
      | Some ((_ :: _) as ck) => dict_set acc ck (clean_value kv.2)
      | _ => acc
      end) row [].

Definition opt_str (v : option pystr) : pystr := match v with Some s => s | None => [] end.

(** [clean_and_normalize_row_with_policy_column(row, policy_column)] for a
    row of [csv.DictReader] ([None] is the [return None]). *)
Definition clean_and_normalize_row_with_policy_column (row : crow) (policy_column : option pystr)
  : option crow :=
  let cleaned := clean_fields row in
  let cleaned :=
    match policy_column with
    | Some pc => match dict_get cleaned pc with
                 | Some v => dict_set cleaned POLICY_KEY v
                 | None => cleaned
                 end
    | None => cleaned
    end in
  let policy := match dict_get cleaned POLICY_KEY with Some v => v | None => None end in
  if truthy policy && negb (is_valid_policy_number (opt_str policy)) then
    if negb (existsb (fun kv => truthy kv.2 && negb (bool_decide (py_strip (opt_str kv.2) = [])))
               cleaned)
    then None else Some cleaned
  else Some cleaned.

(** Step 4 of [parse_csv_robust]: the rows kept after cleaning. *)
Definition normalize_rows (rows : list crow) (policy_column : option pystr) : list crow :=
  omap (fun r => clean_and_normalize_row_with_policy_column r policy_column) rows.

(** Steps 3 and 4 of [parse_csv_robust] on the parsed rows. *)
Definition clean_parsed_rows (rows : list crow) : list crow :=
  normalize_rows rows (choose_policy_column rows).

Definition stripped_nonempty (s : pystr) : Prop := s <> [] /\ py_strip s = s.

Definition clean_inv (r : crow) : Prop :=
  NoDup (map fst r) /\ Forall stripped_nonempty (map fst r) /\
  Forall (opt_shape stripped_nonempty) (map snd r).

Definition is_quote (c : ascii) : bool := Ascii.eqb c "034"%char.

(** [str.replace] of a doubled quote character by a single one: left to
    right, non-overlapping. *)
Fixpoint replace_dq (s : pystr) : pystr :=
  match s with
  | c :: ((d :: t) as r) => if is_quote c && is_quote d then c :: replace_dq t else c :: replace_dq r
  | _ => s
  end.

Definition py_startswith_char (s : pystr) (c : ascii) : bool :=
  match s with x :: _ => Ascii.eqb x c | [] => false end.

Definition py_endswith_char (s : pystr) (c : ascii) : bool :=
  match last s with Some x => Ascii.eqb x c | None => false end.

Definition normalize_line (ln : pystr) : pystr :=
  if py_startswith_char ln "034"%char && py_endswith_char ln "034"%char
  then replace_dq (py_slice ln (Some 1%Z) (Some (-1)%Z))
  else ln.

Definition normalize_csv_content (content : pystr) : pystr :=
  py_join ["010"%char] (map normalize_line (py_splitlines content)).

(** A line as a writer that quotes every field of a one-field row writes it:
    inner quotes doubled, the whole line wrapped in quotes. *)
Fixpoint double_quotes (s : pystr) : pystr :=
  match s with
  | [] => []
  | c :: t => if is_quote c then c :: c :: double_quotes t else c :: double_quotes t
  end.

Definition quote_line (s : pystr) : pystr := "034"%char :: double_quotes s ++ ["034"%char].

Definition no_break (s : pystr) : Prop := Forall (fun c => is_line_break c = false) s.

(** ** Report dates *)

(** [\w] on ASCII. *)
Definition is_word (c : ascii) : bool :=
  is_digit c || is_upper c || is_lower c || Ascii.eqb c "_"%char.

(** [\b] between the character [prev] (if any) and the text [next]. *)
Definition at_boundary (prev : option ascii) (next : pystr) : bool :=
  xorb (match prev with Some c => is_word c | None => false end)
       (match next with c :: _ => is_word c | [] => false end).

(** [re.search]: the first position [0..len(s)] where [f] (given the
    character before the position) succeeds. *)
Fixpoint search_go {R} (prev : option ascii) (s : pystr)
  (f : option ascii -> pystr -> option R) : option R :=
  match f prev s with
  | Some x => Some x
  | None => match s with [] => None | c :: t => search_go (Some c) t f end
  end.

Definition re_search (its : list item) (s : pystr) : option env :=
  search_go None s (fun _ t => match_items its [] t (fun e _ => Some e)).

(** [\d{1,2}/\d{1,2}/\d{2,4}] *)
Definition DATE_ATOMS : list atom :=
  [rep is_digit 1 2; lit "/"; rep is_digit 1 2; lit "/"; rep is_digit 2 4].

(** A literal character under [re.IGNORECASE]. *)
Definition ci_lit (c : ascii) : atom := one (fun x => Ascii.eqb (to_lower x) (to_lower c)).

(** [(\d{1,2}/\d{1,2}/\d{2,4})\s+DAILY NEW BUSINESS/UNDERWRITING ACTIVITY REPORT],
    [re.IGNORECASE]. *)
Definition UW_HEADER_TEXT : string := "DAILY NEW BUSINESS/UNDERWRITING ACTIVITY REPORT".

Definition UW_HEADER_RE : list item :=
  [IGroup "1" DATE_ATOMS; IAtom (plus is_space)] ++
  map (fun c => IAtom (ci_lit c)) (chars UW_HEADER_TEXT).

(** [(\d{1,2}/\d{1,2}/\d{2,4})] *)
Definition DATE_RE : list item := [IGroup "1" DATE_ATOMS].

(** [re.search(r'\b(\d{1,2}/\d{1,2}/\d{2,4})\b', s)]: the character before
    the end of the group is the last one it matched. *)
Definition search_date_bounded (s : pystr) : option env :=
  search_go None s (fun prev t =>
    if at_boundary prev t then
      match_items DATE_RE [] t (fun e r =>
        if at_boundary (last (group e "1")) r then Some e else None)
    else None).

(** The fallback shared by both extractors: a bounded date in [text[:500]]. *)
Definition fallback_date (text : pystr) : option pystr :=
  match search_date_bounded (take 500 text) with
  | Some e => date_to_iso (group e "1")
  | None => None
  end.

(** [underwriting_parser.extract_report_date_iso]. *)
Definition extract_report_date_iso (text : pystr) : option pystr :=
  match first_some (fun line =>
          match re_search UW_HEADER_RE line with
          | Some e => match date_to_iso (group e "1") with
                      | Some ((_ :: _) as iso) => Some iso
                      | _ => None
                      end
          | None => None
          end) (take 20 (py_splitlines text)) with
  | Some iso => Some iso
  | None => fallback_date text
  end.

(** [returns_parser.extract_return_report_date_iso]: the inner [Some] is
    the [return] inside the loop. *)
Definition extract_return_report_date_iso (text : pystr) : option pystr :=
  match first_some (fun line =>
          if py_contains (chars "DAILY RETURN DRAFT") (py_upper line) then
            match re_search DATE_RE line with
            | Some e => Some (date_to_iso (group e "1"))
            | None => None
            end
          else None) (take 30 (py_splitlines text)) with
  | Some r => r
  | None => fallback_date text
  end.

Definition date_piece (w : pystr) : Prop :=
  exists mm dd yy, w = mdy_string mm dd yy /\
    1 <= length mm <= 2 /\ 1 <= length dd <= 2 /\ 2 <= length yy <= 4 /\
    Forall (fun c => is_digit c = true) mm /\ Forall (fun c => is_digit c = true) dd /\
    Forall (fun c => is_digit c = true) yy.

Definition no_digit_head (r : pystr) : Prop :=
  match r with c :: _ => is_digit c = false | [] => True end.

(** ** Policy-column detection *)

Definition column_step (cand : pystr) (acc : nat * nat) (row : crow) : nat * nat :=
  match dict_get row cand with
  | Some (Some ((_ :: _) as v)) =>
      (if is_valid_policy_number v then S acc.1 else acc.1, S acc.2)
  | _ => acc
  end.

Definition scan_inv (rows : list crow) (r0 : crow) (best : option pystr * float) : Prop :=
  forall c, best.1 = Some c ->
    dict_has r0 c = true /\
    best.2 = int_div (column_counts rows c).1 (column_counts rows c).2.

(** ** The diff of two row lists *)

Definition key_step (m : gmap pystr crow) (r : crow) : gmap pystr crow :=
  match policy_key r with Some p => <[p := r]> m | None => m end.

(** ** [helpers.normalize_filename] *)

(** [s.rfind(c)]: the last index of [c], [-1] when absent. *)
Fixpoint rfind_go (c : ascii) (s : pystr) (i : nat) (acc : Z) : Z :=
  match s with
  | [] => acc
  | x :: t => rfind_go c t (S i) (if Ascii.eqb x c then Z.of_nat i else acc)
  end.

Definition py_rfind (c : ascii) (s : pystr) : Z := rfind_go c s 0 (-1).

(** [posixpath.splitext]: the last dot after the last slash starts the
    extension, unless only dots precede it in the last component. *)
Definition splitext (p : pystr) : pystr * pystr :=
  let sep_index := py_rfind "/"%char p in
  let dot_index := py_rfind "."%char p in
  if (sep_index <? dot_index)%Z then
    if existsb (fun c => negb (Ascii.eqb c "."%char))
         (py_slice p (Some (sep_index + 1)%Z) (Some dot_index))
    then (take (Z.to_nat dot_index) p, drop (Z.to_nat dot_index) p)
    else (p, [])
  else (p, []).

(** [re.sub(r'[^\w\-_.]', '_', name)] *)
Definition safe_char (c : ascii) : bool :=
  is_word c || Ascii.eqb c "-"%char || Ascii.eqb c "."%char.

Definition sub_unsafe (s : pystr) : pystr :=
  map (fun c => if safe_char c then c else "_"%char) s.

(** [re.sub(r'_+', '_', s)]; [prev_us]: the last character kept is ['_']. *)
Fixpoint collapse_us (prev_us : bool) (s : pystr) : pystr :=
  match s with
  | [] => []
  | c :: t =>
      if Ascii.eqb c "_"%char then
        if prev_us then collapse_us true t else c :: collapse_us true t
      else c :: collapse_us false t
  end.

(** [s.strip(chars)] for the characters satisfying [p]. *)
Fixpoint lstrip_by (p : ascii -> bool) (s : pystr) : pystr :=
  match s with
  | c :: t => if p c then lstrip_by p t else s
  | [] => []
  end.

Definition strip_by (p : ascii -> bool) (s : pystr) : pystr :=
  rev (lstrip_by p (rev (lstrip_by p s))).

Definition is_us (c : ascii) : bool := Ascii.eqb c "_"%char.

(** [normalize_filename(filename)] with [stamp] the value of
    [datetime.now().strftime("%Y%m%d_%H%M%S")]. *)
Definition normalize_filename (filename stamp : pystr) : pystr :=
  match filename with
  | [] => chars "file.csv"
  | _ =>
      let '(name, ext) := splitext filename in
      let normalized_name := strip_by is_us (collapse_us false (sub_unsafe name)) in
      let normalized_name := match normalized_name with [] => chars "file" | _ => normalized_name end in
      normalized_name ++ "_"%char :: stamp ++ ext
  end.

Fixpoint no_double_us (s : pystr) : bool :=
  match s with
  | a :: ((b :: _) as t) => negb (is_us a && is_us b) && no_double_us t
  | _ => true
  end.

(** The sanitised base name: non-empty, only [\w], ['-'] and ['.'], no two
    underscores in a row, no underscore at either end. *)
Definition base_name_ok (n : pystr) : Prop :=
  n <> [] /\ Forall (fun c => safe_char c = true) n /\ no_double_us n = true /\
  hd_error n <> Some "_"%char /\ last n <> Some "_"%char.

(** * Properties *)

Ltac inv_groups H :=
  repeat match type of H with
  | Forall2 _ (_ :: _) _ =>
      let gw := fresh "gw" in let Hgw := fresh "Hgw" in let H' := fresh H in
      apply Forall2_cons_inv_l in H as (gw & ? & Hgw & H' & ->); rename H' into H;
      destruct gw; destruct Hgw as [? ?]; simpl in *; subst
  | Forall2 _ [] _ => apply Forall2_nil_inv_l in H as ->
  end.

Ltac split_andb :=
  repeat match goal with
  | H : _ && _ = true |- _ => apply andb_prop in H as [? ?]
  end.



(** ** Helper lemmas *)

Lemma py_get_nat {A} (l : list A) (n : nat) :
  n < length l -> exists x, l !! n = Some x /\ py_get l (Z.of_nat n) = Ok x.
Proof.
  intros Hn. destruct (lookup_lt_is_Some_2 l n Hn) as [x Hx].
  exists x. split; [done|]. unfold py_get.
  replace (Z.of_nat n <? 0)%Z with false by (symmetry; apply Z.ltb_ge; lia).
  replace ((Z.of_nat n <? 0)%Z || (Z.of_nat (length l) <=? Z.of_nat n)%Z) with false
    by (symmetry; apply orb_false_iff; split; [apply Z.ltb_ge|apply Z.leb_gt]; lia).
  rewrite Nat2Z.id, Hx. done.
Qed.

Lemma py_get_last {A} (l : list A) :
  l <> [] -> exists x, py_get l (-1)%Z = Ok x.
Proof.
  intros Hl. assert (Hlen : 1 <= length l) by (destruct l; [done|simpl; lia]).
  unfold py_get. replace (-1 <? 0)%Z with true by done.
  rewrite (proj2 (Z.ltb_ge _ _)) by lia.
  rewrite (proj2 (Z.leb_gt _ _)) by lia. simpl.
  destruct (lookup_lt_is_Some_2 l (Z.to_nat (-1 + Z.of_nat (length l)))) as [x Hx]; [lia|].
  rewrite Hx. eauto.
Qed.

Lemma find_boundary_go_range (i j : nat) (ts : list pystr) :
  find_boundary_go i ts = Some j -> i <= j /\ j + 1 < i + length ts.
Proof.
  revert i. induction ts as [|t1 ts IH]; intros i H; [done|].
  simpl in H. destruct ts as [|t2 ts']; [done|].
  destruct (re_full TWO_DIGITS t1 && re_full DATE_TOKEN t2).
  - injection H as <-. simpl. lia.
  - apply IH in H. simpl in *. lia.
Qed.

Lemma find_boundary_range (j : nat) (ts : list pystr) :
  find_boundary ts = Some j -> j + 1 < length ts.
Proof. intros H. apply find_boundary_go_range in H. lia. Qed.

Lemma opt_token_none (ts : list pystr) (i : nat) :
  opt_token ts i = None <-> length ts <= i.
Proof.
  unfold opt_token. destruct (i <? length ts) eqn:E.
  - apply Nat.ltb_lt in E. destruct (lookup_lt_is_Some_2 ts i E) as [x ->].
    split; [done|lia].
  - apply Nat.ltb_ge in E. done.
Qed.

Lemma split_agent_reason_nil : split_agent_reason [] = Ok (None, None).
Proof. reflexivity. Qed.

Lemma split_agent_reason_ok (rest2 : list pystr) :
  exists ar, split_agent_reason rest2 = Ok ar.
Proof.
  unfold split_agent_reason.
  destruct (find_reason rest2); [eexists; reflexivity|].
  destruct rest2 as [|t ts]; [eexists; reflexivity|].
  destruct (py_get_last (t :: ts)) as [x Hx]; [done|].
  rewrite Hx. eexists. reflexivity.
Qed.


Lemma ret_step_ok (st : ret_state) (ln : pystr) : exists st', ret_step st ln = Ok st'.
Proof.
  unfold ret_step.
  destruct (re_match_end REGION_RE ln); [eauto|].
  destruct (re_match_end AGENCY_RE ln); [eauto|].
  destruct (re_match_end ITEM_RE ln) as [e|]; [|eauto].
  destruct (length (item_tokens e) <? 8); [eauto|].
  destruct (find_boundary (item_tokens e)) as [idx|] eqn:Hb; [|eauto].
  apply find_boundary_range in Hb.
  destruct (py_get_nat (item_tokens e) idx) as [bd [_ ->]]; [lia|]. simpl exc_bind.
  destruct (py_get_nat (item_tokens e) (idx + 1)) as [dt [_ ->]]; [lia|]. simpl exc_bind.
  destruct (split_agent_reason_ok (drop (idx + 6) (item_tokens e))) as [ar ->]. simpl exc_bind.
  case_match; eauto.
Qed.

Lemma ret_loop_ok (st : ret_state) (lines : list pystr) : exists st', ret_loop st lines = Ok st'.
Proof.
  revert st. induction lines as [|l ls IH]; intros st; simpl; [eauto|].
  destruct (ret_step_ok st l) as [st1 ->]. simpl. apply IH.
Qed.

Lemma ret_loop_app (st : ret_state) (pre post : list pystr) :
  ret_loop st (pre ++ post) = exc_bind (ret_loop st pre) (fun s => ret_loop s post).
Proof.
  revert st. induction pre as [|l ls IH]; intros st; simpl; [done|].
  destruct (ret_step st l); simpl; [apply IH|done].
Qed.

Lemma ret_step_inv (st st' : ret_state) (ln : pystr) :
  ret_inv st -> ret_step st ln = Ok st' -> ret_inv st'.
Proof.
  intros (Hs & Hi & Hp) H. unfold ret_step in H.
  destruct (re_match_end REGION_RE ln); [injection H as <-; done|].
  destruct (re_match_end AGENCY_RE ln); [injection H as <-; done|].
  match type of H with
  | context [RetState _ _ _ _ _ _ ?s] =>
      assert (Hsec : ret_section_ok s) by
        (unfold ret_section_ok; repeat case_match; auto);
      set (sec := s) in *
  end.
  destruct (re_match_end ITEM_RE ln) as [e|]; [|injection H as <-; done].
  destruct (length (item_tokens e) <? 8); [injection H as <-; done|].
  destruct (find_boundary (item_tokens e)) as [idx|]; [|injection H as <-; done].
  destruct (py_get (item_tokens e) (Z.of_nat idx)); [|done]. simpl in H.
  destruct (py_get (item_tokens e) (Z.of_nat (idx + 1))); [|done]. simpl in H.
  destruct (split_agent_reason (drop (idx + 6) (item_tokens e))); [|done]. simpl in H.
  case_bool_decide as Hpn; injection H as <-; simpl.
  - split; [done|]. split; [done|]. apply Forall_app; split; [done|].
    constructor; [done|constructor].
  - split; [done|]. split; [|done]. apply Forall_app; split; [done|].
    constructor; [|constructor]. simpl.
    destruct Hsec as [-> | [-> | ->]]; auto; done.
Qed.

Lemma ret_loop_inv (st st' : ret_state) (lines : list pystr) :
  ret_inv st -> ret_loop st lines = Ok st' -> ret_inv st'.
Proof.
  revert st. induction lines as [|l ls IH]; intros st Hst H; simpl in H.
  - injection H as <-. done.
  - destruct (ret_step st l) as [s1|] eqn:E; [|done]. simpl in H.
    apply (IH s1); [|done]. eapply ret_step_inv; eauto.
Qed.

Lemma ret_step_items_prefix (st st' : ret_state) (ln : pystr) :
  ret_step st ln = Ok st' -> exists rest, rs_items st' = rs_items st ++ rest.
Proof.
  intros H. unfold ret_step in H.
  destruct (re_match_end REGION_RE ln); [injection H as <-; exists []; simpl; rewrite app_nil_r; done|].
  destruct (re_match_end AGENCY_RE ln); [injection H as <-; exists []; simpl; rewrite app_nil_r; done|].
  destruct (re_match_end ITEM_RE ln) as [e|]; [|injection H as <-; exists []; simpl; rewrite app_nil_r; done].
  destruct (length (item_tokens e) <? 8); [injection H as <-; exists []; simpl; rewrite app_nil_r; done|].
  destruct (find_boundary (item_tokens e)) as [idx|];
    [|injection H as <-; exists []; simpl; rewrite app_nil_r; done].
  destruct (py_get (item_tokens e) (Z.of_nat idx)); [|done]. simpl in H.
  destruct (py_get (item_tokens e) (Z.of_nat (idx + 1))); [|done]. simpl in H.
  destruct (split_agent_reason (drop (idx + 6) (item_tokens e))); [|done]. simpl in H.
  case_bool_decide; injection H as <-; simpl; eauto.
  exists []. rewrite app_nil_r. done.
Qed.

Lemma ret_loop_items_prefix (st st' : ret_state) (lines : list pystr) :
  ret_loop st lines = Ok st' -> exists rest, rs_items st' = rs_items st ++ rest.
Proof.
  revert st. induction lines as [|l ls IH]; intros st H; simpl in H.
  - injection H as <-. exists []. rewrite app_nil_r. done.
  - destruct (ret_step st l) as [s1|] eqn:E; [|done]. simpl in H.
    destruct (IH s1 H) as [r2 ->]. destruct (ret_step_items_prefix _ _ _ E) as [r1 ->].
    exists (r1 ++ r2). rewrite app_assoc. done.
Qed.

Lemma ret_step_no_section (st st' : ret_state) (ln : pystr) :
  no_section_yet st -> section_header_free ln = true -> ret_step st ln = Ok st' ->
  no_section_yet st'.
Proof.
  intros (Hs & Hp & Hi) Hh H. unfold section_header_free in Hh.
  apply andb_true_iff in Hh as [H1 H2]. apply negb_true_iff in H1, H2.
  unfold ret_step in H. cbv zeta in H. rewrite H1, H2 in H. cbn iota in H. rewrite Hs in H.
  destruct (re_match_end REGION_RE ln); [injection H as <-; done|].
  destruct (re_match_end AGENCY_RE ln); [injection H as <-; done|].
  destruct (re_match_end ITEM_RE ln) as [e|]; [|injection H as <-; done].
  destruct (length (item_tokens e) <? 8); [injection H as <-; done|].
  destruct (find_boundary (item_tokens e)) as [idx|]; [|injection H as <-; done].
  destruct (py_get (item_tokens e) (Z.of_nat idx)); [|done]. simpl in H.
  destruct (py_get (item_tokens e) (Z.of_nat (idx + 1))); [|done]. simpl in H.
  destruct (split_agent_reason (drop (idx + 6) (item_tokens e))); [|done]. simpl in H.
  try (case_bool_decide as Hpn; [done|]). injection H as <-.
  split; [done|]. split; [done|]. simpl. apply Forall_app. split; [done|].
  constructor; [done|constructor].
Qed.

Lemma ret_loop_no_section (st st' : ret_state) (lines : list pystr) :
  no_section_yet st -> Forall (fun l => section_header_free l = true) lines ->
  ret_loop st lines = Ok st' -> no_section_yet st'.
Proof.
  revert st. induction lines as [|l ls IH]; intros st Hst Hl H; simpl in H.
  - injection H as <-. done.
  - inversion Hl as [|? ? Hh Hls]; subst.
    destruct (ret_step st l) as [s1|] eqn:E; [|done]. simpl in H.
    apply (IH s1); [|done|done]. eapply ret_step_no_section; eauto.
Qed.



Lemma py_get_Z {A} (l : list A) (i : Z) :
  (0 <= i < Z.of_nat (length l))%Z -> exists x, py_get l i = Ok x.
Proof.
  intros Hi. destruct (py_get_nat l (Z.to_nat i)) as [x [_ Hx]]; [lia|].
  rewrite Z2Nat.id in Hx by lia. eauto.
Qed.

Lemma py_slice_prefix_length {A} (l : list A) (k : nat) :
  k <= length l -> length (py_slice l None (Some (Z.of_nat k))) = k.
Proof.
  intros Hk. unfold py_slice, py_norm.
  rewrite (proj2 (Z.ltb_ge _ _)) by lia.
  rewrite drop_0, length_take. lia.
Qed.

Lemma parse_policy_line_by_columns_ok (line : pystr) :
  exists o, parse_policy_line_by_columns line = Ok o.
Proof.
  unfold parse_policy_line_by_columns.
  destruct (length (re_split_ws 2 (py_strip line)) <? 6) eqn:E; [eauto|].
  apply Nat.ltb_ge in E.
  pose proof (py_slice_prefix_length (re_split_ws 2 (py_strip line)) 6 E) as Hl.
  change (Z.of_nat 6) with 6%Z in Hl.
  destruct (py_slice _ None (Some 6%Z)) as [|a [|b [|c [|d [|f [|g [|h t]]]]]]];
    simpl in Hl; try lia.
  repeat case_match; eauto.
Qed.

Lemma parse_uw_line_by_columns_ok (line : pystr) :
  exists o, parse_uw_line_by_columns line = Ok o.
Proof.
  unfold parse_uw_line_by_columns.
  destruct (length (re_split_ws 2 (py_strip line)) <? 5) eqn:E; [eauto|].
  apply Nat.ltb_ge in E.
  pose proof (py_slice_prefix_length (re_split_ws 2 (py_strip line)) 5 E) as Hl.
  change (Z.of_nat 5) with 5%Z in Hl.
  destruct (py_slice _ None (Some 5%Z)) as [|a [|b [|c [|d [|f [|g t]]]]]];
    simpl in Hl; try lia.
  repeat case_match; eauto.
Qed.

Lemma in_zip_seq (s : nat) (parts : list pystr) (p : nat * pystr) :
  In p (zip (seq s (length parts)) parts) -> s <= p.1 < s + length parts.
Proof.
  revert s. induction parts as [|x xs IH]; intros s H; simpl in H; [done|].
  destruct H as [<-|H]; simpl; [lia|]. apply IH in H. lia.
Qed.

Lemma fold_agent_id_range (n : nat) (ps : list (nat * pystr)) (acc : option nat) :
  (forall p, In p ps -> p.1 < n) -> (forall i, acc = Some i -> i < n) ->
  forall i, fold_left (fun acc it => if re_ok AGENT_ID_SHAPE it.2 then Some it.1 else acc)
              ps acc = Some i -> i < n.
Proof.
  revert acc. induction ps as [|p ps IH]; intros acc Hps Hacc; simpl; [done|].
  apply IH; [intros q Hq; apply Hps; right; done|].
  intros i. case_match; [intros [= <-]; apply Hps; left; done|apply Hacc].
Qed.

Lemma last_agent_id_index_range (parts : list pystr) (i : nat) :
  last_agent_id_index parts = Some i -> i < length parts.
Proof.
  unfold last_agent_id_index. apply fold_agent_id_range; [|done].
  intros p Hp. apply in_zip_seq in Hp. lia.
Qed.

Lemma parse_policy_line_by_tokens_ok (line : pystr) :
  exists o, parse_policy_line_by_tokens line = Ok o.
Proof.
  unfold parse_policy_line_by_tokens.
  set (parts := re_split_ws 1 (py_strip line)).
  destruct (length parts <? 6) eqn:E; [eauto|]. apply Nat.ltb_ge in E.
  destruct (py_get_Z parts 0) as [policy ->]; [lia|]. simpl.
  destruct (negb (re_ok POLICY_SHAPE policy)); [eauto|].
  destruct (last_agent_id_index parts) as [i|] eqn:Hi; [|eauto].
  apply last_agent_id_index_range in Hi.
  destruct (py_get_Z parts (Z.of_nat i)) as [aid ->]; [lia|]. simpl.
  destruct (Z.of_nat i - 1 <? 0)%Z eqn:E1; [eauto|]. apply Z.ltb_ge in E1.
  destruct (py_get_Z parts (Z.of_nat i - 1)) as [prem ->]; [lia|]. simpl.
  destruct (negb (re_ok PREMIUM_SHAPE prem)); [eauto|].
  destruct (Z.of_nat i - 2 <? 0)%Z eqn:E2; [eauto|]. apply Z.ltb_ge in E2.
  destruct (py_get_Z parts (Z.of_nat i - 2)) as [plan ->]; [lia|]. simpl.
  repeat case_match; eauto.
Qed.

Lemma uw_requirement_block_ok (status : option pystr) (line : pystr) :
  exists o, uw_requirement_block status line = Ok o.
Proof.
  unfold uw_requirement_block. case_match; [|eauto].
  case_match; [eauto|].
  destruct (parse_uw_line_by_columns_ok line) as [o ->]. simpl.
  case_match; eauto.
Qed.

Lemma uw_classify_ok (status : option pystr) (line : pystr) :
  exists o, uw_classify status line = Ok o.
Proof.
  unfold uw_classify. case_match; [|apply uw_requirement_block_ok].
  case_match; [eauto|].
  destruct (parse_policy_line_by_columns_ok line) as [o ->]. simpl.
  case_match; [eauto|].
  destruct (parse_policy_line_by_tokens_ok line) as [o' ->]. simpl.
  case_match; [eauto|apply uw_requirement_block_ok].
Qed.

Lemma uw_step_ok (st : uw_state) (raw : pystr) : exists st', uw_step st raw = Ok st'.
Proof.
  destruct st as [status out]. unfold uw_step.
  case_match; [eauto|]. case_match; [eauto|].
  destruct (uw_classify_ok status (py_rstrip raw)) as [o ->]. simpl.
  case_match; eauto.
Qed.

Lemma uw_loop_ok (st : uw_state) (lines : list pystr) : exists st', uw_loop st lines = Ok st'.
Proof.
  revert st. induction lines as [|l ls IH]; intros st; simpl; [eauto|].
  destruct (uw_step_ok st l) as [st1 ->]. simpl. apply IH.
Qed.

Lemma uw_loop_app (st : uw_state) (pre post : list pystr) :
  uw_loop st (pre ++ post) = exc_bind (uw_loop st pre) (fun s => uw_loop s post).
Proof.
  revert st. induction pre as [|l ls IH]; intros st; simpl; [done|].
  destruct (uw_step st l); simpl; [apply IH|done].
Qed.

Lemma take_pred_length {A} (l : list A) : take (length l - 1) l = removelast l.
Proof.
  induction l as [|x [|y t] IH]; [done|done|].
  simpl in *. rewrite Nat.sub_0_r in IH. rewrite <- IH.
  replace (S (length t) - 0) with (S (length t)) by lia. done.
Qed.

Lemma py_slice_removelast {A} (l : list A) :
  py_slice l None (Some (-1)%Z) = removelast l.
Proof.
  unfold py_slice, py_norm. replace (-1 <? 0)%Z with true by done.
  rewrite drop_0, Nat.sub_0_r, <- take_pred_length. f_equal. lia.
Qed.

Lemma py_get_neg1 {A} (l : list A) (x : A) :
  last l = Some x -> py_get l (-1)%Z = Ok x.
Proof.
  rewrite last_lookup. intros H.
  assert (Hl : pred (length l) < length l) by (apply lookup_lt_Some in H; done).
  unfold py_get. replace (-1 <? 0)%Z with true by done.
  rewrite (proj2 (Z.ltb_ge _ _)) by lia.
  rewrite (proj2 (Z.leb_gt _ _)) by lia. simpl.
  replace (Z.to_nat (-1 + Z.of_nat (length l))) with (pred (length l)) by lia.
  rewrite H. done.
Qed.

Lemma find_reason_go_some (k0 k : nat) (ts : list pystr) :
  find_reason_go k0 ts = Some k ->
  k0 <= k /\ (exists t, ts !! (k - k0) = Some t /\ is_reason_start t = true) /\
  (forall j t, j < k - k0 -> ts !! j = Some t -> is_reason_start t = false).
Proof.
  revert k0. induction ts as [|t ts IH]; intros k0 H; simpl in H; [done|].
  destruct (is_reason_start t) eqn:Et.
  - injection H as <-. rewrite Nat.sub_diag. split; [lia|]. split; [eauto|].
    intros j u Hj. lia.
  - apply IH in H as (Hk & [u [Hu Hru]] & Hbefore). split; [lia|]. split.
    + exists u. replace (k - k0) with (S (k - S k0)) by lia. done.
    + intros [|j] v Hj Hv; simpl in Hv; [congruence|].
      apply (Hbefore j v); [lia|done].
Qed.

Lemma find_reason_go_none (k0 : nat) (ts : list pystr) :
  find_reason_go k0 ts = None -> Forall (fun t => is_reason_start t = false) ts.
Proof.
  revert k0. induction ts as [|t ts IH]; intros k0 H; simpl in H; [constructor|].
  destruct (is_reason_start t) eqn:Et; [done|]. constructor; [done|]. eapply IH; eauto.
Qed.

(** ** Stripping, and the premium syntax *)

Lemma lstrip_nonspace (c : ascii) (t : pystr) :
  is_space c = false -> lstrip (c :: t) = c :: t.
Proof. intros H. simpl. rewrite H. done. Qed.

Lemma lstrip_spaces (r s : pystr) :
  Forall (fun c => is_space c = true) r -> lstrip (r ++ s) = lstrip s.
Proof. induction 1 as [|c r Hc _ IH]; [done|]. simpl. rewrite Hc. done. Qed.

Lemma py_rstrip_spaces (x r : pystr) :
  Forall (fun c => is_space c = true) r -> py_rstrip (x ++ r) = py_rstrip x.
Proof.
  intros Hr. unfold py_rstrip. rewrite rev_app_distr, lstrip_spaces; [done|].
  apply Forall_rev. done.
Qed.

Lemma py_rstrip_last_nonspace (x : pystr) (c : ascii) :
  is_space c = false -> py_rstrip (x ++ [c]) = x ++ [c].
Proof.
  intros H. unfold py_rstrip. rewrite rev_app_distr. cbn [rev app].
  rewrite lstrip_nonspace by done. cbn [rev]. rewrite rev_involutive. done.
Qed.

Lemma digits_go_app (ds : pystr) (c : ascii) (t : pystr) :
  Forall (fun d => is_digit d = true) ds -> is_digit c = false ->
  Ascii.eqb c "_"%char = false -> digits_go (ds ++ c :: t) = (ds, c :: t).
Proof.
  intros Hds Hc Hu. induction Hds as [|d ds Hd _ IH]; simpl.
  - rewrite Hc, Hu. done.
  - rewrite Hd, IH. done.
Qed.

Lemma end_ok_spaces (r : pystr) :
  end_ok r = true -> r = [] \/ r = ["010"%char].
Proof.
  destruct r as [|c [|d r]]; simpl; try done; [left; done|].
  intros H. apply Ascii.eqb_eq in H. subst. right. done.
Qed.

Lemma dot_not_special (s1 : pystr) (w : string) :
  "."%char ∈ s1 -> "."%char ∉ chars w -> bool_decide (py_lower s1 = chars w) = false.
Proof.
  intros Hin Hw. apply bool_decide_eq_false_2. intros Heq. apply Hw. rewrite <- Heq.
  unfold py_lower. apply list_elem_of_fmap. exists "."%char. split; [done|exact Hin].
Qed.

Lemma premium_float_ok (a : pystr) (d1 d2 : ascii) (r : pystr) :
  Forall (fun c => c_digit_comma c = true) a -> is_digit d1 = true -> is_digit d2 = true ->
  end_ok r = true -> exists v, to_float_premium (a ++ "."%char :: d1 :: d2 :: r) = Some v.
Proof.
  intros Ha Hd1 Hd2 Hr. unfold to_float_premium, remove_char.
  rewrite filter_app.
  set (ds := filter (fun x => negb (Ascii.eqb x ","%char)) a).
  assert (Hdig : forall d, is_digit d = true -> Ascii.eqb d ","%char = false).
  { intros d Hd. destruct (Ascii.eqb d ","%char) eqn:E; [|done].
    apply Ascii.eqb_eq in E. subst. discriminate. }
  assert (Hds : Forall (fun d => is_digit d = true) ds).
  { apply Forall_forall. intros d Hd. subst ds.
    apply list_elem_of_filter in Hd as [Hne Hin].
    rewrite Forall_forall in Ha. specialize (Ha d Hin). unfold c_digit_comma in Ha.
    destruct (Ascii.eqb d ","%char); [done|]. rewrite orb_false_r in Ha. done. }
  assert (Hnz : forall d, is_digit d = true -> is_space d = false).
  { intros d Hd. unfold is_digit, is_space in *. apply andb_prop in Hd as [H1 H2].
    apply Nat.leb_le in H1, H2.
    destruct (9 <=? code d), (28 <=? code d); simpl;
      repeat rewrite (proj2 (Nat.leb_gt _ _)) by lia; done. }
  rewrite filter_cons_True by done.
  rewrite filter_cons_True by (rewrite Hdig; done).
  rewrite filter_cons_True by (rewrite Hdig; done).
  assert (Hrf : filter (fun x => negb (Ascii.eqb x ","%char)) r = r /\
                Forall (fun c => is_space c = true) r).
  { destruct (end_ok_spaces r Hr) as [-> | ->]; split; try done. repeat constructor. }
  destruct Hrf as [-> Hrsp].
assert (Hs : py_strip (ds ++ "."%char :: d1 :: d2 :: r) = ds ++ ["."%char; d1; d2]).
  { unfold py_strip.
    assert (Hl : lstrip (ds ++ "."%char :: d1 :: d2 :: r) = ds ++ "."%char :: d1 :: d2 :: r).
    { destruct ds as [|c ds']; [done|]. inversion Hds; subst.
      apply lstrip_nonspace. apply Hnz. done. }
    rewrite Hl.
    assert (Heq : ds ++ "."%char :: d1 :: d2 :: r = ((ds ++ ["."%char; d1]) ++ [d2]) ++ r).
    { rewrite <- !app_assoc. done. }
    rewrite Heq.
    rewrite py_rstrip_spaces, py_rstrip_last_nonspace by auto.
    rewrite <- app_assoc. done. }
  unfold float_of_str. rewrite Hs.
  assert (Hneq : forall c x, is_digit c = true -> is_digit x = false -> Ascii.eqb c x = false).
  { intros c x Hc Hx. destruct (Ascii.eqb c x) eqn:E; [|done].
    apply Ascii.eqb_eq in E. subst. congruence. }
  assert (Hrs : read_sign (ds ++ ["."%char; d1; d2]) = (false, ds ++ ["."%char; d1; d2])).
  { destruct ds as [|c ds']; [done|]. inversion Hds; subst. simpl.
    rewrite !Hneq by done. done. }
  rewrite Hrs. cbv iota beta.
  rewrite !dot_not_special
    by first [apply elem_of_app; right; left
             | apply (bool_decide_eq_false_1 _); vm_compute; reflexivity].
  cbv iota beta.
  assert (Hfp : digits_go [d1; d2] = ([d1; d2], [])).
  { simpl. rewrite Hd1, Hd2. done. }
  destruct ds as [|c ds'].
  - simpl app. cbn [digitpart]. replace (is_digit "."%char) with false by done.
    replace (Ascii.eqb "."%char "."%char) with true by done.
    cbn [digitpart]. rewrite Hd1, Hfp. simpl. eauto.
  - inversion Hds as [|? ? Hc Hds']; subst.
    assert (Hdp : digitpart ((c :: ds') ++ ["."%char; d1; d2])
                  = Some (c :: ds', ["."%char; d1; d2])).
    { transitivity (Some (digits_go ((c :: ds') ++ ["."%char; d1; d2]))).
      - unfold digitpart. cbn [app]. rewrite Hc. reflexivity.
      - rewrite (digits_go_app (c :: ds') "."%char [d1; d2]) by done. reflexivity. }
    rewrite Hdp. cbv iota beta.
    replace (Ascii.eqb "."%char "."%char) with true by done.
    cbn [digitpart]. rewrite Hd1, Hfp. simpl. eauto.
Qed.

Lemma first_some_spec {A B} (f : A -> option B) (l : list A) (x : B) :
  first_some f l = Some x -> exists y, In y l /\ f y = Some x.
Proof.
  induction l as [|y l IH]; simpl; [done|].
  destruct (f y) eqn:E.
  - intros [= <-]. eauto.
  - intros H. destruct (IH H) as [z [Hz Hf]]. eauto.
Qed.

Lemma span_spec (p : ascii -> bool) (s : pystr) (n : nat) :
  n <= span p s -> n <= length s /\ Forall (fun c => p c = true) (take n s).
Proof.
  revert n. induction s as [|c s IH]; intros n Hn; simpl in *.
  - assert (n = 0) as -> by lia. split; [lia|constructor].
  - destruct n as [|n]; [split; [lia|constructor]|].
    destruct (p c) eqn:E; [|lia].
    destruct (IH n) as [H1 H2]; [lia|]. split; [lia|]. constructor; done.
Qed.

Lemma counts_spec (a : atom) (s : pystr) (n : nat) :
  In n (counts a s) ->
  a_lo a <= n /\ (match a_hi a with Some h => n <= h | None => True end) /\
  n <= span (a_cls a) s.
Proof.
  unfold counts. intros H.
  assert (H' : In n (seq (a_lo a) (S (match a_hi a with
                                      | Some h => Nat.min h (span (a_cls a) s)
                                      | None => span (a_cls a) s end) - a_lo a))).
  { destruct (a_greedy a); [apply in_rev in H|]; exact H. }
  apply in_seq in H'. destruct (a_hi a); lia.
Qed.

Lemma match_atoms_sound {R} (l : list atom) (s : pystr) (k : pystr -> option R) (x : R) :
  match_atoms l s k = Some x -> exists w r, s = w ++ r /\ atoms_sem l w /\ k r = Some x.
Proof.
  revert s. induction l as [|a l IH]; intros s H; simpl in H.
  - exists [], s. simpl. done.
  - apply first_some_spec in H as [n [Hn H]].
    apply IH in H as (w' & r & Hs & Hw & Hk).
    destruct (counts_spec a s n Hn) as (Hlo & Hhi & Hsp).
    destruct (span_spec _ _ _ Hsp) as [Hlen Hall].
    exists (take n s ++ w'), r. split.
    + rewrite <- app_assoc, <- Hs, take_drop. done.
    + split; [|done]. exists n.
      assert (Ht : take n (take n s ++ w') = take n s).
      { rewrite take_app_length'; [done|]. rewrite length_take. lia. }
      assert (Hd : drop n (take n s ++ w') = w').
      { rewrite drop_app_length'; [done|]. rewrite length_take. lia. }
      rewrite Ht, Hd. split; [done|]. split; [done|]. split; [|done].
      rewrite length_app, length_take. lia.
Qed.

Lemma match_items_sound {R} (its : list item) (e : env) (s : pystr)
  (k : env -> pystr -> option R) (x : R) :
  match_items its e s k = Some x ->
  exists gs r,
    Forall2 (fun gb gw => gb.1 = gw.1 /\ atoms_sem gb.2 gw.2) (items_groups its) gs /\
    k (e ++ gs) r = Some x.
Proof.
  revert e s. induction its as [|it its IH]; intros e s H; cbn [match_items] in H.
  - exists [], s. rewrite app_nil_r. split; [constructor|done].
  - destruct it as [a|g body].
    + apply match_atoms_sound in H as (w & r & _ & _ & H).
      apply IH in H. exact H.
    + apply match_atoms_sound in H as (w & r & Hs & Hw & H).
      apply IH in H as (gs & r' & Hgs & Hk).
      assert (Ht : take (length s - length r) s = w).
      { rewrite Hs, length_app. replace (length w + length r - length r) with (length w) by lia.
        rewrite take_app_length. done. }
      rewrite Ht in Hk. exists ((g, w) :: gs), r'. split.
      * constructor; [split; done|exact Hgs].
      * rewrite <- app_assoc in Hk. exact Hk.
Qed.

Lemma atoms_sem_premium (w : pystr) :
  atoms_sem [plus c_digit_comma; lit "."; rep is_digit 2 2] w ->
  exists a d1 d2, w = a ++ ["."%char; d1; d2] /\
    Forall (fun c => c_digit_comma c = true) a /\ is_digit d1 = true /\ is_digit d2 = true.
Proof.
  cbn. intros (n1 & _ & _ & Hn1 & Ha & n2 & Hlo2 & Hhi2 & Hn2 & Hdot & n3 & Hlo3 & Hhi3 & Hn3 & Hd & Hend).
  assert (n2 = 1) as -> by lia. assert (n3 = 2) as -> by lia.
  exists (take n1 w).
  remember (drop n1 w) as w' eqn:Hw'.
  destruct w' as [|c w'']; [simpl in Hn2; lia|].
  cbn in Hdot, Hn3, Hd, Hend. inversion Hdot as [|? ? Hc _]; subst.
  change (Ascii.eqb "."%char c = true) in Hc.
  apply Ascii.eqb_eq in Hc. subst c.
  destruct w'' as [|d1 [|d2 w3]]; cbn in Hn3; try lia.
  simpl in Hd, Hend. rewrite drop_0 in Hend. subst w3. inversion Hd as [|? ? H1 Hd']; inversion Hd' as [|? ? H2 _]; subst.
  exists d1, d2. split; [|done].
  rewrite Hw', take_drop. done.
Qed.

Lemma policy_re_premium (line : pystr) (e : env) :
  re_match_end POLICY_RE line = Some e ->
  atoms_sem [plus c_digit_comma; lit "."; rep is_digit 2 2] (group e "premium").
Proof.
  unfold re_match_end. intros H.
  apply match_items_sound in H as (gs & r & Hgs & Hk).
  destruct (end_ok r); [|done]. injection Hk as <-. simpl in Hgs.
  inv_groups Hgs. cbn. assumption.
Qed.

Lemma premium_shape_float (s : pystr) :
  re_ok PREMIUM_SHAPE s = true -> exists v, to_float_premium s = Some v.
Proof.
  unfold re_ok, re_match_end.
  destruct (match_items PREMIUM_SHAPE [] s _) eqn:H; [|done]. intros _.
  unfold PREMIUM_SHAPE in H. cbn [match_items] in H.
  apply match_atoms_sound in H as (w & r & -> & Hw & Hk).
  cbn [match_items] in Hk. destruct (end_ok r) eqn:Er; [|done].
  apply atoms_sem_premium in Hw as (a & d1 & d2 & -> & Ha & Hd1 & Hd2).
  rewrite <- app_assoc. apply premium_float_ok; done.
Qed.

Lemma policy_re_premium_float (line : pystr) (e : env) :
  re_match_end POLICY_RE line = Some e ->
  exists v, to_float_premium (group e "premium") = Some v.
Proof.
  intros H. apply policy_re_premium, atoms_sem_premium in H as (a & d1 & d2 & -> & Ha & Hd1 & Hd2).
  replace (a ++ ["."%char; d1; d2]) with (a ++ ["."%char; d1; d2] ++ []) by (rewrite app_nil_r; done).
  apply premium_float_ok; done.
Qed.

Lemma policy_columns_shape (line : pystr) (r : uw_record) :
  parse_policy_line_by_columns line = Ok (Some r) -> uw_shape_ok r.
Proof.
  unfold parse_policy_line_by_columns.
  destruct (length (re_split_ws 2 (py_strip line)) <? 6); [done|].
  destruct (py_slice _ None (Some 6%Z)) as [|p [|n [|pl [|pr [|a [|ag [|x t]]]]]]]; try done.
  destruct (negb (re_ok POLICY_SHAPE p)); [done|].
  destruct (negb (re_ok PLAN_SHAPE pl)); [done|].
  destruct (re_ok PREMIUM_SHAPE pr) eqn:Hpr; [|done]. simpl.
  destruct (negb (re_ok AGENT_ID_SHAPE a)); [done|].
  intros [= <-]. destruct (premium_shape_float pr Hpr) as [v Hv].
  unfold uw_shape_ok. simpl. rewrite Hv. split; split; done.
Qed.

Lemma policy_tokens_shape (line : pystr) (r : uw_record) :
  parse_policy_line_by_tokens line = Ok (Some r) -> uw_shape_ok r.
Proof.
  unfold parse_policy_line_by_tokens.
  set (parts := re_split_ws 1 (py_strip line)).
  destruct (length parts <? 6); [done|].
  destruct (py_get parts 0) as [policy|]; [simpl|done].
  destruct (negb (re_ok POLICY_SHAPE policy)); [done|].
  destruct (last_agent_id_index parts) as [i|]; [|done].
  destruct (py_get parts (Z.of_nat i)) as [aid|]; [simpl|done].
  destruct (Z.of_nat i - 1 <? 0)%Z; [done|].
  destruct (py_get parts (Z.of_nat i - 1)) as [prem|]; [simpl|done].
  destruct (re_ok PREMIUM_SHAPE prem) eqn:Hpr; [simpl|done].
  destruct (Z.of_nat i - 2 <? 0)%Z; [done|].
  destruct (py_get parts (Z.of_nat i - 2)) as [plan|]; [simpl|done].
  destruct (negb (re_ok PLAN_SHAPE plan)); [done|].
  destruct (bool_decide _); [done|]. destruct (bool_decide _); [done|].
  intros [= <-]. destruct (premium_shape_float prem Hpr) as [v Hv].
  unfold uw_shape_ok. simpl. rewrite Hv. split; split; done.
Qed.

Lemma uw_columns_shape (line : pystr) (r : uw_record) :
  parse_uw_line_by_columns line = Ok (Some r) -> uw_shape_ok r.
Proof.
  unfold parse_uw_line_by_columns.
  destruct (length (re_split_ws 2 (py_strip line)) <? 5); [done|].
  destruct (py_slice _ None (Some 5%Z)) as [|p [|n [|q [|a [|ag [|x t]]]]]]; try done.
  destruct (negb (re_ok POLICY_SHAPE p)); [done|].
  destruct (negb (re_ok AGENT_ID_SHAPE a)); [done|].
  intros [= <-]. unfold uw_shape_ok. simpl. split; split; done.
Qed.

Lemma set_status_shape (s : pystr) (r : uw_record) :
  uw_shape_ok r -> uw_shape_ok (set_status s r).
Proof. destruct r. done. Qed.

Lemma uw_requirement_block_shape (status : option pystr) (line : pystr) (r : uw_record) :
  uw_requirement_block status line = Ok (Some r) -> uw_shape_ok r.
Proof.
  unfold uw_requirement_block. destruct (is_requirement_status status); [|done].
  destruct (re_match_end UW_RE line).
  - intros [= <-]. unfold uw_shape_ok. simpl. split; split; done.
  - destruct (parse_uw_line_by_columns line) as [[r'|]|] eqn:E; simpl; try done.
    intros [= <-]. apply set_status_shape. eapply uw_columns_shape; eauto.
Qed.

Lemma uw_classify_shape (status : option pystr) (line : pystr) (r : uw_record) :
  uw_classify status line = Ok (Some r) -> uw_shape_ok r.
Proof.
  unfold uw_classify. destruct (is_policy_status status);
    [|apply uw_requirement_block_shape].
  destruct (re_match_end POLICY_RE line) as [e|] eqn:Hm.
  - intros [= <-]. destruct (policy_re_premium_float line e Hm) as [v Hv].
    unfold uw_shape_ok, policy_re_record. simpl. rewrite Hv. split; split; done.
  - destruct (parse_policy_line_by_columns line) as [[r'|]|] eqn:E1; simpl; try done.
    { intros [= <-]. apply set_status_shape. eapply policy_columns_shape; eauto. }
    destruct (parse_policy_line_by_tokens line) as [[r'|]|] eqn:E2; simpl; try done.
    { intros [= <-]. apply set_status_shape. eapply policy_tokens_shape; eauto. }
    apply uw_requirement_block_shape.
Qed.

Lemma uw_step_shape (s : option pystr) (out : list uw_record) (l : pystr)
  (s' : option pystr) (out' : list uw_record) :
  uw_step (s, out) l = Ok (s', out') -> Forall uw_shape_ok out -> Forall uw_shape_ok out'.
Proof.
  unfold uw_step. cbv zeta. intros H Hout.
  destruct (bool_decide (py_strip (py_rstrip l) = [])); [injection H as _ <-; done|].
  destruct (detect_status (py_rstrip l)); [injection H as _ <-; done|].
  destruct (uw_classify s (py_rstrip l)) as [[r|]|] eqn:E; simpl in H; try done.
  - injection H as _ <-. apply Forall_app. split; [done|]. constructor; [|constructor].
    eapply uw_classify_shape; eauto.
  - injection H as _ <-. done.
Qed.

Lemma uw_loop_shape (s : option pystr) (out : list uw_record) (lines : list pystr)
  (s' : option pystr) (out' : list uw_record) :
  uw_loop (s, out) lines = Ok (s', out') -> Forall uw_shape_ok out -> Forall uw_shape_ok out'.
Proof.
  revert s out. induction lines as [|l ls IH]; intros s out H Hout; cbn [uw_loop] in H.
  - injection H as <- <-. done.
  - destruct (uw_step (s, out) l) as [[s1 out1]|] eqn:E; cbn [exc_bind] in H; [|done].
    apply (IH s1 out1 H). eapply uw_step_shape; eauto.
Qed.

(** ** Strict pattern and fallbacks: the leading token *)

Lemma match_items_sem {R} (its : list item) (e : env) (s : pystr)
  (k : env -> pystr -> option R) (x : R) :
  match_items its e s k = Some x ->
  exists gs r, items_sem its s gs r /\ k (e ++ gs) r = Some x.
Proof.
  revert e s. induction its as [|it its IH]; intros e s H; cbn [match_items] in H.
  - exists [], s. rewrite app_nil_r. done.
  - destruct it as [a|g body].
    + apply match_atoms_sound in H as (w & r & Hs & Hw & H).
      apply IH in H as (gs & r' & Hsem & Hk).
      exists gs, r'. split; [|done]. cbn [items_sem]. exists w, r. done.
    + apply match_atoms_sound in H as (w & r & Hs & Hw & H).
      apply IH in H as (gs & r' & Hsem & Hk).
      assert (Ht : take (length s - length r) s = w).
      { rewrite Hs, length_app. replace (length w + length r - length r) with (length w) by lia.
        rewrite take_app_length. done. }
      rewrite Ht, <- app_assoc in Hk. exists ((g, w) :: gs), r'. split; [|done].
      cbn [items_sem]. exists w, r, gs. done.
Qed.

Lemma atoms_sem_Forall (Q : ascii -> Prop) (l : list atom) (w : pystr) :
  Forall (fun a => forall c, a_cls a c = true -> Q c) l -> atoms_sem l w -> Forall Q w.
Proof.
  revert w. induction l as [|a l IH]; intros w Hl H; simpl in H.
  - subst. constructor.
  - destruct H as (n & _ & _ & _ & Hall & Hrest). inversion Hl as [|? ? Ha Hl']; subst.
    rewrite <- (take_drop n w). apply Forall_app. split.
    + eapply Forall_impl; [exact Hall|]. intros c Hc. apply Ha; exact Hc.
    + apply IH; done.
Qed.

Lemma atoms_sem_lo (a : atom) (l : list atom) (w : pystr) :
  atoms_sem (a :: l) w -> a_lo a <= length w.
Proof. simpl. intros (n & Hlo & _ & Hlen & _). lia. Qed.

Lemma digit_nonspace (c : ascii) : is_digit c = true -> is_space c = false.
Proof.
  unfold is_digit, is_space. intros H. apply andb_prop in H as [H1 H2].
  apply Nat.leb_le in H1, H2. apply not_true_iff_false. intros H.
  apply orb_prop in H as [H|H]; apply andb_prop in H as [H3 H4];
    apply Nat.leb_le in H3, H4; lia.
Qed.

Lemma upper_nonspace (c : ascii) : is_upper c = true -> is_space c = false.
Proof.
  unfold is_upper, is_space. intros H. apply andb_prop in H as [H1 H2].
  apply Nat.leb_le in H1, H2. apply not_true_iff_false. intros H.
  apply orb_prop in H as [H|H]; apply andb_prop in H as [H3 H4];
    apply Nat.leb_le in H3, H4; lia.
Qed.

Lemma c_plan_nonspace (c : ascii) : c_plan c = true -> is_space c = false.
Proof.
  unfold c_plan. intros H. apply orb_prop in H as [H|H].
  - apply orb_prop in H as [H|H]; [apply upper_nonspace|apply digit_nonspace]; done.
  - apply Ascii.eqb_eq in H. subst. reflexivity.
Qed.

Lemma Exists_rev_ns (y : pystr) :
  Exists (fun c => is_space c = false) y -> Exists (fun c => is_space c = false) (rev y).
Proof.
  induction 1 as [c y Hc|c y _ IH]; simpl; apply Exists_app.
  - right. constructor. done.
  - left. done.
Qed.

Lemma lstrip_app_nonspace (y z : pystr) :
  Exists (fun c => is_space c = false) y -> lstrip (y ++ z) = lstrip y ++ z.
Proof.
  induction 1 as [c y Hc|c y _ IH]; simpl; [rewrite Hc; done|].
  destruct (is_space c); [exact IH|done].
Qed.

Lemma lstrip_nonempty (y : pystr) :
  Exists (fun c => is_space c = false) y -> lstrip y <> [].
Proof.
  induction 1 as [c y Hc|c y _ IH]; simpl; [rewrite Hc; done|].
  destruct (is_space c); [exact IH|done].
Qed.

Lemma py_rstrip_app (x y : pystr) :
  Exists (fun c => is_space c = false) y -> py_rstrip (x ++ y) = x ++ py_rstrip y.
Proof.
  intros H. unfold py_rstrip. rewrite rev_app_distr, lstrip_app_nonspace
    by (apply Exists_rev_ns; done).
  rewrite rev_app_distr, rev_involutive. done.
Qed.

Lemma py_rstrip_nonempty (y : pystr) :
  Exists (fun c => is_space c = false) y -> py_rstrip y <> [].
Proof.
  intros H Hr. unfold py_rstrip in Hr. apply (f_equal (@length _)) in Hr.
  rewrite length_rev in Hr. simpl in Hr. apply nil_length_inv in Hr.
  revert Hr. apply lstrip_nonempty, Exists_rev_ns. done.
Qed.

Lemma strip_first_token (W P : pystr) (c : ascii) (t : pystr) :
  Forall (fun c => is_space c = true) W -> P <> [] ->
  Forall (fun c => is_space c = false) P -> is_space c = true ->
  Exists (fun c => is_space c = false) t ->
  exists t', py_strip (W ++ P ++ c :: t) = P ++ c :: t' /\ t' <> [].
Proof.
  intros HW HP HPn Hc Ht. unfold py_strip. rewrite lstrip_spaces by done.
  destruct P as [|p P']; [done|]. inversion HPn; subst.
  rewrite <- app_comm_cons, lstrip_nonspace by done.
  assert (Heq : p :: P' ++ c :: t = (p :: P' ++ [c]) ++ t)
    by (simpl; rewrite <- app_assoc; done).
  rewrite Heq, py_rstrip_app by done.
  exists (py_rstrip t). split; [simpl; rewrite <- app_assoc; done|].
  apply py_rstrip_nonempty. done.
Qed.

Lemma split_go_nonnil (k : nat) (pend s : pystr) : split_go k pend s <> [].
Proof.
  revert pend. induction s as [|a s IH]; intros pend; simpl.
  - destruct (k <=? length pend); discriminate.
  - destruct (is_space a); [apply IH|]. destruct (k <=? length pend); [discriminate|].
    unfold prepend. destruct (split_go k [] s); discriminate.
Qed.

Lemma prepend_cons (c : ascii) (P : pystr) (l : list pystr) :
  prepend [c] (prepend P l) = prepend (c :: P) l.
Proof. destruct l; reflexivity. Qed.

Lemma split_go_prefix (k : nat) (P s : pystr) :
  1 <= k -> Forall (fun c => is_space c = false) P ->
  split_go k [] (P ++ s) = prepend P (split_go k [] s).
Proof.
  intros Hk. induction 1 as [|a P Ha _ IH]; simpl.
  - pose proof (split_go_nonnil k [] s). destruct (split_go k [] s); done.
  - rewrite Ha. destruct k as [|k]; [lia|]. simpl. rewrite IH, prepend_cons. done.
Qed.

Lemma split_go_long (k : nat) (pend s : pystr) :
  k <= length pend -> exists tl, split_go k pend s = [] :: tl.
Proof.
  revert pend. induction s as [|a s IH]; intros pend H; simpl.
  - rewrite (proj2 (Nat.leb_le _ _) H). eauto.
  - destruct (is_space a).
    + apply IH. rewrite length_app. lia.
    + rewrite (proj2 (Nat.leb_le _ _) H). eauto.
Qed.

Lemma split1_first_token (P : pystr) (c : ascii) (t : pystr) :
  Forall (fun c => is_space c = false) P -> is_space c = true ->
  exists tl, re_split_ws 1 (P ++ c :: t) = P :: tl.
Proof.
  intros HP Hc. unfold re_split_ws. rewrite split_go_prefix by (done || lia).
  simpl. rewrite Hc. destruct (split_go_long 1 [c] t) as [tl ->]; [simpl; lia|].
  exists tl. simpl. rewrite app_nil_r. done.
Qed.

Lemma split2_first_token (P : pystr) (c : ascii) (t : pystr) :
  Forall (fun c => is_space c = false) P -> is_space c = true -> t <> [] ->
  exists h tl, re_split_ws 2 (P ++ c :: t) = h :: tl /\
    (h = P \/ exists d u, h = P ++ c :: d :: u).
Proof.
  intros HP Hc Ht. unfold re_split_ws. rewrite split_go_prefix by (done || lia).
  simpl. rewrite Hc. destruct t as [|d u]; [done|]. simpl.
  destruct (is_space d).
  - destruct (split_go_long 2 [c; d] u) as [tl ->]; [simpl; lia|].
    exists P, tl. simpl. rewrite app_nil_r. auto.
  - pose proof (split_go_nonnil 2 [] u).
    destruct (split_go 2 [] u) as [|h tl]; [done|]. simpl.
    exists (P ++ c :: d :: h), tl. split; [reflexivity|]. eauto.
Qed.

Lemma nonspace_prefix_len (w r P : pystr) (c : ascii) (y : pystr) :
  Forall (fun c => is_space c = false) w -> is_space c = true ->
  w ++ r = P ++ c :: y -> length w <= length P.
Proof.
  intros Hw. revert P. induction Hw as [|a w Ha _ IH]; intros P Hc H; simpl; [lia|].
  destruct P as [|p P]; simpl in H; injection H as -> H.
  - congruence.
  - simpl. specialize (IH P Hc H). lia.
Qed.

Lemma policy_shape_rejects_run (P : pystr) (c d : ascii) (u : pystr) :
  is_space c = true -> re_ok POLICY_SHAPE (P ++ c :: d :: u) = false.
Proof.
  intros Hc. unfold re_ok. destruct (re_match_end POLICY_SHAPE _) as [e|] eqn:He; [|done].
  exfalso. unfold re_match_end in He.
  apply match_items_sem in He as (gs & r & Hsem & Hk).
  cbn [items_sem] in Hsem. destruct Hsem as (w & s' & gs' & Hs & Hw & -> & _ & <-).
  destruct (end_ok r) eqn:Hend; [|done].
  assert (Hwn : Forall (fun c => is_space c = false) w).
  { eapply atoms_sem_Forall; [|exact Hw].
    repeat constructor; simpl; [apply digit_nonspace|apply upper_nonspace]. }
  pose proof (nonspace_prefix_len w r P c (d :: u) Hwn Hc (eq_sym Hs)) as Hle.
  apply (f_equal (@length _)) in Hs. rewrite !length_app in Hs. simpl in Hs.
  destruct r as [|? [|? ?]]; simpl in *; try lia.
Qed.

Lemma group_head (g : string) (w : pystr) (gs : env) : group ((g, w) :: gs) g = w.
Proof. unfold group. simpl. rewrite bool_decide_eq_true_2 by done. done. Qed.

Lemma policy_re_first_token (line : pystr) (e : env) :
  re_match_end POLICY_RE line = Some e ->
  exists W P c t, line = W ++ P ++ c :: t /\
    Forall (fun c => is_space c = true) W /\ P <> [] /\
    Forall (fun c => is_space c = false) P /\ is_space c = true /\
    Exists (fun c => is_space c = false) t /\ group e "policy" = P.
Proof.
  unfold re_match_end. intros H.
  apply match_items_sem in H as (gs & r & Hsem & Hk).
  destruct (end_ok r); [|done]. injection Hk as <-. simpl.
  cbn [items_sem POLICY_RE] in Hsem.
  destruct Hsem as (w1 & s1 & -> & Hw1 & w2 & s2 & gs2 & -> & Hw2 & -> &
                    w3 & s3 & -> & Hw3 & w4 & s4 & gs4 & -> & Hw4 & -> &
                    w5 & s5 & -> & Hw5 & w6 & s6 & gs6 & -> & Hw6 & -> & _).
  pose proof (atoms_sem_lo _ _ _ Hw3) as Hlen3. simpl in Hlen3.
  destruct w3 as [|c w3]; [simpl in Hlen3; lia|].
  pose proof (atoms_sem_lo _ _ _ Hw6) as Hlen6. simpl in Hlen6.
  destruct w6 as [|p w6]; [simpl in Hlen6; lia|].
  pose proof (atoms_sem_lo _ _ _ Hw2) as Hlen2. simpl in Hlen2.
  exists w1, w2, c, (w3 ++ w4 ++ w5 ++ (p :: w6) ++ s6). split; [done|].
  split; [eapply atoms_sem_Forall; [|exact Hw1]; repeat constructor; done|].
  split; [destruct w2; simpl in Hlen2; [lia|done]|].
  split.
  { eapply atoms_sem_Forall; [|exact Hw2].
    repeat constructor; simpl; [apply digit_nonspace|apply upper_nonspace]. }
  split.
  { apply atoms_sem_Forall with (Q := fun c => is_space c = true) in Hw3;
      [inversion Hw3; done|repeat constructor; done]. }
  split; [|apply group_head].
  apply Exists_app. right. apply Exists_app. right. apply Exists_app. right.
  apply Exists_app. left. constructor.
  apply atoms_sem_Forall with (Q := fun c => is_space c = false) in Hw6;
    [inversion Hw6; done|repeat constructor; apply c_plan_nonspace].
Qed.

Lemma py_slice6_head (h : pystr) (tl : list pystr) :
  exists rest, py_slice (h :: tl) None (Some 6%Z) = h :: rest.
Proof.
  unfold py_slice, py_norm. simpl length. replace ((6 <? 0)%Z) with false by reflexivity.
  destruct (Z.to_nat _ - 0) eqn:E; [lia|]. simpl. eauto.
Qed.

(** ** Returns: a line with a short tail is still emitted *)

(** C10: a returns item line whose anchor matches, with at least 8
    remainder tokens and its first (2-digit, date) boundary so late that
    fewer than six tokens follow the bill-day token, is still emitted as a
    record; each of bill_no, amount, agency_code_line and agent_num whose
    position is out of range is absent, and agent_name and reason are
    absent. *)
Theorem returns_short_tail_emitted (st : ret_state) (ln : pystr) (e : env) (idx : nat) :
  re_match_end REGION_RE ln = None ->
  re_match_end AGENCY_RE ln = None ->
  re_match_end ITEM_RE ln = Some e ->
  8 <= length (item_tokens e) ->
  find_boundary (item_tokens e) = Some idx ->
  length (item_tokens e) < idx + 7 ->
  exists st' r,
    ret_step st ln = Ok st' /\
    ((rs_items st' = rs_items st ++ [r] /\ rs_pre_notes st' = rs_pre_notes st)
     \/ (rs_pre_notes st' = rs_pre_notes st ++ [r] /\ rs_items st' = rs_items st)) /\
    r_company_code r = group e "1" /\ r_policy_no r = group e "2" /\
    item_tokens e !! idx = Some (r_bill_day r) /\
    (r_bill_no r = None <-> length (item_tokens e) <= idx + 2) /\
    (length (item_tokens e) <= idx + 3 -> r_amount r = None) /\
    (r_agency_code_line r = None <-> length (item_tokens e) <= idx + 4) /\
    (r_agent_num r = None <-> length (item_tokens e) <= idx + 5) /\
    r_agent_name r = None /\ r_reason r = None.
Proof.
  intros Hreg Hag Hitem Hlen Hb Hshort.
  pose proof (find_boundary_range _ _ Hb) as Hr.
  destruct (py_get_nat (item_tokens e) idx) as [bd [Hbd Hgbd]]; [lia|].
  destruct (py_get_nat (item_tokens e) (idx + 1)) as [dt [_ Hgdt]]; [lia|].
  assert (Hdrop : drop (idx + 6) (item_tokens e) = []) by (apply drop_ge; lia).
  unfold ret_step. rewrite Hreg, Hag.
  set (sec := if py_contains (chars "RETURNED ITEMS") (py_strip (py_upper ln)) then _ else _).
  rewrite Hitem.
  replace (length (item_tokens e) <? 8) with false by (symmetry; apply Nat.ltb_ge; lia).
  rewrite Hb. simpl exc_bind. rewrite Hgbd. simpl exc_bind. rewrite Hgdt. simpl exc_bind.
  rewrite Hdrop, split_agent_reason_nil. simpl exc_bind.
  match goal with
  | |- context [RetRec ?a ?b ?c ?d ?f ?g ?h ?i ?j ?k ?l ?m ?n ?o ?p ?q] =>
      set (r := RetRec a b c d f g h i j k l m n o p q)
  end.
  assert (Hfields : r_company_code r = group e "1" /\ r_policy_no r = group e "2" /\
    item_tokens e !! idx = Some (r_bill_day r) /\
    (r_bill_no r = None <-> length (item_tokens e) <= idx + 2) /\
    (length (item_tokens e) <= idx + 3 -> r_amount r = None) /\
    (r_agency_code_line r = None <-> length (item_tokens e) <= idx + 4) /\
    (r_agent_num r = None <-> length (item_tokens e) <= idx + 5) /\
    r_agent_name r = None /\ r_reason r = None).
  { subst r; simpl. rewrite !opt_token_none.
    repeat split; try done; try lia.
    intros H. unfold parse_amount. apply opt_token_none in H. rewrite H. done. }
  destruct (bool_decide (sec = Some PRE_NOTES)).
  - eexists; exists r. split; [reflexivity|]. split; [right; done|exact Hfields].
  - eexists; exists r. split; [reflexivity|]. split; [left; done|exact Hfields].
Qed.

Lemma returns_short_tail_emitted_witness :
  let ln := chars "110 0107680261 JOHN A B SMITH 05 08/22/25 1234 150.00" in
  let e := default [] (re_match_end ITEM_RE ln) in
  re_match_end REGION_RE ln = None /\ re_match_end AGENCY_RE ln = None /\
  re_match_end ITEM_RE ln = Some e /\ 8 <= length (item_tokens e) /\
  find_boundary (item_tokens e) = Some 4 /\ length (item_tokens e) < 4 + 7 /\
  exists st' r,
    ret_step ret_init ln = Ok st' /\
    ((rs_items st' = rs_items ret_init ++ [r] /\ rs_pre_notes st' = rs_pre_notes ret_init)
     \/ (rs_pre_notes st' = rs_pre_notes ret_init ++ [r] /\ rs_items st' = rs_items ret_init)) /\
    r_company_code r = group e "1" /\ r_policy_no r = group e "2" /\
    item_tokens e !! 4 = Some (r_bill_day r) /\
    (r_bill_no r = None <-> length (item_tokens e) <= 4 + 2) /\
    (length (item_tokens e) <= 4 + 3 -> r_amount r = None) /\
    (r_agency_code_line r = None <-> length (item_tokens e) <= 4 + 4) /\
    (r_agent_num r = None <-> length (item_tokens e) <= 4 + 5) /\
    r_agent_name r = None /\ r_reason r = None.
Proof.
  intros ln e.
  assert (H1 : re_match_end REGION_RE ln = None) by (vm_compute; reflexivity).
  assert (H2 : re_match_end AGENCY_RE ln = None) by (vm_compute; reflexivity).
  assert (H3 : re_match_end ITEM_RE ln = Some e) by (vm_compute; reflexivity).
  assert (H4 : 8 <= length (item_tokens e)) by (vm_compute; lia).
  assert (H5 : find_boundary (item_tokens e) = Some 4) by (vm_compute; reflexivity).
  assert (H6 : length (item_tokens e) < 4 + 7) by (vm_compute; lia).
  do 6 (split; [assumption|]).
  exact (returns_short_tail_emitted ret_init ln e 4 H1 H2 H3 H4 H5 H6).
Defined.

(** ** Returns: the section of each record *)

(** C7 (amended): for every text, [parse_return_items] returns normally;
    every record of returned_items has section absent or "RETURNED ITEMS",
    and every record of returned_pre_notes has section "RETURNED PRE-NOTES".
    So a record goes to returned_pre_notes exactly when the current section
    is "RETURNED PRE-NOTES", but its section may be absent: the records
    emitted by the lines that come before any section header all go to
    returned_items, in front of the later ones, with an absent section. *)
Theorem returns_section_values (text : pystr) :
  exists items pre_notes,
    parse_return_items text = Ok (items, pre_notes) /\
    Forall (fun r => r_section r = None \/ r_section r = Some (chars "RETURNED ITEMS")) items /\
    Forall (fun r => r_section r = Some (chars "RETURNED PRE-NOTES")) pre_notes /\
    forall pre post, py_splitlines text = pre ++ post ->
      Forall (fun l => section_header_free l = true) pre ->
      exists st0 rest, ret_loop ret_init pre = Ok st0 /\ items = rs_items st0 ++ rest /\
        rs_pre_notes st0 = [] /\ Forall (fun r => r_section r = None) (rs_items st0).
Proof.
  unfold parse_return_items.
  destruct (ret_loop_ok ret_init (py_splitlines text)) as [st Hst].
  rewrite Hst. simpl. exists (rs_items st), (rs_pre_notes st). split; [done|].
  pose proof Hst as Hinv. apply ret_loop_inv in Hinv.
  2: { split; [left; done|]. split; constructor. }
  destruct Hinv as (_ & Hi & Hp). split; [done|]. split; [done|].
  intros pre post Hsplit Hfree. rewrite Hsplit, ret_loop_app in Hst.
  destruct (ret_loop ret_init pre) as [st0|] eqn:E0; [|done]. simpl in Hst.
  destruct (ret_loop_items_prefix _ _ _ Hst) as [rest Hrest].
  destruct (ret_loop_no_section ret_init st0 pre) as (_ & Hp0 & Hi0); [|done|done|].
  - split; [done|]. split; constructor.
  - exists st0, rest. done.
Qed.

Lemma returns_section_values_witness :
  let item := chars "110 0107680261 JOHN A B SMITH 05 08/22/25 1234 150.00 AG123 0042 JANE DOE NSF" in
  let pre := [chars "DAILY RETURN DRAFT 08/25/25"; item] in
  let post := [chars "RETURNED PRE-NOTES"; item] in
  let text := py_join ["010"%char] (pre ++ post) in
  py_splitlines text = pre ++ post /\
  Forall (fun l => section_header_free l = true) pre /\
  exists items pre_notes,
    parse_return_items text = Ok (items, pre_notes) /\
    exists st0 rest, ret_loop ret_init pre = Ok st0 /\ items = rs_items st0 ++ rest /\
      rs_pre_notes st0 = [] /\ Forall (fun r => r_section r = None) (rs_items st0).
Proof.
  intros item pre post text.
  assert (H1 : py_splitlines text = pre ++ post) by (vm_compute; reflexivity).
  assert (H2 : Forall (fun l => section_header_free l = true) pre)
    by (unfold pre; constructor; [vm_compute; reflexivity|constructor; [vm_compute; reflexivity|constructor]]).
  split; [exact H1|]. split; [exact H2|].
  destruct (returns_section_values text) as (items & pre_notes & Hp & _ & _ & Hpre).
  exists items, pre_notes. split; [exact Hp|]. exact (Hpre pre post H1 H2).
Defined.

(** C7, counterexample: an item line before any section header is emitted
    to returned_items with no section. *)
Lemma returns_section_absent_counterexample :
  exists r,
    parse_return_items (chars "110 0107680261 JOHN A B SMITH 05 08/22/25 1234 150.00 AG123 0042 JANE DOE NSF")
      = Ok ([r], []) /\ r_section r = None.
Proof. eexists. split; [vm_compute; reflexivity|reflexivity]. Qed.

Lemma uw_step_no_grammar (st : uw_state) (raw : pystr) :
  uw_no_grammar raw = true -> uw_step st raw = Ok st.
Proof.
  unfold uw_no_grammar. cbv zeta. intros H. split_andb.
  destruct st as [status out]. unfold uw_step. cbv zeta.
  destruct (bool_decide (py_strip (py_rstrip raw) = [])); [done|].
  destruct (detect_status (py_rstrip raw)); [done|].
  unfold uw_classify, uw_requirement_block.
  destruct (re_match_end POLICY_RE (py_rstrip raw)); [done|].
  destruct (parse_policy_line_by_columns (py_rstrip raw)) as [[]|]; try done.
  destruct (parse_policy_line_by_tokens (py_rstrip raw)) as [[]|]; try done.
  destruct (re_match_end UW_RE (py_rstrip raw)); [done|].
  destruct (parse_uw_line_by_columns (py_rstrip raw)) as [[]|]; try done.
  simpl. destruct (is_policy_status status), (is_requirement_status status); done.
Qed.

Lemma ret_step_no_grammar (st : ret_state) (ln : pystr) :
  ret_no_grammar ln = true -> ret_step st ln = Ok st.
Proof.
  unfold ret_no_grammar. cbv zeta. intros H. split_andb.
  destruct st. unfold ret_step. cbv zeta.
  destruct (re_match_end REGION_RE ln); [done|].
  destruct (re_match_end AGENCY_RE ln); [done|].
  destruct (py_contains (chars "RETURNED ITEMS") (py_strip (py_upper ln))); [done|].
  destruct (py_contains (chars "RETURNED PRE-NOTES") (py_strip (py_upper ln))); [done|].
  destruct (py_contains (chars "RETURNED PRE NOTES") (py_strip (py_upper ln))); [done|].
  simpl. destruct (re_match_end ITEM_RE ln) as [e|]; [|done].
  destruct (length (item_tokens e) <? 8); [done|].
  destruct (find_boundary (item_tokens e)); done.
Qed.

(** ** Totality, and lines that match no grammar *)

(** C9: for every text, [parse_report] and [parse_return_items] return
    normally (no [IndexError] or [ValueError] reaches the caller); and a
    line that matches no grammar of the parser, inserted anywhere in the
    lines, leaves the parser's loop result unchanged: it adds no record
    and no error. *)
Theorem parsers_total_and_skip (l : pystr) :
  (forall text, exists out, parse_report text = Ok out) /\
  (forall text, exists items pre_notes, parse_return_items text = Ok (items, pre_notes)) /\
  (uw_no_grammar l = true ->
   forall st pre post, uw_loop st (pre ++ l :: post) = uw_loop st (pre ++ post)) /\
  (ret_no_grammar l = true ->
   forall st pre post, ret_loop st (pre ++ l :: post) = ret_loop st (pre ++ post)).
Proof.
  split; [|split; [|split]].
  - intros text. unfold parse_report.
    destruct (uw_loop_ok (None, []) (py_splitlines text)) as [st ->]. simpl. eauto.
  - intros text. unfold parse_return_items.
    destruct (ret_loop_ok ret_init (py_splitlines text)) as [st ->]. simpl. eauto.
  - intros Hl st pre post. rewrite !uw_loop_app.
    destruct (uw_loop st pre) as [s|]; simpl; [|done].
    rewrite (uw_step_no_grammar s l Hl). done.
  - intros Hl st pre post. rewrite !ret_loop_app.
    destruct (ret_loop st pre) as [s|]; simpl; [|done].
    rewrite (ret_step_no_grammar s l Hl). done.
Qed.

Lemma parsers_total_and_skip_witness :
  let l := chars "PAGE 2 OF 7 -- CONTINUED" in
  uw_no_grammar l = true /\ ret_no_grammar l = true /\
  uw_loop (None, []) ([chars "SUBMITTED"] ++ l :: [])
    = uw_loop (None, []) ([chars "SUBMITTED"] ++ []) /\
  ret_loop ret_init ([chars "RETURNED ITEMS"] ++ l :: [])
    = ret_loop ret_init ([chars "RETURNED ITEMS"] ++ []).
Proof.
  intros l.
  assert (Hu : uw_no_grammar l = true) by (vm_compute; reflexivity).
  assert (Hr : ret_no_grammar l = true) by (vm_compute; reflexivity).
  destruct (parsers_total_and_skip l) as (_ & _ & Huw & Hret).
  split; [exact Hu|]. split; [exact Hr|]. split.
  - apply (Huw Hu).
  - apply (Hret Hr).
Defined.

(** ** CSV loader: the repair heuristic *)

(** C3 (code bug): in a sample of three rows, only one has just its first
    column filled, fewer than half, yet [_mostly_in_first_column] holds and
    the loader applies the double-quoting repair: the test is
    [bad >= total // 2], and [3 // 2 = 1]. *)
Theorem repair_triggered_one_of_three :
  let rows : list crow :=
    [[(chars "a", Some (chars "x")); (chars "b", Some [])];
     [(chars "a", Some (chars "y")); (chars "b", Some (chars "z"))];
     [(chars "a", Some (chars "w")); (chars "b", Some (chars "v"))]] in
  length (filter (only_first (chars "a") [chars "b"]) rows) = 1 /\
  2 * 1 < length rows /\
  repair_triggered rows = true.
Proof. vm_compute. repeat split; lia || reflexivity. Qed.

(** ** CSV loader: the policy-column fallback *)

(** C5 (code bug): with header [Policy,Name,] and the row [abc,x,123],
    detection finds no column with a valid-looking policy number, and the
    first column whose value is purely numeric is the third one, whose name
    is the empty string; the empty name is falsy, so the loader uses the
    first column ["Policy"] instead. *)
Theorem policy_column_empty_name_fallback :
  let rows : list crow :=
    [[(chars "Policy", Some (chars "abc")); (chars "Name", Some (chars "x"));
      ([], Some (chars "123"))]] in
  detect_policy_column rows = None /\
  choose_policy_column rows = Some (chars "Policy").
Proof. vm_compute. split; reflexivity. Qed.

(** ** Returns: agent name and reason *)

(** C2 (amended): for the final token group [rest2] of an item line (the
    tokens after the agent number), a token starts the reason when its
    upper-cased form is in REASON_START or matches [R\d{2}].  When such a
    token exists, at the first one, [k]: the reason is the tokens from [k]
    on, joined with single spaces and upper-cased; the agent name is the
    tokens before [k], joined and title-cased, when [k > 0], and all tokens
    but the last, joined and title-cased, when [k = 0].  When none exists:
    the agent name is all tokens but the last (title-cased) and the reason
    is the last token upper-cased, both absent when the group is empty. *)
Theorem returns_agent_reason_split (rest2 : list pystr) :
  let sp := [" "%char] in
  match find_reason rest2 with
  | Some k =>
      (exists t, rest2 !! k = Some t /\ is_reason_start t = true) /\
      (forall j t, j < k -> rest2 !! j = Some t -> is_reason_start t = false) /\
      split_agent_reason rest2 =
        Ok (Some (py_title (py_join sp (if 0 <? k then take k rest2 else removelast rest2))),
            Some (py_upper (py_join sp (drop k rest2))))
  | None =>
      Forall (fun t => is_reason_start t = false) rest2 /\
      split_agent_reason rest2 =
        Ok (match rest2 with [] => None | _ => Some (py_title (py_join sp (removelast rest2))) end,
            option_map py_upper (last rest2))
  end.
Proof.
  intros sp. unfold split_agent_reason. fold sp.
  destruct (find_reason rest2) as [k|] eqn:Hk.
  - unfold find_reason in Hk. apply find_reason_go_some in Hk.
    rewrite Nat.sub_0_r in Hk. destruct Hk as (_ & Hfirst & Hbefore).
    split; [done|]. split; [done|].
    destruct (0 <? k); [done|].
    destruct rest2 as [|t ts]; [destruct Hfirst as [? [Ht _]]; done|].
    rewrite py_slice_removelast. done.
  - unfold find_reason in Hk. apply find_reason_go_none in Hk. split; [done|].
    destruct rest2 as [|t ts]; [done|].
    destruct (last (t :: ts)) as [x|] eqn:Hx.
    + rewrite (py_get_neg1 _ x Hx). simpl. rewrite py_slice_removelast. done.
    + rewrite last_lookup in Hx. apply lookup_ge_None in Hx. simpl in Hx. lia.
Qed.

(** C2, counterexample: when the first reason token is the first token of
    the group ([NSF PAYMENT]), the agent name is not absent: it is the
    title-cased group without its last token, ["Nsf"]. *)
Lemma returns_reason_at_zero_counterexample :
  exists r,
    parse_return_items (chars "110 0107680261 JOHN SMITH 05 08/22/25 1234 150.00 AG123 0042 NSF PAYMENT")
      = Ok ([r], []) /\
    r_agent_name r = Some (chars "Nsf") /\ r_reason r = Some (chars "NSF PAYMENT").
Proof. eexists. split; [vm_compute; reflexivity|split; reflexivity]. Qed.

(** ** CSV comparison *)

Lemma f_sub_self_small (v : float) : f_ltb FLOAT_0_01 (f_abs (f_sub v v)) = false.
Proof.
  destruct v as [s | s | | s m e].
  - destruct s; vm_compute; reflexivity.
  - destruct s; vm_compute; reflexivity.
  - vm_compute; reflexivity.
  - unfold f_sub, SFsub. cbn [SFopp]. unfold SFadd. rewrite Z.sub_diag.
    vm_compute. reflexivity.
Qed.

Lemma field_differs_refl (field : string) (r : crow) : field_differs field r r = false.
Proof.
  unfold field_differs.
  rewrite (bool_decide_eq_true_2 (norm_value r (chars field) = norm_value r (chars field)))
    by done.
  case_bool_decide; [|done].
  destruct (num_of_norm (norm_value r (chars field))); [|done].
  apply f_sub_self_small.
Qed.

Lemma has_changes_refl (r : crow) : has_changes r r = false.
Proof.
  unfold has_changes. induction CSV_COMPARISON_FIELDS as [|f fs IH]; [done|].
  simpl. rewrite field_differs_refl. done.
Qed.

Lemma key_rows_policy (rows : list crow) (pid : pystr) (r : crow) :
  key_rows rows !! pid = Some r -> policy_key r = Some pid.
Proof.
  unfold key_rows.
  assert (Hm : forall p q, (∅ : gmap pystr crow) !! p = Some q -> policy_key q = Some p)
    by (intros p q H; rewrite lookup_empty in H; done).
  revert Hm. generalize (∅ : gmap pystr crow). revert pid r.
  induction rows as [|r0 rows IH]; intros pid r m Hm; simpl; [apply Hm|].
  apply IH. intros p q. destruct (policy_key r0) as [k|] eqn:Hk; [|apply Hm].
  destruct (decide (p = k)) as [->|Hne].
  - rewrite lookup_insert_eq. intros [= <-]. done.
  - rewrite lookup_insert_ne by done. apply Hm.
Qed.

Lemma omap_all_none {A B} (f : A -> option B) (l : list A) :
  (forall x, x ∈ l -> f x = None) -> omap f l = [].
Proof.
  induction l as [|x l IH]; intros H; [done|]. simpl.
  rewrite (H x) by (left; done). apply IH. intros y Hy. apply H. right. done.
Qed.


(** C6: comparing a content with itself gives an error result (the loader
    failed or there is no 'Policy' column) or empty added and modified
    lists; and for any two parsed row lists, a policy key present in both
    whose rows show no field difference has no row in added or in
    modified (each row there is keyed by its own 'Policy' value). *)
Theorem compare_self_and_unchanged :
  (forall (parse_csv : pystr -> exc (list crow)) (content : pystr),
     match compare_contents parse_csv content content with
     | CmpError _ => True
     | CmpOk added modified => added = [] /\ modified = []
     end) /\
  (forall (list_new list_old : list crow) (pid : pystr) (old_row new_row : crow),
     key_rows list_old !! pid = Some old_row ->
     key_rows list_new !! pid = Some new_row ->
     has_changes old_row new_row = false ->
     match compare_rows list_new list_old with
     | CmpError _ => True
     | CmpOk added modified => Forall (fun r => policy_key r <> Some pid) (added ++ modified)
     end).
Proof.
  split.
  - intros parse_csv content. unfold compare_contents.
    destruct (parse_csv content) as [rows|]; [|done].
    unfold compare_rows.
    destruct (negb (has_policy_column rows)); [done|].
    split.
    + rewrite difference_diag_L, elements_empty. done.
    + apply omap_all_none. intros pid _.
      destruct (key_rows rows !! pid); [|done]. rewrite has_changes_refl. done.
  - intros list_new list_old pid old_row new_row Hold Hnew Hch. unfold compare_rows.
    destruct (negb (has_policy_column list_new)); [done|].
    destruct (negb (has_policy_column list_old)); [done|].
    apply Forall_app. split; apply Forall_forall; intros r Hr Hpk.
    + apply list_elem_of_omap in Hr as [p [Hp Hr]].
      apply elem_of_elements, elem_of_difference in Hp as [_ Hp].
      apply key_rows_policy in Hr. rewrite Hr in Hpk. injection Hpk as ->.
      apply Hp, elem_of_dom. eauto.
    + apply list_elem_of_omap in Hr as [p [_ Hr]].
      destruct (key_rows list_old !! p) as [o|] eqn:Ho; [|done].
      destruct (key_rows list_new !! p) as [n|] eqn:Hn; [|done].
      destruct (has_changes o n) eqn:Hc; [|done]. injection Hr as <-.
      pose proof (key_rows_policy _ _ _ Hn) as Hpn. rewrite Hpn in Hpk.
      injection Hpk as ->. rewrite Hold in Ho. rewrite Hnew in Hn. congruence.
Qed.

Lemma compare_self_and_unchanged_witness :
  let old_rows : list crow :=
    [[(chars "Policy", Some (chars "0108338110")); (chars "Face", Some (chars "100.00"))]] in
  let new_rows : list crow :=
    [[(chars "Policy", Some (chars "0108338110")); (chars "Face", Some (chars "100.000"))];
     [(chars "Policy", Some (chars "0107680261")); (chars "Face", Some (chars "5"))]] in
  let pid := chars "0108338110" in
  key_rows old_rows !! pid = Some (List.hd [] old_rows) /\
  key_rows new_rows !! pid = Some (List.hd [] new_rows) /\
  has_changes (List.hd [] old_rows) (List.hd [] new_rows) = false /\
  match compare_rows new_rows old_rows with
  | CmpError _ => True
  | CmpOk added modified => Forall (fun r => policy_key r <> Some pid) (added ++ modified)
  end.
Proof.
  intros old_rows new_rows pid.
  assert (H1 : key_rows old_rows !! pid = Some (List.hd [] old_rows)) by (vm_compute; reflexivity).
  assert (H2 : key_rows new_rows !! pid = Some (List.hd [] new_rows)) by (vm_compute; reflexivity).
  assert (H3 : has_changes (List.hd [] old_rows) (List.hd [] new_rows) = false)
    by (vm_compute; reflexivity).
  split; [exact H1|]. split; [exact H2|]. split; [exact H3|].
  exact (proj2 compare_self_and_unchanged new_rows old_rows pid _ _ H1 H2 H3).
Defined.

(** ** CSV comparison: the numeric tolerance *)

(** C4 (amended): for a numeric comparison field (Face, ModePrem, WrtPct)
    whose two normalised values both parse (empty parses as 0), the field
    counts as a change exactly when the binary64 difference
    [abs(old_num - new_num)] is greater than the double nearest to 0.01.
    At the boundary, 0.00 to 0.01 is not flagged, 100.00 to 100.02 is
    flagged, and 100.00 to 100.01 is flagged too: in binary64 that
    difference is 0.010000000000005116, above 0.01.  When one of the two
    values does not parse ([float] raises [ValueError]), the field counts
    as a change exactly when the two normalised strings differ: N/A and
    n/a with a leading space are no change, n/a and 0 are one. *)
Theorem numeric_field_tolerance :
  (forall (field : string) (old_row new_row : crow) (x y : float),
     field ∈ NUMERIC_FIELDS ->
     num_of_norm (norm_value old_row (chars field)) = Some x ->
     num_of_norm (norm_value new_row (chars field)) = Some y ->
     field_differs field old_row new_row = f_ltb FLOAT_0_01 (f_abs (f_sub x y))) /\
  (forall (field : string) (old_row new_row : crow),
     field ∈ NUMERIC_FIELDS ->
     num_of_norm (norm_value old_row (chars field)) = None \/
     num_of_norm (norm_value new_row (chars field)) = None ->
     field_differs field old_row new_row =
     negb (bool_decide (norm_value old_row (chars field) = norm_value new_row (chars field)))) /\
  num_of_norm [] = Some (S754_zero false) /\
  (let row v : crow := [(chars "Policy", Some (chars "0108338110")); (chars "Face", Some (chars v))] in
   field_differs "Face" (row "0.00") (row "0.01") = false /\
   field_differs "Face" (row "") (row "0.01") = false /\
   field_differs "Face" (row "100.00") (row "100.02") = true /\
   field_differs "Face" (row "100.00") (row "100.01") = true /\
   field_differs "Face" (row "N/A") (row " n/a") = false /\
   field_differs "Face" (row "n/a") (row "0") = true).
Proof.
  split; [|split; [|split; [reflexivity|]]].
  - intros field old_row new_row x y Hf Hx Hy. unfold field_differs.
    rewrite (bool_decide_eq_true_2 _ Hf), Hx, Hy. done.
  - intros field old_row new_row Hf Hn. unfold field_differs.
    rewrite (bool_decide_eq_true_2 _ Hf).
    destruct Hn as [Hn|Hn]; rewrite Hn; [done|].
    destruct (num_of_norm (norm_value old_row (chars field))); done.
  - vm_compute. repeat split.
Qed.

Lemma numeric_field_tolerance_witness :
  let row v : crow := [(chars "Policy", Some (chars "0108338110")); (chars "ModePrem", Some (chars v))] in
  let x := default (S754_zero false) (num_of_norm (norm_value (row "1,250.50") (chars "ModePrem"))) in
  let y := default (S754_zero false) (num_of_norm (norm_value (row "1250.52") (chars "ModePrem"))) in
  "ModePrem"%string ∈ NUMERIC_FIELDS /\
  num_of_norm (norm_value (row "1,250.50") (chars "ModePrem")) = Some x /\
  num_of_norm (norm_value (row "1250.52") (chars "ModePrem")) = Some y /\
  field_differs "ModePrem" (row "1,250.50") (row "1250.52") = f_ltb FLOAT_0_01 (f_abs (f_sub x y)) /\
  (num_of_norm (norm_value (row "n/a") (chars "ModePrem")) = None \/
   num_of_norm (norm_value (row "12.50") (chars "ModePrem")) = None) /\
  field_differs "ModePrem" (row "n/a") (row "12.50") =
  negb (bool_decide (norm_value (row "n/a") (chars "ModePrem") = norm_value (row "12.50") (chars "ModePrem"))).
Proof.
  intros row x y.
  assert (H1 : "ModePrem"%string ∈ NUMERIC_FIELDS)
    by (apply (bool_decide_eq_true_1 _); vm_compute; reflexivity).
  assert (H2 : num_of_norm (norm_value (row "1,250.50") (chars "ModePrem")) = Some x)
    by (vm_compute; reflexivity).
  assert (H3 : num_of_norm (norm_value (row "1250.52") (chars "ModePrem")) = Some y)
    by (vm_compute; reflexivity).
  split; [exact H1|]. split; [exact H2|]. split; [exact H3|].
  split; [exact (proj1 numeric_field_tolerance "ModePrem" (row "1,250.50") (row "1250.52") x y H1 H2 H3)|].
  assert (H4 : num_of_norm (norm_value (row "n/a") (chars "ModePrem")) = None \/
               num_of_norm (norm_value (row "12.50") (chars "ModePrem")) = None)
    by (left; vm_compute; reflexivity).
  split; [exact H4|].
  exact (proj1 (proj2 numeric_field_tolerance) "ModePrem" (row "n/a") (row "12.50") H1 H4).
Defined.

(** C4, counterexample: a Face change of exactly 0.01 (100.00 to 100.01)
    is flagged, and the row is reported as modified. *)
Lemma face_one_cent_flagged_counterexample :
  let old_row : crow := [(chars "Policy", Some (chars "0108338110")); (chars "Face", Some (chars "100.00"))] in
  let new_row : crow := [(chars "Policy", Some (chars "0108338110")); (chars "Face", Some (chars "100.01"))] in
  field_differs "Face" old_row new_row = true /\
  compare_rows [new_row] [old_row] = CmpOk [] [new_row].
Proof. vm_compute. split; reflexivity. Qed.

(** ** Underwriting records: plan, premium and requirement *)

(** C8: for every text, [parse_report] returns a list of records each of
    which, whatever the path that produced it (strict policy pattern,
    policy column split, policy token split, requirement pattern,
    requirement column split), has plan and annual_premium both set or
    both absent, and requirement_desc set exactly when they are absent. *)
Theorem uw_records_plan_premium (text : pystr) :
  exists out, parse_report text = Ok out /\ Forall uw_shape_ok out.
Proof.
  unfold parse_report.
  destruct (uw_loop_ok (None, []) (py_splitlines text)) as [[status out] Hl].
  rewrite Hl. simpl. exists out. split; [done|].
  apply (uw_loop_shape _ _ _ _ _ Hl). constructor.
Qed.

(** ** Underwriting: the strict pattern and the fallbacks *)

(** C1 (amended): for every line that the strict pattern [POLICY_RE]
    matches, a record that the column-split strategy or the token-split
    strategy produces on the same line has the same policy_no as the strict
    match (its [policy] group).  The agent_id is not covered: see the
    counterexample below. *)
Theorem fallbacks_agree_on_policy_no (line : pystr) (e : env) :
  re_match_end POLICY_RE line = Some e ->
  (forall r, parse_policy_line_by_columns line = Ok (Some r) ->
     uw_policy_no r = group e "policy") /\
  (forall r, parse_policy_line_by_tokens line = Ok (Some r) ->
     uw_policy_no r = group e "policy").
Proof.
  intros H.
  destruct (policy_re_first_token line e H)
    as (W & P & c & t & -> & HW & HP & HPn & Hc & Ht & ->).
  destruct (strip_first_token W P c t HW HP HPn Hc Ht) as (t' & Hs & Ht').
  split; intros r.
  - unfold parse_policy_line_by_columns. rewrite Hs.
    destruct (split2_first_token P c t' HPn Hc Ht') as (h & tl & -> & Hh).
    destruct (length (h :: tl) <? 6); [done|].
    destruct (py_slice6_head h tl) as [rest ->].
    destruct rest as [|n [|pl [|pr [|a [|ag [|x y]]]]]]; try done.
    destruct (re_ok POLICY_SHAPE h) eqn:Hsh; [|done]. simpl.
    destruct (negb (re_ok PLAN_SHAPE pl)); [done|].
    destruct (negb (re_ok PREMIUM_SHAPE pr)); [done|].
    destruct (negb (re_ok AGENT_ID_SHAPE a)); [done|].
    intros [= <-]. simpl.
    destruct Hh as [-> | (d & u & ->)]; [done|].
    rewrite policy_shape_rejects_run in Hsh by done. done.
  - unfold parse_policy_line_by_tokens. rewrite Hs.
    destruct (split1_first_token P c t' HPn Hc) as [tl ->].
    destruct (length (P :: tl) <? 6); [done|].
    assert (Hg : py_get (P :: tl) 0 = Ok P) by reflexivity. rewrite Hg. simpl.
    destruct (negb (re_ok POLICY_SHAPE P)); [done|].
    destruct (last_agent_id_index (P :: tl)) as [i|]; [|done].
    destruct (py_get (P :: tl) (Z.of_nat i)) as [aid|]; [simpl|done].
    destruct (Z.of_nat i - 1 <? 0)%Z; [done|].
    destruct (py_get (P :: tl) (Z.of_nat i - 1)) as [prem|]; [simpl|done].
    destruct (negb (re_ok PREMIUM_SHAPE prem)); [done|].
    destruct (Z.of_nat i - 2 <? 0)%Z; [done|].
    destruct (py_get (P :: tl) (Z.of_nat i - 2)) as [plan|]; [simpl|done].
    destruct (negb (re_ok PLAN_SHAPE plan)); [done|].
    destruct (bool_decide _); [done|]. destruct (bool_decide _); [done|].
    intros [= <-]. done.
Qed.

Lemma fallbacks_agree_on_policy_no_witness :
  exists e, re_match_end POLICY_RE policy_line_two_ids = Some e /\
  (forall r, parse_policy_line_by_columns policy_line_two_ids = Ok (Some r) ->
     uw_policy_no r = group e "policy") /\
  (forall r, parse_policy_line_by_tokens policy_line_two_ids = Ok (Some r) ->
     uw_policy_no r = group e "policy").
Proof.
  destruct (re_match_end POLICY_RE policy_line_two_ids) as [e|] eqn:He;
    [|vm_compute in He; discriminate].
  exists e. split; [reflexivity|]. apply (fallbacks_agree_on_policy_no policy_line_two_ids e He).
Defined.

(** C1, counterexample: on the line [policy_line_two_ids] the strict
    pattern takes 111111 as agent_id (its lazy agent group runs to the end
    of the line), while the column split and the token split both succeed
    with agent_id 222222. *)
Lemma fallback_agent_id_counterexample :
  exists e r2 r3,
    re_match_end POLICY_RE policy_line_two_ids = Some e /\
    parse_policy_line_by_columns policy_line_two_ids = Ok (Some r2) /\
    parse_policy_line_by_tokens policy_line_two_ids = Ok (Some r3) /\
    group e "agent_id" = chars "111111" /\
    uw_agent_id r2 = chars "222222" /\ uw_agent_id r3 = chars "222222".
Proof.
  destruct (re_match_end POLICY_RE policy_line_two_ids) as [e|] eqn:He;
    [|vm_compute in He; discriminate].
  destruct (parse_policy_line_by_columns policy_line_two_ids) as [[r2|]|] eqn:H2;
    try (vm_compute in H2; discriminate).
  destruct (parse_policy_line_by_tokens policy_line_two_ids) as [[r3|]|] eqn:H3;
    try (vm_compute in H3; discriminate).
  exists e, r2, r3. do 3 (split; [done|]).
  vm_compute in He, H2, H3. injection He as <-. injection H2 as <-. injection H3 as <-.
  split; [|split]; reflexivity.
Qed.

(** * Further properties *)

Lemma atoms_sem_one (a : atom) (w : pystr) :
  atoms_sem [a] w <->
  a_lo a <= length w /\ (match a_hi a with Some h => length w <= h | None => True end) /\
  Forall (fun c => a_cls a c = true) w.
Proof.
  simpl. split.
  - intros (n & Hlo & Hhi & Hlen & Hall & Hd).
    assert (length w <= n) by (apply (f_equal length) in Hd; rewrite length_drop in Hd; simpl in Hd; lia).
    rewrite take_ge in Hall by lia. split; [lia|]. split; [destruct (a_hi a); lia|done].
  - intros (Hlo & Hhi & Hall). exists (length w). split; [done|]. split; [destruct (a_hi a); lia|].
    split; [lia|]. rewrite take_ge by lia. split; [done|]. apply drop_ge. lia.
Qed.

Lemma atoms_sem_policy (w : pystr) :
  atoms_sem [rep is_digit 9 10; opt is_upper] w <-> policy_shape w.
Proof.
  split.
  - simpl. intros (n & Hlo & Hhi & Hlen & Hall & m & Hlo' & Hhi' & Hlen' & Hall' & Hd).
    exists (take n w), (drop n w). rewrite take_drop. split; [done|].
    rewrite length_take. split; [lia|]. split; [done|].
    assert (length (drop n w) <= m)
      by (apply (f_equal length) in Hd; rewrite length_drop in Hd; simpl in Hd; lia).
    rewrite take_ge in Hall' by lia. split; [simpl in Hhi'; lia|done].
  - intros (ds & u & -> & Hds & Hd & Hu & Hup). simpl.
    exists (length ds). rewrite take_app_length, drop_app_length.
    split; [simpl; lia|]. split; [simpl; lia|]. split; [rewrite length_app; lia|].
    split; [done|]. exists (length u). rewrite take_ge, drop_ge by lia.
    split; [simpl; lia|]. split; [simpl; lia|]. split; [lia|]. done.
Qed.

Lemma atoms_sem_agent_id (w : pystr) :
  atoms_sem [rep is_digit 6 7] w <-> agent_id_shape w.
Proof. rewrite atoms_sem_one. simpl. unfold agent_id_shape. tauto. Qed.

Lemma first_some_complete {A B} (f : A -> option B) (l : list A) (y : A) :
  In y l -> f y <> None -> first_some f l <> None.
Proof.
  induction l as [|x l IH]; simpl; [done|]. intros [->|Hy] Hf.
  - destruct (f y); done.
  - destruct (f x); [done|]. apply IH; done.
Qed.

Lemma span_ge (p : ascii -> bool) (s : pystr) (n : nat) :
  n <= length s -> Forall (fun c => p c = true) (take n s) -> n <= span p s.
Proof.
  revert n. induction s as [|c s IH]; intros n Hn Hall; simpl in *; [lia|].
  destruct n as [|n]; [lia|]. simpl in Hall. inversion Hall; subst.
  rewrite H1. specialize (IH n ltac:(lia) H2). lia.
Qed.

Lemma counts_complete (a : atom) (s : pystr) (n : nat) :
  a_lo a <= n -> (match a_hi a with Some h => n <= h | None => True end) ->
  n <= span (a_cls a) s -> In n (counts a s).
Proof.
  intros Hlo Hhi Hsp. unfold counts.
  assert (H : In n (seq (a_lo a) (S (match a_hi a with
                                     | Some h => Nat.min h (span (a_cls a) s)
                                     | None => span (a_cls a) s end) - a_lo a))).
  { apply in_seq. destruct (a_hi a); lia. }
  destruct (a_greedy a); [apply -> in_rev|]; exact H.
Qed.

Lemma match_atoms_complete {R} (l : list atom) (w r : pystr) (k : pystr -> option R) :
  atoms_sem l w -> k r <> None -> match_atoms l (w ++ r) k <> None.
Proof.
  revert w. induction l as [|a l IH]; intros w Hw Hk; simpl in *.
  - subst. done.
  - destruct Hw as (n & Hlo & Hhi & Hlen & Hall & Hrest).
    apply (first_some_complete _ _ n).
    + apply counts_complete; [done|done|]. apply span_ge.
      * rewrite length_app. lia.
      * rewrite take_app_le by lia. done.
    + rewrite drop_app_le by lia. apply IH; done.
Qed.

Lemma lstrip_head (s : pystr) (c : ascii) (t : pystr) :
  lstrip s = c :: t -> is_space c = false.
Proof.
  induction s as [|d s IH]; simpl; [done|].
  destruct (is_space d) eqn:E; [exact IH|]. intros [= <- _]. done.
Qed.

Lemma py_strip_last (s x : pystr) (c : ascii) :
  py_strip s = x ++ [c] -> is_space c = false.
Proof.
  unfold py_strip, py_rstrip. intros H.
  apply (f_equal (@rev _)) in H. rewrite rev_involutive, rev_app_distr in H.
  simpl in H. eapply lstrip_head. exact H.
Qed.

Lemma re_ok_policy_shape (s : pystr) :
  re_ok POLICY_SHAPE s = true <->
  exists w, (s = w \/ s = w ++ ["010"%char]) /\ policy_shape w.
Proof.
  unfold re_ok, re_match_end, POLICY_SHAPE. cbn [match_items].
  split.
  - destruct (match_atoms _ s _) eqn:E; [|done]. intros _.
    apply match_atoms_sound in E as (w & r & -> & Hw & Hk).
    destruct (end_ok r) eqn:Hend; [|done].
    apply end_ok_spaces in Hend as [-> | ->].
    + exists w. rewrite app_nil_r. split; [auto|]. apply atoms_sem_policy. done.
    + exists w. split; [auto|]. apply atoms_sem_policy. done.
  - intros (w & Hs & Hw). apply atoms_sem_policy in Hw.
    destruct (match_atoms _ s _) eqn:E; [done|]. exfalso.
    destruct Hs as [-> | ->].
    + rewrite <- (app_nil_r w) in E. revert E. apply match_atoms_complete; [done|].
      simpl. done.
    + revert E. apply match_atoms_complete; [done|]. simpl. done.
Qed.

Lemma policy_shape_nonempty (p : pystr) : policy_shape p -> p <> [].
Proof.
  intros (ds & u & -> & Hds & _). destruct ds; simpl in *; [lia|done].
Qed.

(** X1: A policy number is accepted exactly when, once stripped, it is nine or ten digits followed by at most one uppercase letter. *)
Theorem is_valid_policy_number_shape (p : pystr) :
  is_valid_policy_number p = true <-> policy_shape (py_strip p).
Proof.
  destruct p as [|c p].
  - simpl. split; [done|]. intros H. apply policy_shape_nonempty in H. done.
  - unfold is_valid_policy_number. rewrite re_ok_policy_shape. split.
    + intros (w & [Hs | Hs] & Hw); [rewrite Hs; done|].
      apply py_strip_last in Hs. done.
    + intros Hw. exists (py_strip (c :: p)). auto.
Qed.

Lemma re_ok_group (g : string) (b : list atom) (s : pystr) :
  re_ok [IGroup g b] s = true <->
  exists w, (s = w \/ s = w ++ ["010"%char]) /\ atoms_sem b w.
Proof.
  unfold re_ok, re_match_end. cbn [match_items].
  split.
  - destruct (match_atoms _ s _) eqn:E; [|done]. intros _.
    apply match_atoms_sound in E as (w & r & -> & Hw & Hk).
    destruct (end_ok r) eqn:Hend; [|done].
    apply end_ok_spaces in Hend as [-> | ->]; exists w; [rewrite app_nil_r|]; auto.
  - intros (w & Hs & Hw).
    destruct (match_atoms _ s _) eqn:E; [done|]. exfalso.
    destruct Hs as [-> | ->].
    + rewrite <- (app_nil_r w) in E. revert E. apply match_atoms_complete; done.
    + revert E. apply match_atoms_complete; done.
Qed.

Lemma ntw_nil : ntw [].
Proof. intros x c H. destruct x; discriminate. Qed.

Lemma ntw_app (x h : pystr) : ntw x -> ntw h -> ntw (x ++ h).
Proof.
  intros Hx Hh. destruct h as [|d h'] using rev_ind.
  - rewrite app_nil_r. done.
  - intros y e Heq. rewrite app_assoc in Heq. apply app_inj_tail in Heq as [_ <-].
    eapply Hh. done.
Qed.

Lemma ntw_cons (c : ascii) (t : pystr) : ntw (c :: t) -> ntw t.
Proof. intros H x d ->. apply (H (c :: x)). done. Qed.

Lemma ntw_snoc (x : pystr) (c : ascii) : is_space c = false -> ntw (x ++ [c]).
Proof. intros Hc y d Heq. apply app_inj_tail in Heq as [_ <-]. done. Qed.

Lemma prepend_ntw (x : pystr) (l : list pystr) :
  ntw x -> Forall ntw l -> Forall ntw (prepend x l).
Proof.
  intros Hx Hl. destruct l as [|h tl]; simpl.
  - constructor; [done|constructor].
  - inversion Hl; subst. constructor; [apply ntw_app|]; done.
Qed.

Lemma split_go_ntw (k : nat) (pend s : pystr) :
  1 <= k -> ntw s -> (s = [] -> pend = []) -> Forall ntw (split_go k pend s).
Proof.
  intros Hk. revert pend. induction s as [|c t IH]; intros pend Hs Hp; simpl.
  - rewrite (Hp eq_refl). simpl. destruct k; [lia|]. simpl.
    constructor; [apply ntw_nil|constructor].
  - destruct (is_space c) eqn:Hc.
    + apply IH; [eapply ntw_cons; done|]. intros ->. exfalso.
      specialize (Hs [] c eq_refl). congruence.
    + assert (Ht : Forall ntw (split_go k [] t)) by (apply IH; [eapply ntw_cons; done|done]).
      destruct (k <=? length pend).
      * constructor; [apply ntw_nil|]. apply prepend_ntw; [|done].
        apply (ntw_snoc []). done.
      * apply prepend_ntw; [|done]. apply ntw_snoc. done.
Qed.

Lemma py_strip_ntw (s : pystr) : ntw (py_strip s).
Proof. intros x c H. eapply py_strip_last. exact H. Qed.

Lemma split_strip_ntw (k : nat) (line : pystr) :
  1 <= k -> Forall ntw (re_split_ws k (py_strip line)).
Proof.
  intros Hk. unfold re_split_ws. apply split_go_ntw; [done|apply py_strip_ntw|done].
Qed.

Lemma re_ok_ntw (g : string) (b : list atom) (s : pystr) :
  ntw s -> re_ok [IGroup g b] s = true -> atoms_sem b s.
Proof.
  intros Hs H. apply re_ok_group in H as (w & [-> | ->] & Hw); [done|].
  exfalso. specialize (Hs w "010"%char eq_refl). done.
Qed.

Lemma py_get_Forall {A} (P : A -> Prop) (l : list A) (i : Z) (x : A) :
  Forall P l -> py_get l i = Ok x -> P x.
Proof.
  unfold py_get. intros Hl. case_match; [done|].
  destruct (l !! _) eqn:E; [|done]. intros [= <-].
  eapply Forall_lookup_1; done.
Qed.

Lemma py_slice_None_Forall {A} (P : A -> Prop) (l : list A) (b : Z) :
  Forall P l -> Forall P (py_slice l None (Some b)).
Proof.
  intros Hl. unfold py_slice. apply Forall_take. rewrite drop_0. done.
Qed.

Lemma fold_agent_id_ok (ps : list (nat * pystr)) (acc : option nat) (i : nat) :
  fold_left (fun acc it => if re_ok AGENT_ID_SHAPE it.2 then Some it.1 else acc) ps acc
    = Some i ->
  acc = Some i \/ exists x, In (i, x) ps /\ re_ok AGENT_ID_SHAPE x = true.
Proof.
  revert acc. induction ps as [|[j x] ps IH]; intros acc H; simpl in H; [auto|].
  apply IH in H as [H | (y & Hy & Hok)].
  - destruct (re_ok AGENT_ID_SHAPE x) eqn:E; [|auto].
    injection H as ->. right. exists x. simpl. auto.
  - right. exists y. simpl. auto.
Qed.

Lemma in_zip_seq_lookup (s : nat) (parts : list pystr) (i : nat) (x : pystr) :
  In (i, x) (zip (seq s (length parts)) parts) -> parts !! (i - s) = Some x.
Proof.
  revert s. induction parts as [|y ys IH]; intros s H; simpl in H; [done|].
  destruct H as [[= <- <-]|H].
  - rewrite Nat.sub_diag. done.
  - pose proof (in_zip_seq (S s) ys (i, x) H) as Hr. simpl in Hr.
    apply IH in H. replace (i - s) with (S (i - S s)) by lia. done.
Qed.

Lemma last_agent_id_index_ok (parts : list pystr) (i : nat) :
  last_agent_id_index parts = Some i ->
  exists x, parts !! i = Some x /\ re_ok AGENT_ID_SHAPE x = true.
Proof.
  unfold last_agent_id_index. intros H.
  apply fold_agent_id_ok in H as [H | (x & Hx & Hok)]; [done|].
  exists x. split; [|done]. apply in_zip_seq_lookup in Hx. rewrite Nat.sub_0_r in Hx. done.
Qed.

Lemma py_get_nat_inv {A} (l : list A) (n : nat) (x : A) :
  py_get l (Z.of_nat n) = Ok x -> l !! n = Some x.
Proof.
  unfold py_get. replace (Z.of_nat n <? 0)%Z with false by (symmetry; apply Z.ltb_ge; lia).
  case_match; [done|]. rewrite Nat2Z.id. destruct (l !! n); [|done]. intros [= ->]. done.
Qed.

Lemma policy_columns_fields (line : pystr) (r : uw_record) :
  parse_policy_line_by_columns line = Ok (Some r) ->
  uw_status r = [] /\ uw_plan r <> None /\ uw_requirement_desc r = None /\
  policy_shape (uw_policy_no r) /\ agent_id_shape (uw_agent_id r).
Proof.
  pose proof (py_slice_None_Forall _ _ 6%Z (split_strip_ntw 2 line ltac:(lia))) as Hn.
  unfold parse_policy_line_by_columns. unfold re_split_ws in *.
  destruct (length (split_go 2 [] (py_strip line)) <? 6); [done|].
  destruct (py_slice _ None (Some 6%Z)) as [|p [|n [|pl [|pr [|a [|ag [|x t]]]]]]]; try done.
  inversion Hn as [|? ? Hp Hn1]; inversion Hn1 as [|? ? _ Hn2]; inversion Hn2 as [|? ? _ Hn3];
    inversion Hn3 as [|? ? _ Hn4]; inversion Hn4 as [|? ? Ha _]; subst.
  destruct (re_ok POLICY_SHAPE p) eqn:Ep; [|done]. simpl.
  destruct (negb (re_ok PLAN_SHAPE pl)); [done|].
  destruct (negb (re_ok PREMIUM_SHAPE pr)); [done|].
  destruct (re_ok AGENT_ID_SHAPE a) eqn:Ea; [|done]. simpl.
  intros [= <-]. simpl. split; [done|]. split; [done|]. split; [done|].
  split; [apply atoms_sem_policy | apply atoms_sem_agent_id]; eapply re_ok_ntw; eauto.
Qed.

Lemma policy_tokens_fields (line : pystr) (r : uw_record) :
  parse_policy_line_by_tokens line = Ok (Some r) ->
  uw_status r = [] /\ uw_plan r <> None /\ uw_requirement_desc r = None /\
  policy_shape (uw_policy_no r) /\ agent_id_shape (uw_agent_id r).
Proof.
  pose proof (split_strip_ntw 1 line ltac:(lia)) as Hn.
  unfold parse_policy_line_by_tokens.
  set (parts := re_split_ws 1 (py_strip line)) in *.
  destruct (length parts <? 6); [done|].
  destruct (py_get parts 0) as [policy|] eqn:Hp; [simpl|done].
  destruct (re_ok POLICY_SHAPE policy) eqn:Ep; [simpl|done].
  destruct (last_agent_id_index parts) as [i|] eqn:Hi; [|done].
  destruct (py_get parts (Z.of_nat i)) as [aid|] eqn:Haid; [simpl|done].
  destruct (Z.of_nat i - 1 <? 0)%Z; [done|].
  destruct (py_get parts (Z.of_nat i - 1)) as [prem|]; [simpl|done].
  destruct (negb (re_ok PREMIUM_SHAPE prem)); [done|].
  destruct (Z.of_nat i - 2 <? 0)%Z; [done|].
  destruct (py_get parts (Z.of_nat i - 2)) as [plan|]; [simpl|done].
  destruct (negb (re_ok PLAN_SHAPE plan)); [done|].
  destruct (bool_decide _); [done|]. destruct (bool_decide _); [done|].
  intros [= <-]. simpl. split; [done|]. split; [done|]. split; [done|].
  split.
  - apply atoms_sem_policy. eapply re_ok_ntw; [|exact Ep].
    eapply (py_get_Forall ntw); eauto.
  - apply atoms_sem_agent_id.
    destruct (last_agent_id_index_ok parts i Hi) as (x & Hx & Hok).
    apply py_get_nat_inv in Haid. rewrite Haid in Hx. injection Hx as <-.
    eapply re_ok_ntw; [|exact Hok]. eapply (py_get_Forall ntw); [exact Hn|].
    destruct (py_get_nat parts i) as (y & Hy & Hg); [eapply lookup_lt_Some; done|].
    rewrite Haid in Hy. injection Hy as <-. exact Hg.
Qed.

Lemma uw_columns_fields (line : pystr) (r : uw_record) :
  parse_uw_line_by_columns line = Ok (Some r) ->
  uw_status r = [] /\ uw_plan r = None /\ uw_requirement_desc r <> None /\
  policy_shape (uw_policy_no r) /\ agent_id_shape (uw_agent_id r).
Proof.
  pose proof (py_slice_None_Forall _ _ 5%Z (split_strip_ntw 2 line ltac:(lia))) as Hn.
  unfold parse_uw_line_by_columns. unfold re_split_ws in *.
  destruct (length (split_go 2 [] (py_strip line)) <? 5); [done|].
  destruct (py_slice _ None (Some 5%Z)) as [|p [|n [|q [|a [|ag [|x t]]]]]]; try done.
  inversion Hn as [|? ? Hp Hn1]; inversion Hn1 as [|? ? _ Hn2]; inversion Hn2 as [|? ? _ Hn3];
    inversion Hn3 as [|? ? Ha _]; subst.
  destruct (re_ok POLICY_SHAPE p) eqn:Ep; [|done]. simpl.
  destruct (re_ok AGENT_ID_SHAPE a) eqn:Ea; [|done]. simpl.
  intros [= <-]. simpl. split; [done|]. split; [done|]. split; [done|].
  split; [apply atoms_sem_policy | apply atoms_sem_agent_id]; eapply re_ok_ntw; eauto.
Qed.

Lemma policy_re_groups (line : pystr) (e : env) :
  re_match_end POLICY_RE line = Some e ->
  atoms_sem [rep is_digit 9 10; opt is_upper] (group e "policy") /\
  atoms_sem [rep is_digit 6 7] (group e "agent_id").
Proof.
  unfold re_match_end. intros H.
  apply match_items_sound in H as (gs & r & Hgs & Hk).
  destruct (end_ok r); [|done]. injection Hk as <-. simpl in Hgs.
  inv_groups Hgs. cbn. split; assumption.
Qed.

Lemma uw_re_groups (line : pystr) (e : env) :
  re_match_end UW_RE line = Some e ->
  atoms_sem [rep is_digit 9 10; opt is_upper] (group e "policy") /\
  atoms_sem [rep is_digit 6 7] (group e "agent_id").
Proof.
  unfold re_match_end. intros H.
  apply match_items_sound in H as (gs & r & Hgs & Hk).
  destruct (end_ok r); [|done]. injection Hk as <-. simpl in Hgs.
  inv_groups Hgs. cbn. split; assumption.
Qed.

Lemma policy_re_fields (line : pystr) (e : env) :
  re_match_end POLICY_RE line = Some e ->
  policy_shape (group e "policy") /\ agent_id_shape (group e "agent_id").
Proof.
  intros H. apply policy_re_groups in H as [H1 H2].
  rewrite <- atoms_sem_policy, <- atoms_sem_agent_id. done.
Qed.

Lemma uw_re_fields (line : pystr) (e : env) :
  re_match_end UW_RE line = Some e ->
  policy_shape (group e "policy") /\ agent_id_shape (group e "agent_id").
Proof.
  intros H. apply uw_re_groups in H as [H1 H2].
  rewrite <- atoms_sem_policy, <- atoms_sem_agent_id. done.
Qed.

Section UwLoopForall.
Variable P : uw_record -> Prop.
Hypothesis HP : forall s line r, uw_classify s line = Ok (Some r) -> P r.

Lemma uw_step_Forall (s : option pystr) (out : list uw_record) (l : pystr)
  (s' : option pystr) (out' : list uw_record) :
  uw_step (s, out) l = Ok (s', out') -> Forall P out -> Forall P out'.
Proof.
  unfold uw_step. cbv zeta. intros H Hout.
  destruct (bool_decide (py_strip (py_rstrip l) = [])); [injection H as _ <-; done|].
  destruct (detect_status (py_rstrip l)); [injection H as _ <-; done|].
  destruct (uw_classify s (py_rstrip l)) as [[r|]|] eqn:E; simpl in H; try done.
  - injection H as _ <-. apply Forall_app. split; [done|]. constructor; [|constructor].
    eapply HP; eauto.
  - injection H as _ <-. done.
Qed.

Lemma uw_loop_Forall (s : option pystr) (out : list uw_record) (lines : list pystr)
  (s' : option pystr) (out' : list uw_record) :
  uw_loop (s, out) lines = Ok (s', out') -> Forall P out -> Forall P out'.
Proof.
  revert s out. induction lines as [|l ls IH]; intros s out H Hout; cbn [uw_loop] in H.
  - injection H as <- <-. done.
  - destruct (uw_step (s, out) l) as [[s1 out1]|] eqn:E; cbn [exc_bind] in H; [|done].
    apply (IH s1 out1 H). eapply uw_step_Forall; eauto.
Qed.

Lemma parse_report_Forall (text : pystr) :
  exists out, parse_report text = Ok out /\ Forall P out.
Proof.
  unfold parse_report.
  destruct (uw_loop_ok (None, []) (py_splitlines text)) as [[status out] Hl].
  rewrite Hl. simpl. exists out. split; [done|].
  apply (uw_loop_Forall _ _ _ _ _ Hl). constructor.
Qed.
End UwLoopForall.

Lemma policy_status_unknown (s : option pystr) :
  is_policy_status s = true -> in_strs POLICY_STATUSES (status_or_unknown s) = true.
Proof.
  destruct s as [x|]; [|reflexivity]. cbn [is_policy_status]. intros H.
  apply existsb_exists in H as (k & Hk & Hb). apply bool_decide_eq_true in Hb. subst x.
  repeat destruct Hk as [<- | Hk]; try reflexivity. done.
Qed.

Lemma requirement_status_unknown (s : option pystr) :
  is_requirement_status s = true -> in_strs REQUIREMENT_STATUSES (status_or_unknown s) = true.
Proof.
  destruct s as [x|]; [|done]. cbn [is_requirement_status]. intros H.
  apply existsb_exists in H as (k & Hk & Hb). apply bool_decide_eq_true in Hb. subst x.
  repeat destruct Hk as [<- | Hk]; try reflexivity. done.
Qed.

Lemma uw_requirement_block_fields (s : option pystr) (line : pystr) (r : uw_record) :
  uw_requirement_block s line = Ok (Some r) -> uw_status_ok r /\ uw_ids_ok r.
Proof.
  unfold uw_requirement_block. destruct (is_requirement_status s) eqn:Hs; [|done].
  destruct (re_match_end UW_RE line) as [e|] eqn:Hm.
  - intros [= <-]. unfold uw_status_ok, uw_ids_ok. simpl.
    split; [apply requirement_status_unknown; done|]. eapply uw_re_fields; eauto.
  - destruct (parse_uw_line_by_columns line) as [[r'|]|] eqn:E; simpl; try done.
    intros [= <-]. apply uw_columns_fields in E as (_ & Hp & _ & Hpol & Haid).
    unfold uw_status_ok, uw_ids_ok, set_status. simpl. rewrite Hp.
    split; [apply requirement_status_unknown; done|]. done.
Qed.

Lemma uw_classify_fields (s : option pystr) (line : pystr) (r : uw_record) :
  uw_classify s line = Ok (Some r) -> uw_status_ok r /\ uw_ids_ok r.
Proof.
  unfold uw_classify. destruct (is_policy_status s) eqn:Hs;
    [|apply uw_requirement_block_fields].
  destruct (re_match_end POLICY_RE line) as [e|] eqn:Hm.
  - intros [= <-]. unfold uw_status_ok, uw_ids_ok, policy_re_record. simpl.
    split; [apply policy_status_unknown; done|]. eapply policy_re_fields; eauto.
  - destruct (parse_policy_line_by_columns line) as [[r'|]|] eqn:E1; simpl; try done.
    { intros [= <-]. apply policy_columns_fields in E1 as (_ & Hp & _ & Hpol & Haid).
      unfold uw_status_ok, uw_ids_ok, set_status. simpl.
      destruct (uw_plan r'); [|done]. split; [apply policy_status_unknown; done|]. done. }
    destruct (parse_policy_line_by_tokens line) as [[r'|]|] eqn:E2; simpl; try done.
    { intros [= <-]. apply policy_tokens_fields in E2 as (_ & Hp & _ & Hpol & Haid).
      unfold uw_status_ok, uw_ids_ok, set_status. simpl.
      destruct (uw_plan r'); [|done]. split; [apply policy_status_unknown; done|]. done. }
    apply uw_requirement_block_fields.
Qed.

(** X2: Every record of [parse_report] carries a status from the fixed list of its kind: policy statuses for policy rows, requirement statuses for requirement rows. *)
Theorem parse_report_status_by_kind (text : pystr) :
  exists out, parse_report text = Ok out /\ Forall uw_status_ok out.
Proof.
  apply parse_report_Forall. intros s line r H. eapply uw_classify_fields; eauto.
Qed.

(** X3: Every record of [parse_report] has a policy number of nine or ten digits with at most one trailing uppercase letter, and an agent id of six or seven digits. *)
Theorem parse_report_id_shapes (text : pystr) :
  exists out, parse_report text = Ok out /\ Forall uw_ids_ok out.
Proof.
  apply parse_report_Forall. intros s line r H. eapply uw_classify_fields; eauto.
Qed.

Lemma atoms_sem_cons_app (a : atom) (l : list atom) (w : pystr) :
  atoms_sem (a :: l) w <->
  exists w1 w2, w = w1 ++ w2 /\ atoms_sem [a] w1 /\ atoms_sem l w2.
Proof.
  split.
  - cbn [atoms_sem]. intros (n & Hlo & Hhi & Hlen & Hall & Hrest).
    exists (take n w), (drop n w). rewrite take_drop. split; [done|]. split; [|done].
    exists n. rewrite length_take, take_take, Nat.min_id, drop_ge by (rewrite length_take; lia).
    repeat split; auto; lia.
  - intros (w1 & w2 & -> & H1 & H2). apply atoms_sem_one in H1 as (Hlo & Hhi & Hall).
    cbn [atoms_sem]. exists (length w1). rewrite take_app_length, drop_app_length, length_app.
    split; [done|]. split; [done|]. split; [lia|]. done.
Qed.

Lemma atoms_sem_fixed (p : ascii -> bool) (n : nat) (w : pystr) :
  atoms_sem [rep p n n] w <-> fixed_shape n p w.
Proof. rewrite atoms_sem_one. unfold fixed_shape. simpl. split; intros; intuition lia. Qed.

Lemma items_sem_atoms (l : list atom) (s : pystr) (gs : env) (r : pystr) :
  items_sem (map IAtom l) s gs r -> exists w, s = w ++ r /\ atoms_sem l w.
Proof.
  revert s. induction l as [|a l IH]; intros s H; cbn [map items_sem] in H.
  - destruct H as [_ ->]. exists []. done.
  - destruct H as (w & s' & -> & Hw & Hrest). apply IH in Hrest as (w' & -> & Hw').
    exists (w ++ w'). rewrite app_assoc. split; [done|].
    apply atoms_sem_cons_app. eauto.
Qed.

Lemma re_full_atoms (l : list atom) (s : pystr) :
  re_full (map IAtom l) s = true -> atoms_sem l s.
Proof.
  unfold re_full, re_fullmatch.
  destruct (match_items _ _ _ _) eqn:E; [|done]. intros _.
  apply match_items_sem in E as (gs & r & Hsem & Hk). destruct r; [|done].
  apply items_sem_atoms in Hsem as (w & -> & Hw). rewrite app_nil_r. done.
Qed.

Lemma find_boundary_go_spec (i j : nat) (ts : list pystr) :
  find_boundary_go i ts = Some j ->
  exists t1, ts !! (j - i) = Some t1 /\ re_full TWO_DIGITS t1 = true.
Proof.
  revert i. induction ts as [|t1 ts IH]; intros i H; [done|].
  destruct ts as [|t2 ts']; [done|].
  change (find_boundary_go i (t1 :: t2 :: ts')) with
    (if re_full TWO_DIGITS t1 && re_full DATE_TOKEN t2 then Some i
     else find_boundary_go (S i) (t2 :: ts')) in H.
  destruct (re_full TWO_DIGITS t1) eqn:E1; cbn [andb] in H.
  - destruct (re_full DATE_TOKEN t2).
    + injection H as <-. rewrite Nat.sub_diag. eauto.
    + pose proof (find_boundary_go_range _ _ _ H). apply IH in H as (t & Ht & Hf).
      exists t. replace (j - i) with (S (j - S i)) by lia. done.
  - pose proof (find_boundary_go_range _ _ _ H). apply IH in H as (t & Ht & Hf).
    exists t. replace (j - i) with (S (j - S i)) by lia. done.
Qed.

Lemma item_re_groups (ln : pystr) (e : env) :
  re_match_end ITEM_RE ln = Some e ->
  atoms_sem [rep is_digit 3 3] (group e "1") /\
  atoms_sem [rep is_digit 10 10; opt is_upper] (group e "2").
Proof.
  unfold re_match_end. intros H.
  apply match_items_sound in H as (gs & r & Hgs & Hk).
  destruct (end_ok r); [|done]. injection Hk as <-. simpl in Hgs.
  inv_groups Hgs. cbn. split; assumption.
Qed.

Lemma region_re_groups (ln : pystr) (e : env) :
  re_match_end REGION_RE ln = Some e -> atoms_sem [rep is_upper 2 2] (group e "1").
Proof.
  unfold re_match_end. intros H.
  apply match_items_sound in H as (gs & r & Hgs & Hk).
  destruct (end_ok r); [|done]. injection Hk as <-. simpl in Hgs.
  inv_groups Hgs. cbn. assumption.
Qed.

Lemma agency_re_groups (ln : pystr) (e : env) :
  re_match_end AGENCY_RE ln = Some e ->
  atoms_sem [rep is_upper 2 2; rep is_digit 3 3] (group e "1").
Proof.
  unfold re_match_end. intros H.
  apply match_items_sound in H as (gs & r & Hgs & Hk).
  destruct (end_ok r); [|done]. injection Hk as <-. simpl in Hgs.
  inv_groups Hgs. cbn. assumption.
Qed.

Lemma item_re_fields (ln : pystr) (e : env) :
  re_match_end ITEM_RE ln = Some e ->
  fixed_shape 3 is_digit (group e "1") /\ item_policy_shape (group e "2").
Proof.
  intros H. apply item_re_groups in H as [H1 H2].
  split; [apply atoms_sem_fixed; done|].
  apply atoms_sem_cons_app in H2 as (ds & u & -> & Hds & Hu).
  apply atoms_sem_one in Hu as (_ & Hu & Hall). simpl in Hu.
  exists ds, u. split; [done|]. split; [apply atoms_sem_fixed; done|]. done.
Qed.

Lemma region_re_fields (ln : pystr) (e : env) :
  re_match_end REGION_RE ln = Some e -> fixed_shape 2 is_upper (group e "1").
Proof. intros H. apply atoms_sem_fixed. eapply region_re_groups; eauto. Qed.

Lemma agency_re_fields (ln : pystr) (e : env) :
  re_match_end AGENCY_RE ln = Some e -> agency_code_shape (group e "1").
Proof.
  intros H. apply agency_re_groups in H.
  apply atoms_sem_cons_app in H as (a & b & -> & Ha & Hb).
  exists a, b. split; [done|]. split; apply atoms_sem_fixed; done.
Qed.

Lemma ret_step_shape (st st' : ret_state) (ln : pystr) :
  ret_shape_inv st -> ret_step st ln = Ok st' -> ret_shape_inv st'.
Proof.
  intros (Hr & Ha & Hi & Hp) H. unfold ret_step in H.
  destruct (re_match_end REGION_RE ln) as [e|] eqn:Ereg.
  { injection H as <-. apply region_re_fields in Ereg. done. }
  destruct (re_match_end AGENCY_RE ln) as [e|] eqn:Eag.
  { injection H as <-. apply agency_re_fields in Eag. done. }
  destruct (re_match_end ITEM_RE ln) as [e|] eqn:Eit; [|injection H as <-; done].
  destruct (length (item_tokens e) <? 8); [injection H as <-; done|].
  destruct (find_boundary (item_tokens e)) as [idx|] eqn:Hb; [|injection H as <-; done].
  apply find_boundary_go_spec in Hb as (t1 & Ht1 & H2). rewrite Nat.sub_0_r in Ht1.
  destruct (py_get (item_tokens e) (Z.of_nat idx)) as [bd|] eqn:Ebd; [|done]. simpl in H.
  assert (bd = t1) as ->.
  { destruct (py_get_nat (item_tokens e) idx) as [x [Hx Hg]].
    { apply lookup_lt_Some in Ht1. done. }
    rewrite Hx in Ht1. rewrite Hg in Ebd. congruence. }
  destruct (py_get (item_tokens e) (Z.of_nat (idx + 1))); [|done]. simpl in H.
  destruct (split_agent_reason (drop (idx + 6) (item_tokens e))); [|done]. simpl in H.
  assert (Hrec : forall sec ins iss bn am acl an ar1 ar2,
    ret_rec_ok (RetRec sec (group e "1") (group e "2") ins t1 iss bn am acl an ar1 ar2
                  (rs_region_code st) (rs_region_desc st)
                  (rs_agency_code st) (rs_agency_desc st))).
  { intros. apply item_re_fields in Eit as [E1 E2]. unfold ret_rec_ok. simpl.
    split; [done|]. split; [done|]. split; [|done].
    apply atoms_sem_fixed. apply re_full_atoms. exact H2. }
  case_bool_decide; injection H as <-; unfold ret_shape_inv; simpl.
  - split; [done|]. split; [done|]. split; [done|]. apply Forall_app. split; [done|].
    constructor; [apply Hrec|constructor].
  - split; [done|]. split; [done|]. split; [|done]. apply Forall_app. split; [done|].
    constructor; [apply Hrec|constructor].
Qed.

Lemma ret_loop_shape (st st' : ret_state) (lines : list pystr) :
  ret_shape_inv st -> ret_loop st lines = Ok st' -> ret_shape_inv st'.
Proof.
  revert st. induction lines as [|l ls IH]; intros st Hst H; simpl in H.
  - injection H as <-. done.
  - destruct (ret_step st l) as [s1|] eqn:E; [|done]. simpl in H.
    apply (IH s1); [|done]. eapply ret_step_shape; eauto.
Qed.

(** X4: Every item and pre-note of [parse_return_items] has a three-digit company code, a ten-digit policy number with at most one trailing uppercase letter and a two-digit bill day; its region code, when present, is two uppercase letters and its agency code two uppercase letters and three digits. *)
Theorem returns_record_shapes (text : pystr) :
  exists items pre_notes,
    parse_return_items text = Ok (items, pre_notes) /\
    Forall ret_rec_ok items /\ Forall ret_rec_ok pre_notes.
Proof.
  unfold parse_return_items.
  destruct (ret_loop_ok ret_init (py_splitlines text)) as [st Hst].
  rewrite Hst. simpl. exists (rs_items st), (rs_pre_notes st). split; [done|].
  apply ret_loop_shape in Hst.
  - destruct Hst as (_ & _ & Hi & Hp). done.
  - repeat split; constructor.
Qed.

Lemma shr_1_nonneg (mrs : shr_record) :
  (0 <= shr_m mrs)%Z -> (0 <= shr_m (shr_1 mrs))%Z.
Proof. destruct mrs as [m r s]. destruct m as [|[p|p|]|p]; simpl; lia. Qed.

Lemma iter_shr_1_nonneg (p : positive) (mrs : shr_record) :
  (0 <= shr_m mrs)%Z -> (0 <= shr_m (SpecFloat.iter_pos shr_1 p mrs))%Z.
Proof.
  revert mrs. induction p as [p IH|p IH|]; intros mrs H; simpl;
    auto using shr_1_nonneg.
Qed.

Lemma shr_fexp_nonneg (m e : Z) (l : location) :
  (0 <= m)%Z -> (0 <= shr_m (fst (shr_fexp prec emax m e l)))%Z.
Proof.
  intros Hm. unfold shr_fexp, shr.
  assert (Hr : (0 <= shr_m (shr_record_of_loc m l))%Z)
    by (destruct l as [|[]]; simpl; lia).
  case_match; simpl; auto using iter_shr_1_nonneg.
Qed.

Lemma binary_round_aux_nonneg (m e : Z) (l : location) :
  (0 <= m)%Z -> float_nonneg (binary_round_aux prec emax false m e l).
Proof.
  intros Hm. unfold binary_round_aux.
  pose proof (shr_fexp_nonneg m e l Hm) as H1.
  destruct (shr_fexp prec emax m e l) as [mrs' e'] eqn:E1. simpl in H1.
  assert (H2 : (0 <= round_nearest_even (shr_m mrs') (loc_of_shr_record mrs'))%Z).
  { unfold round_nearest_even. repeat case_match; lia. }
  pose proof (shr_fexp_nonneg _ e' loc_Exact H2) as H3.
  destruct (shr_fexp prec emax _ e' loc_Exact) as [mrs'' e''] eqn:E2. simpl in H3.
  destruct (shr_m mrs'') as [|p|p]; simpl; [done| |lia].
  destruct (_ <=? _)%Z; done.
Qed.

Lemma round_rat_nonneg (p q : positive) : float_nonneg (round_rat false p q).
Proof.
  unfold round_rat, SFdiv_core_binary. cbv zeta.
  match goal with
  | |- context [Z.div_eucl ?a ?b] =>
      assert (Ha : (0 <= a)%Z) by (case_match; [lia| apply Z.shiftl_nonneg; lia |lia]);
      assert (Hq : (0 <= fst (Z.div_eucl a b))%Z)
        by (change (fst (Z.div_eucl a b)) with (a / b)%Z; apply Z.div_pos; lia);
      destruct (Z.div_eucl a b) as [qq rr]
  end.
  apply binary_round_aux_nonneg. exact Hq.
Qed.

Lemma float_of_decimal_nonneg (n e : Z) : float_nonneg (float_of_decimal false n e).
Proof.
  unfold float_of_decimal. destruct n; [done| |done].
  destruct (0 <=? e)%Z; apply round_rat_nonneg.
Qed.

Lemma digit_dot_char (c : ascii) :
  (is_digit c || Ascii.eqb c "."%char) = true ->
  Ascii.eqb c "-"%char = false /\ Ascii.eqb c "+"%char = false /\
  to_lower c <> "n"%char /\ is_space c = false.
Proof.
  destruct c as [[] [] [] [] [] [] [] []]; vm_compute; intros H; try discriminate H;
    (split; [reflexivity|]); (split; [reflexivity|]); (split; [|reflexivity]);
    intros E; discriminate E.
Qed.

Lemma float_of_str_nonneg (s : pystr) (f : float) :
  (match py_strip s with c :: _ => is_digit c || Ascii.eqb c "."%char | [] => false end)
    = true ->
  float_of_str s = Some f -> float_nonneg f.
Proof.
  unfold float_of_str. destruct (py_strip s) as [|c t]; [done|]. intros Hc H.
  destruct (digit_dot_char c Hc) as (Hm & Hp & Hn & _).
  cbn [read_sign] in H. rewrite Hm, Hp in H. cbv beta iota in H. revert H.
  destruct (bool_decide (py_lower (c :: t) = chars "inf") || bool_decide (py_lower (c :: t) = chars "infinity")); [intros [= <-]; done|].
  destruct (bool_decide (py_lower (c :: t) = chars "nan")) eqn:En.
  { apply bool_decide_eq_true in En. cbn in En. injection En as En _. done. }
  intros H. repeat case_match; try done; injection H as <-; apply float_of_decimal_nonneg.
Qed.

Lemma py_strip_head (c : ascii) (t : pystr) :
  is_space c = false -> exists t', py_strip (c :: t) = c :: t'.
Proof.
  intros Hc. unfold py_strip. rewrite lstrip_nonspace by done.
  assert (Forall (fun x => is_space x = true) t \/ Exists (fun x => is_space x = false) t)
    as [Ht|Ht].
  { induction t as [|x t IH]; [left; constructor|].
    destruct (is_space x) eqn:Ex.
    - destruct IH as [IH|IH]; [left; constructor; done|right; apply Exists_cons; right; done].
    - right. constructor. done. }
  - change (c :: t) with ([c] ++ t). rewrite py_rstrip_spaces by done.
    unfold py_rstrip. simpl. rewrite Hc. exists []. done.
  - change (c :: t) with ([c] ++ t). rewrite py_rstrip_app by done. eauto.
Qed.

Lemma premium_nonneg (a t : pystr) (f : float) :
  Forall (fun c => c_digit_comma c = true) a ->
  to_float_premium (a ++ "."%char :: t) = Some f -> float_nonneg f.
Proof.
  intros Ha. unfold to_float_premium, remove_char. apply float_of_str_nonneg.
  rewrite filter_app, filter_cons_True by done.
  set (ds := filter (fun x => negb (Ascii.eqb x ","%char)) a).
  assert (Hds : Forall (fun d => is_digit d = true) ds).
  { apply Forall_forall. intros d Hd. subst ds.
    apply list_elem_of_filter in Hd as [Hne Hin].
    rewrite Forall_forall in Ha. specialize (Ha d Hin). unfold c_digit_comma in Ha.
    destruct (Ascii.eqb d ","%char); [done|]. rewrite orb_false_r in Ha. done. }
  destruct ds as [|c ds'].
  - simpl app. match goal with |- context [py_strip ("."%char :: ?r)] => destruct (py_strip_head "."%char r ltac:(reflexivity)) as [t' ->] end. done.
  - inversion Hds as [|? ? Hc _]; subst. simpl app.
    assert (Hc' : (is_digit c || Ascii.eqb c "."%char) = true) by (rewrite Hc; done).
    destruct (digit_dot_char c Hc') as (_ & _ & _ & Hs).
    match goal with |- context [py_strip (c :: ?r)] => destruct (py_strip_head c r Hs) as [t' ->] end. done.
Qed.

Lemma atoms_sem_lit (c : ascii) (w : pystr) : atoms_sem [lit c] w -> w = [c].
Proof.
  intros H. apply atoms_sem_one in H as (Hlo & Hhi & Hall). simpl in Hlo, Hhi.
  destruct w as [|x [|y w]]; simpl in *; try lia.
  inversion Hall as [|? ? Hx _]; subst. apply Ascii.eqb_eq in Hx. subst. done.
Qed.

Lemma parse_amount_nonneg (o : option pystr) : opt_float_nonneg (parse_amount o).
Proof.
  unfold parse_amount. destruct o as [[|c t]|]; try done.
  destruct (re_full AMOUNT_TOKEN (c :: t)) eqn:Ea; simpl.
  - case_bool_decide; [done|].
    destruct (float_of_str _) as [f|] eqn:Ef; [|done]. simpl.
    change AMOUNT_TOKEN with (map IAtom [star c_digit_comma; lit "."%char; rep is_digit 2 2])
      in Ea.
    apply re_full_atoms in Ea.
    apply atoms_sem_cons_app in Ea as (w1 & w2 & Hw & H1 & H2).
    apply atoms_sem_cons_app in H2 as (w3 & w4 & -> & H3 & _).
    apply atoms_sem_lit in H3 as ->.
    apply atoms_sem_one in H1 as (_ & _ & Hall).
    rewrite Hw in Ef. eapply premium_nonneg; [exact Hall|exact Ef].
  - case_bool_decide; [done|]. done.
Qed.

Lemma ret_step_amount (st st' : ret_state) (ln : pystr) :
  Forall ret_amount_ok (rs_items st) -> Forall ret_amount_ok (rs_pre_notes st) ->
  ret_step st ln = Ok st' ->
  Forall ret_amount_ok (rs_items st') /\ Forall ret_amount_ok (rs_pre_notes st').
Proof.
  intros Hi Hp H. unfold ret_step in H.
  destruct (re_match_end REGION_RE ln); [injection H as <-; done|].
  destruct (re_match_end AGENCY_RE ln); [injection H as <-; done|].
  destruct (re_match_end ITEM_RE ln) as [e|]; [|injection H as <-; done].
  destruct (length (item_tokens e) <? 8); [injection H as <-; done|].
  destruct (find_boundary (item_tokens e)) as [idx|]; [|injection H as <-; done].
  destruct (py_get (item_tokens e) (Z.of_nat idx)); [|done]. simpl in H.
  destruct (py_get (item_tokens e) (Z.of_nat (idx + 1))); [|done]. simpl in H.
  destruct (split_agent_reason (drop (idx + 6) (item_tokens e))); [|done]. simpl in H.
  pose proof (parse_amount_nonneg (opt_token (item_tokens e) (idx + 3))) as Ha.
  case_bool_decide; injection H as <-; simpl; (split; [|]); try done;
    apply Forall_app; (split; [done|]); repeat constructor; exact Ha.
Qed.

Lemma ret_loop_amount (st st' : ret_state) (lines : list pystr) :
  Forall ret_amount_ok (rs_items st) -> Forall ret_amount_ok (rs_pre_notes st) ->
  ret_loop st lines = Ok st' ->
  Forall ret_amount_ok (rs_items st') /\ Forall ret_amount_ok (rs_pre_notes st').
Proof.
  revert st. induction lines as [|l ls IH]; intros st Hi Hp H; simpl in H.
  - injection H as <-. done.
  - destruct (ret_step st l) as [s1|] eqn:E; [|done]. simpl in H.
    destruct (ret_step_amount _ _ _ Hi Hp E). apply (IH s1); done.
Qed.

(** X5: Every amount in the output of [parse_return_items] is a float of positive sign and never NaN, or missing. *)
Theorem returns_amount_nonneg (text : pystr) :
  exists items pre_notes,
    parse_return_items text = Ok (items, pre_notes) /\
    Forall ret_amount_ok items /\ Forall ret_amount_ok pre_notes.
Proof.
  unfold parse_return_items.
  destruct (ret_loop_ok ret_init (py_splitlines text)) as [st Hst].
  rewrite Hst. simpl. exists (rs_items st), (rs_pre_notes st). split; [done|].
  apply ret_loop_amount in Hst; [done|constructor|constructor].
Qed.

Lemma premium_shape_nonneg (s : pystr) :
  re_ok PREMIUM_SHAPE s = true -> opt_float_nonneg (to_float_premium s).
Proof.
  unfold re_ok, re_match_end.
  destruct (match_items PREMIUM_SHAPE [] s _) eqn:H; [|done]. intros _.
  unfold PREMIUM_SHAPE in H. cbn [match_items] in H.
  apply match_atoms_sound in H as (w & r & -> & Hw & Hk).
  apply atoms_sem_premium in Hw as (a & d1 & d2 & -> & Ha & _ & _).
  rewrite <- app_assoc. simpl.
  destruct (to_float_premium _) as [f|] eqn:Ef; [|done]. simpl.
  eapply premium_nonneg; [exact Ha|exact Ef].
Qed.

Lemma uw_classify_premium (s : option pystr) (line : pystr) (r : uw_record) :
  uw_classify s line = Ok (Some r) -> uw_premium_ok r.
Proof.
  assert (Hreq : forall line r, uw_requirement_block s line = Ok (Some r) -> uw_premium_ok r).
  { clear. intros line r. unfold uw_requirement_block.
    destruct (is_requirement_status s); [|done].
    destruct (re_match_end UW_RE line); [intros [= <-]; done|].
    destruct (parse_uw_line_by_columns line) as [[r'|]|] eqn:E; simpl; try done.
    intros [= <-]. unfold parse_uw_line_by_columns in E.
    destruct (length (re_split_ws 2 (py_strip line)) <? 5); [done|].
    destruct (py_slice _ None (Some 5%Z)) as [|p [|n [|q [|a [|ag [|x t]]]]]]; try done.
    destruct (negb (re_ok POLICY_SHAPE p)); [done|].
    destruct (negb (re_ok AGENT_ID_SHAPE a)); [done|].
    injection E as <-. done. }
  unfold uw_classify. destruct (is_policy_status s); [|apply Hreq].
  destruct (re_match_end POLICY_RE line) as [e|] eqn:Hm.
  - intros [= <-]. unfold uw_premium_ok, policy_re_record. simpl.
    apply policy_re_premium, atoms_sem_premium in Hm as (a & d1 & d2 & -> & Ha & _ & _).
    destruct (to_float_premium _) as [f|] eqn:Ef; [|done].
    eapply premium_nonneg; [exact Ha|exact Ef].
  - destruct (parse_policy_line_by_columns line) as [[r'|]|] eqn:E1; simpl; try done.
    { intros [= <-]. unfold uw_premium_ok. simpl. clear -E1.
      unfold parse_policy_line_by_columns in E1.
      destruct (length (re_split_ws 2 (py_strip line)) <? 6); [done|].
      destruct (py_slice _ None (Some 6%Z)) as [|p [|n [|pl [|pr [|a [|ag [|x t]]]]]]]; try done.
      destruct (negb (re_ok POLICY_SHAPE p)); [done|].
      destruct (negb (re_ok PLAN_SHAPE pl)); [done|].
      destruct (re_ok PREMIUM_SHAPE pr) eqn:Hpr; [|done]. simpl in E1.
      destruct (negb (re_ok AGENT_ID_SHAPE a)); [done|].
      injection E1 as <-. apply premium_shape_nonneg. done. }
    destruct (parse_policy_line_by_tokens line) as [[r'|]|] eqn:E2; simpl; try done.
    { intros [= <-]. unfold uw_premium_ok. simpl. clear -E2.
      unfold parse_policy_line_by_tokens in E2.
      set (parts := re_split_ws 1 (py_strip line)) in *.
      destruct (length parts <? 6); [done|].
      destruct (py_get parts 0) as [policy|]; [simpl in E2|done].
      destruct (negb (re_ok POLICY_SHAPE policy)); [done|].
      destruct (last_agent_id_index parts) as [i|]; [|done].
      destruct (py_get parts (Z.of_nat i)) as [aid|]; [simpl in E2|done].
      destruct (Z.of_nat i - 1 <? 0)%Z; [done|].
      destruct (py_get parts (Z.of_nat i - 1)) as [prem|]; [simpl in E2|done].
      destruct (re_ok PREMIUM_SHAPE prem) eqn:Hpr; [simpl in E2|done].
      destruct (Z.of_nat i - 2 <? 0)%Z; [done|].
      destruct (py_get parts (Z.of_nat i - 2)) as [plan|]; [simpl in E2|done].
      destruct (negb (re_ok PLAN_SHAPE plan)); [done|].
      destruct (bool_decide _); [done|]. destruct (bool_decide _); [done|].
      injection E2 as <-. apply premium_shape_nonneg. done. }
    apply Hreq.
Qed.

(** X6: Every premium in the output of [parse_report] is a float of positive sign and never NaN, or missing. *)
Theorem parse_report_premium_nonneg (text : pystr) :
  exists out, parse_report text = Ok out /\ Forall uw_premium_ok out.
Proof. apply parse_report_Forall. apply uw_classify_premium. Qed.

Lemma digits_to_Z_snoc (l : pystr) (c : ascii) :
  digits_to_Z (l ++ [c]) = (10 * digits_to_Z l + digit_val c)%Z.
Proof. unfold digits_to_Z. rewrite fold_left_app. done. Qed.

Lemma digit_char (n : nat) :
  n < 10 -> is_digit (ascii_of_nat (48 + n)) = true /\
            digit_val (ascii_of_nat (48 + n)) = Z.of_nat n.
Proof. intros Hn. do 10 (destruct n as [|n]; [vm_compute; auto|]). lia. Qed.

Lemma digits_of_nat_digits (f n : nat) : Forall (fun c => is_digit c = true) (digits_of_nat f n).
Proof.
  revert n. induction f as [|f IH]; intros n; cbn [digits_of_nat]; [constructor|].
  destruct (n <? 10) eqn:E.
  - apply Nat.ltb_lt in E. constructor; [apply digit_char; done|constructor].
  - apply Forall_app. split; [apply IH|]. constructor; [|constructor].
    apply digit_char. apply Nat.mod_upper_bound. lia.
Qed.

Lemma digits_of_nat_val (f n : nat) :
  n < 10 ^ f -> digits_to_Z (digits_of_nat f n) = Z.of_nat n.
Proof.
  revert n. induction f as [|f IH]; intros n Hn; cbn [digits_of_nat] in *; [simpl in Hn; assert (n = 0) as -> by lia; done|].
  destruct (n <? 10) eqn:E.
  - apply Nat.ltb_lt in E. change [ascii_of_nat (48 + n)] with ([] ++ [ascii_of_nat (48 + n)]).
    rewrite digits_to_Z_snoc. rewrite (proj2 (digit_char n E)). done.
  - apply Nat.ltb_ge in E. rewrite digits_to_Z_snoc, IH.
    + rewrite (proj2 (digit_char (n mod 10) ltac:(apply Nat.mod_upper_bound; lia))).
      pose proof (Nat.div_mod n 10 ltac:(lia)). lia.
    + apply Nat.Div0.div_lt_upper_bound. rewrite Nat.pow_succ_r' in Hn. lia.
Qed.

Lemma digits_of_nat_len (f n k : nat) :
  1 <= k <= f -> n < 10 ^ k -> 1 <= length (digits_of_nat f n) <= k.
Proof.
  revert n k. induction f as [|f IH]; intros n k Hk Hn; [lia|]. cbn [digits_of_nat].
  destruct (n <? 10) eqn:E; [simpl; lia|].
  apply Nat.ltb_ge in E. rewrite length_app. cbn [length].
  destruct k as [|k]; [lia|]. destruct k as [|k]; [simpl in Hn; lia|].
  assert (1 <= length (digits_of_nat f (n / 10)) <= S k); [|lia].
  apply IH; [lia|]. apply Nat.Div0.div_lt_upper_bound. rewrite Nat.pow_succ_r' in Hn. lia.
Qed.

Lemma digits_to_Z_zeros (j : nat) (ds : pystr) :
  digits_to_Z (repeat "0"%char j ++ ds) = digits_to_Z ds.
Proof.
  unfold digits_to_Z. rewrite fold_left_app. f_equal.
  induction j as [|j IH]; [done|]. simpl. exact IH.
Qed.

Lemma zero_pad_spec (w : nat) (n : Z) :
  1 <= w <= 20 -> (0 <= n < 10 ^ Z.of_nat w)%Z ->
  length (zero_pad w n) = w /\ Forall (fun c => is_digit c = true) (zero_pad w n) /\
  digits_to_Z (zero_pad w n) = n.
Proof.
  intros Hw Hn. unfold zero_pad.
  assert (Hlt : Z.to_nat n < 10 ^ w).
  { apply Nat2Z.inj_lt. rewrite Z2Nat.id by lia. rewrite Nat2Z.inj_pow. lia. }
  pose proof (digits_of_nat_len 20 (Z.to_nat n) w ltac:(lia) Hlt) as Hl.
  split; [rewrite length_app, repeat_length; lia|]. split.
  - apply Forall_app. split; [|apply digits_of_nat_digits].
    induction (w - length _) as [|j IHj]; simpl; [constructor|constructor; [done|exact IHj]].
  - rewrite digits_to_Z_zeros, digits_of_nat_val; [lia|].
    apply (Nat.lt_le_trans _ (10 ^ w)); [done|]. apply Nat.pow_le_mono_r; lia.
Qed.

Lemma forallb_seq_Z (P : Z -> bool) (lo n : nat) (m : Z) :
  forallb P (map Z.of_nat (seq lo n)) = true -> (Z.of_nat lo <= m < Z.of_nat (lo + n))%Z ->
  P m = true.
Proof.
  intros H Hm. rewrite forallb_forall in H. apply H.
  replace m with (Z.of_nat (Z.to_nat m)) by lia. apply in_map, in_seq. lia.
Qed.

Lemma month_zero_pad (m : Z) :
  (1 <= m <= 12)%Z -> month_ok (zero_pad 2 m) = true /\ digits_value (zero_pad 2 m) = m.
Proof.
  intros Hm.
  set (P := fun m => month_ok (zero_pad 2 m) && (digits_value (zero_pad 2 m) =? m)%Z).
  assert (H : P m = true) by (apply (forallb_seq_Z P 1 12); [vm_compute; reflexivity|lia]).
  unfold P in H. apply andb_prop in H as [H1 H2]. apply Z.eqb_eq in H2. done.
Qed.

Lemma day_zero_pad (d : Z) :
  (1 <= d <= 31)%Z -> day_ok (zero_pad 2 d) = true /\ digits_value (zero_pad 2 d) = d.
Proof.
  intros Hd.
  set (P := fun d => day_ok (zero_pad 2 d) && (digits_value (zero_pad 2 d) =? d)%Z).
  assert (H : P d = true) by (apply (forallb_seq_Z P 1 31); [vm_compute; reflexivity|lia]).
  unfold P in H. apply andb_prop in H as [H1 H2]. apply Z.eqb_eq in H2. done.
Qed.

Lemma days_in_month_range (y m : Z) : (28 <= days_in_month y m <= 31)%Z.
Proof. unfold days_in_month. repeat case_match; lia. Qed.

Lemma split_slash_nonnil (s : pystr) : split_slash s <> [].
Proof.
  destruct s as [|c t]; simpl; [done|]. destruct (Ascii.eqb c "/"%char); [done|].
  unfold prepend. case_match; done.
Qed.

Lemma split_slash_noslash (a b : pystr) :
  Forall (fun c => Ascii.eqb c "/"%char = false) a ->
  split_slash (a ++ b) = prepend a (split_slash b).
Proof.
  induction 1 as [|c a Hc Ha IH]; simpl.
  - pose proof (split_slash_nonnil b). destruct (split_slash b); done.
  - rewrite Hc, IH. unfold prepend. destruct (split_slash b); done.
Qed.

Lemma digit_not_slash (c : ascii) : is_digit c = true -> Ascii.eqb c "/"%char = false.
Proof.
  intros H. destruct (Ascii.eqb c "/"%char) eqn:E; [|done].
  apply Ascii.eqb_eq in E. subst. vm_compute in H. discriminate H.
Qed.

Lemma lstrip_Forall (s : pystr) : Forall (fun c => is_space c = false) s -> lstrip s = s.
Proof. intros H. destruct H; [done|]. apply lstrip_nonspace. done. Qed.

Lemma py_strip_Forall (s : pystr) : Forall (fun c => is_space c = false) s -> py_strip s = s.
Proof.
  intros H. unfold py_strip, py_rstrip. rewrite (lstrip_Forall s) by done.
  rewrite lstrip_Forall by (apply Forall_rev; done). apply rev_involutive.
Qed.

Lemma mdy_split (m d : Z) (ys : pystr) :
  (1 <= m <= 12)%Z -> (1 <= d <= 31)%Z -> Forall (fun c => is_digit c = true) ys ->
  split_slash (mdy_string (zero_pad 2 m) (zero_pad 2 d) ys) = [zero_pad 2 m; zero_pad 2 d; ys] /\
  py_strip (mdy_string (zero_pad 2 m) (zero_pad 2 d) ys) = mdy_string (zero_pad 2 m) (zero_pad 2 d) ys.
Proof.
  intros Hm Hd Hy.
  destruct (zero_pad_spec 2 m ltac:(lia) ltac:(lia)) as (_ & Dm & _).
  destruct (zero_pad_spec 2 d ltac:(lia) ltac:(lia)) as (_ & Dd & _).
  assert (Ns : forall l, Forall (fun c => is_digit c = true) l ->
                         Forall (fun c => Ascii.eqb c "/"%char = false) l).
  { intros l Hl. eapply Forall_impl; [exact Hl|]. intros c. apply digit_not_slash. }
  assert (Sp : forall l, Forall (fun c => is_digit c = true) l ->
                         Forall (fun c => is_space c = false) l).
  { intros l Hl. eapply Forall_impl; [exact Hl|]. intros c. apply digit_nonspace. }
  split.
  - unfold mdy_string. rewrite split_slash_noslash by auto. simpl.
    rewrite split_slash_noslash by auto. simpl.
    rewrite <- (app_nil_r ys), split_slash_noslash by auto. simpl. rewrite !app_nil_r. done.
  - apply py_strip_Forall. unfold mdy_string.
    apply Forall_app; split; [auto|]. constructor; [done|].
    apply Forall_app; split; [auto|]. constructor; [done|]. auto.
Qed.

Lemma forallb_Forall_true (p : ascii -> bool) (l : pystr) :
  Forall (fun c => p c = true) l -> forallb p l = true.
Proof. induction 1; simpl; [done|]. rewrite H. done. Qed.

(** X7: A valid date written MM/DD/YYYY with zero-padded fields is converted by [date_to_iso] to its ISO form. *)
Theorem date_to_iso_four_digit (y m d : Z) :
  valid_ymd y m d ->
  date_to_iso (mdy_string (zero_pad 2 m) (zero_pad 2 d) (zero_pad 4 y)) = Some (iso_of (y, m, d)).
Proof.
  intros (Hy & Hm & Hd). pose proof (days_in_month_range y m).
  destruct (zero_pad_spec 4 y) as (Ly & Dy & Vy); [lia|simpl; lia|].
  destruct (mdy_split m d (zero_pad 4 y)) as [Hs Hst]; [lia|lia|done|].
  destruct (month_zero_pad m) as [Mo Mv]; [lia|].
  destruct (day_zero_pad d) as [Do Dv]; [lia|].
  unfold date_to_iso. rewrite Hst. unfold strptime_mdy. rewrite Hs, Mo, Do, Ly, Mv, Dv, Vy.
  rewrite (forallb_Forall_true _ _ Dy). cbn -[days_in_month iso_of].
  rewrite (proj2 (Z.leb_le 1 y)), (proj2 (Z.leb_le d (days_in_month y m))) by lia. done.
Qed.

(** X8: A valid date written MM/DD/YY is converted by [date_to_iso] with the year taken in the century chosen by the pivot of [%y]. *)
Theorem date_to_iso_two_digit (yy m d : Z) :
  (0 <= yy <= 99)%Z -> (1 <= m <= 12)%Z -> (1 <= d <= days_in_month (two_digit_year yy) m)%Z ->
  date_to_iso (mdy_string (zero_pad 2 m) (zero_pad 2 d) (zero_pad 2 yy))
  = Some (iso_of (two_digit_year yy, m, d)).
Proof.
  intros Hy Hm Hd. pose proof (days_in_month_range (two_digit_year yy) m).
  destruct (zero_pad_spec 2 yy) as (Ly & Dy & Vy); [lia|simpl; lia|].
  destruct (mdy_split m d (zero_pad 2 yy)) as [Hs Hst]; [lia|lia|done|].
  destruct (month_zero_pad m) as [Mo Mv]; [lia|].
  destruct (day_zero_pad d) as [Do Dv]; [lia|].
  unfold date_to_iso. rewrite Hst. unfold strptime_mdy. rewrite Hs, Mo, Do, Ly, Mv, Dv, Vy.
  rewrite (forallb_Forall_true _ _ Dy). cbn -[days_in_month iso_of two_digit_year].
  unfold two_digit_year in *.
  destruct (yy <=? 68)%Z;
    rewrite (proj2 (Z.leb_le 1 _)), (proj2 (Z.leb_le d _)) by lia; done.
Qed.

Lemma in_range_code (lo hi : nat) (c : ascii) :
  in_range lo hi c = true -> lo <= code c <= hi.
Proof. unfold in_range. intros H. apply andb_prop in H as [H1 H2]. apply Nat.leb_le in H1, H2. lia. Qed.

Lemma digit_code (c : ascii) : is_digit c = true <-> 48 <= code c <= 57.
Proof.
  unfold is_digit. split.
  - intros H. apply andb_prop in H as [H1 H2]. apply Nat.leb_le in H1, H2. lia.
  - intros H. apply andb_true_intro. split; apply Nat.leb_le; lia.
Qed.

Lemma digit_val_range (c : ascii) :
  is_digit c = true -> digit_val c = (Z.of_nat (code c) - 48)%Z /\ (0 <= digit_val c <= 9)%Z.
Proof. intros H. apply digit_code in H. unfold digit_val. lia. Qed.

Lemma digits_value_one (a : ascii) :
  is_digit a = true -> digits_value [a] = digit_val a.
Proof.
  intros Ha. unfold digits_value. rewrite filter_cons_True by (rewrite Ha; done).
  unfold digits_to_Z. simpl. lia.
Qed.

Lemma digits_value_two (a b : ascii) :
  is_digit a = true -> is_digit b = true -> digits_value [a; b] = (10 * digit_val a + digit_val b)%Z.
Proof.
  intros Ha Hb. unfold digits_value.
  rewrite !filter_cons_True by first [rewrite Ha; done | rewrite Hb; done]. done.
Qed.

Lemma eqb_code (a : ascii) (k : ascii) : Ascii.eqb a k = true -> code a = code k.
Proof. intros H. apply Ascii.eqb_eq in H. subst. done. Qed.

Ltac code_lit H :=
  match type of H with
  | code _ = code ?k => let v := eval vm_compute in (code k) in change (code k) with v in H
  end.

Lemma month_ok_range (mm : pystr) :
  month_ok mm = true -> (1 <= digits_value mm <= 12)%Z.
Proof.
  destruct mm as [|a [|b [|x t]]]; simpl; try done.
  - intros H. apply in_range_code in H.
    assert (Ha : is_digit a = true) by (apply digit_code; lia).
    rewrite digits_value_one by done. pose proof (digit_val_range a Ha). lia.
  - intros H. apply orb_prop in H as [H|H]; apply andb_prop in H as [H1 H2];
      apply eqb_code in H1; code_lit H1; apply in_range_code in H2;
      assert (Ha : is_digit a = true) by (apply digit_code; lia);
      assert (Hb : is_digit b = true) by (apply digit_code; lia);
      rewrite digits_value_two by done;
      pose proof (digit_val_range a Ha); pose proof (digit_val_range b Hb); lia.
Qed.

Lemma day_ok_range (dd : pystr) :
  day_ok dd = true -> (1 <= digits_value dd <= 31)%Z.
Proof.
  destruct dd as [|a [|b [|x t]]]; simpl; try done.
  - intros H. apply in_range_code in H.
    assert (Ha : is_digit a = true) by (apply digit_code; lia).
    rewrite digits_value_one by done. pose proof (digit_val_range a Ha). lia.
  - intros H. apply orb_prop in H as [H|H]; [apply orb_prop in H as [H|H]|].
    1: apply orb_prop in H as [H|H].
    + apply andb_prop in H as [H1 H2]. apply eqb_code in H1. code_lit H1.
      apply in_range_code in H2.
      assert (Ha : is_digit a = true) by (apply digit_code; lia).
      assert (Hb : is_digit b = true) by (apply digit_code; lia).
      rewrite digits_value_two by done.
      pose proof (digit_val_range a Ha); pose proof (digit_val_range b Hb); lia.
    + apply andb_prop in H as [H1 Hb]. apply in_range_code in H1.
      assert (Ha : is_digit a = true) by (apply digit_code; lia).
      rewrite digits_value_two by done.
      pose proof (digit_val_range a Ha); pose proof (digit_val_range b Hb); lia.
    + apply andb_prop in H as [H1 H2]. apply eqb_code in H1. code_lit H1.
      apply in_range_code in H2.
      assert (Ha : is_digit a = true) by (apply digit_code; lia).
      assert (Hb : is_digit b = true) by (apply digit_code; lia).
      rewrite digits_value_two by done.
      pose proof (digit_val_range a Ha); pose proof (digit_val_range b Hb); lia.
    + apply andb_prop in H as [H1 H2]. apply Ascii.eqb_eq in H1. subst a.
      apply in_range_code in H2.
      assert (Hb : is_digit b = true) by (apply digit_code; lia).
      unfold digits_value. rewrite filter_cons_False by (vm_compute; tauto).
      rewrite filter_cons_True by (rewrite Hb; done). simpl.
      pose proof (digit_val_range b Hb). unfold digits_to_Z. simpl. lia.
Qed.

Lemma digits_to_Z_bound (l : pystr) :
  Forall (fun c => is_digit c = true) l -> (0 <= digits_to_Z l < 10 ^ Z.of_nat (length l))%Z.
Proof.
  induction l as [|c l IH] using rev_ind; intros H; [unfold digits_to_Z; simpl; lia|].
  apply Forall_app in H as [H1 H2]. inversion H2 as [|? ? Hc _]; subst.
  rewrite digits_to_Z_snoc, length_app. simpl length.
  rewrite Nat2Z.inj_add, Z.pow_add_r by lia. specialize (IH H1).
  pose proof (digit_val_range c Hc). simpl (10 ^ Z.of_nat 1)%Z. lia.
Qed.

Lemma forallb_true_Forall (p : ascii -> bool) (l : pystr) :
  forallb p l = true -> Forall (fun c => p c = true) l.
Proof.
  induction l as [|c l IH]; simpl; [constructor|].
  intros H. apply andb_prop in H as [H1 H2]. constructor; auto.
Qed.

Lemma strptime_mdy_valid (four : bool) (s : pystr) (y m d : Z) :
  strptime_mdy four s = Some (y, m, d) -> valid_ymd y m d.
Proof.
  unfold strptime_mdy.
  destruct (split_slash s) as [|mm [|dd [|ys [|x t]]]]; try done.
  destruct (month_ok mm) eqn:Hm; [|done]. destruct (day_ok dd) eqn:Hd; [|done].
  destruct (forallb is_digit ys) eqn:Hy; [|done].
  destruct (length ys =? (if four then 4 else 2)) eqn:Hl; [|done]. cbn [andb].
  apply month_ok_range in Hm. apply day_ok_range in Hd.
  apply forallb_true_Forall, digits_to_Z_bound in Hy. apply Nat.eqb_eq in Hl.
  rewrite Hl in Hy. cbv zeta.
  destruct (_ && _) eqn:Hc; [|done]. apply andb_prop in Hc as [Hc1 Hc2].
  apply Z.leb_le in Hc1, Hc2. intros [= <- <- <-].
  unfold valid_ymd. split; [|lia].
  destruct four; simpl in Hy; [lia|]. destruct (digits_to_Z ys <=? 68)%Z; lia.
Qed.

Lemma iso_of_length (y m d : Z) : valid_ymd y m d -> length (iso_of (y, m, d)) = 10.
Proof.
  intros (Hy & Hm & Hd). pose proof (days_in_month_range y m).
  destruct (zero_pad_spec 4 y) as (Ly & _); [lia|simpl; lia|].
  destruct (zero_pad_spec 2 m) as (Lm & _); [lia|simpl; lia|].
  destruct (zero_pad_spec 2 d) as (Ld & _); [lia|simpl; lia|].
  unfold iso_of. rewrite !length_app. simpl. rewrite ?length_app. lia.
Qed.

Lemma date_to_iso_some (raw iso : pystr) :
  date_to_iso raw = Some iso ->
  exists y m d, iso = iso_of (y, m, d) /\ valid_ymd y m d /\ length iso = 10.
Proof.
  unfold date_to_iso.
  destruct (strptime_mdy false (py_strip raw)) as [[[y m] d]|] eqn:E.
  - intros [= <-]. apply strptime_mdy_valid in E.
    exists y, m, d. split; [done|]. split; [done|]. apply iso_of_length; done.
  - destruct (strptime_mdy true (py_strip raw)) as [[[y m] d]|] eqn:E2; [|done].
    intros [= <-]. apply strptime_mdy_valid in E2.
    exists y, m, d. split; [done|]. split; [done|]. apply iso_of_length; done.
Qed.

(** X9: Whatever [date_to_iso] returns is the ISO form, ten characters long, of a real calendar date. *)
Theorem date_to_iso_valid (raw iso : pystr) :
  date_to_iso raw = Some iso ->
  exists y m d, iso = iso_of (y, m, d) /\ valid_ymd y m d /\ length iso = 10.
Proof. apply date_to_iso_some. Qed.

Lemma dict_get_cons (p : pystr * option pystr) (r : crow) (k : pystr) :
  dict_get (p :: r) k = if bool_decide (p.1 = k) then Some p.2 else dict_get r k.
Proof. unfold dict_get. simpl. destruct p as [a b]. simpl. case_bool_decide; done. Qed.

Lemma dict_get_None (r : crow) (k : pystr) : dict_get r k = None <-> k ∉ map fst r.
Proof.
  induction r as [|[a b] r IH]; simpl; [split; [intros _; apply not_elem_of_nil|done]|].
  rewrite dict_get_cons. simpl. rewrite not_elem_of_cons. case_bool_decide as E.
  - subst. split; [done|]. intros [H _]. done.
  - rewrite IH. split; [intros H; split; [congruence|done]|intros [_ H]; done].
Qed.

Lemma dict_get_Some_in (r : crow) (k : pystr) (v : option pystr) :
  dict_get r k = Some v -> (k, v) ∈ r.
Proof.
  induction r as [|[a b] r IH]; [done|]. rewrite dict_get_cons. simpl.
  case_bool_decide as E; [intros [= <-]; subst; left|intros H; right; auto].
Qed.

Lemma dict_get_app_ne (r : crow) (k k' : pystr) (v : option pystr) :
  k' <> k -> dict_get (r ++ [(k, v)]) k' = dict_get r k'.
Proof.
  intros Hne. induction r as [|p r IH].
  - simpl. rewrite dict_get_cons. simpl. case_bool_decide; [congruence|done].
  - simpl. rewrite !dict_get_cons, IH. done.
Qed.

Lemma dict_get_app_new (r : crow) (k : pystr) (v : option pystr) :
  dict_get r k = None -> dict_get (r ++ [(k, v)]) k = Some v.
Proof.
  induction r as [|p r IH]; simpl.
  - intros _. rewrite dict_get_cons. simpl. case_bool_decide; done.
  - rewrite !dict_get_cons. case_bool_decide; [done|]. exact IH.
Qed.

Lemma dict_get_map_upd (r : crow) (k k' : pystr) (v : option pystr) :
  dict_get (map (fun p => if bool_decide (p.1 = k) then (k, v) else p) r) k' =
  if bool_decide (k' = k) then (if dict_has r k then Some v else None) else dict_get r k'.
Proof.
  unfold dict_has. induction r as [|[a b] r IH]; simpl.
  - case_bool_decide; done.
  - rewrite !dict_get_cons. simpl. rewrite IH.
    repeat case_bool_decide; simpl in *; subst; try done; congruence.
Qed.

Lemma dict_get_set (r : crow) (k k' : pystr) (v : option pystr) :
  dict_get (dict_set r k v) k' = if bool_decide (k' = k) then Some v else dict_get r k'.
Proof.
  unfold dict_set. destruct (dict_has r k) eqn:Hh.
  - rewrite dict_get_map_upd, Hh. done.
  - unfold dict_has in Hh. destruct (dict_get r k) eqn:Hg; [done|].
    case_bool_decide; [subst; apply dict_get_app_new; done|apply dict_get_app_ne; done].
Qed.

Lemma dict_set_keys (r : crow) (k : pystr) (v : option pystr) :
  map fst (dict_set r k v) = if dict_has r k then map fst r else map fst r ++ [k].
Proof.
  unfold dict_set. destruct (dict_has r k); [|rewrite map_app; done].
  rewrite map_map. apply map_ext. intros [a b]. simpl. case_bool_decide; done.
Qed.

Lemma dict_set_values (P : option pystr -> Prop) (r : crow) (k : pystr) (v : option pystr) :
  Forall P (map snd r) -> P v -> Forall P (map snd (dict_set r k v)).
Proof.
  intros Hr Hv. unfold dict_set. destruct (dict_has r k).
  - rewrite map_map. induction r as [|[a b] r IH]; simpl; [constructor|].
    inversion Hr; subst. constructor; [case_bool_decide; done|auto].
  - rewrite map_app. apply Forall_app. split; [done|]. constructor; [done|constructor].
Qed.

Lemma dict_set_inv (r : crow) (k : pystr) (v : option pystr) :
  clean_inv r -> stripped_nonempty k -> opt_shape stripped_nonempty v ->
  clean_inv (dict_set r k v).
Proof.
  intros (Hnd & Hk & Hv) Hk' Hv'. unfold clean_inv. rewrite dict_set_keys.
  split; [|split; [|apply dict_set_values; done]].
  - destruct (dict_has r k) eqn:Hh; [done|]. apply NoDup_app. split; [done|].
    split; [|apply NoDup_singleton]. intros x Hx Hx'. apply list_elem_of_singleton in Hx'.
    subst. unfold dict_has in Hh. destruct (dict_get r k) eqn:Hg; [done|].
    apply dict_get_None in Hg. done.
  - destruct (dict_has r k); [done|]. apply Forall_app. split; [done|]. constructor; [done|constructor].
Qed.

Lemma py_rstrip_head (c : ascii) (t : pystr) :
  is_space c = false -> exists t', py_rstrip (c :: t) = c :: t'.
Proof.
  intros Hc.
  assert (Forall (fun x => is_space x = true) t \/ Exists (fun x => is_space x = false) t)
    as [Ht|Ht].
  { induction t as [|x t IH]; [left; constructor|].
    destruct (is_space x) eqn:Ex.
    - destruct IH as [IH|IH]; [left; constructor; done|right; apply Exists_cons; right; done].
    - right. constructor. done. }
  - change (c :: t) with ([c] ++ t). rewrite py_rstrip_spaces by done.
    unfold py_rstrip. simpl. rewrite Hc. exists []. done.
  - change (c :: t) with ([c] ++ t). rewrite py_rstrip_app by done. eauto.
Qed.

Lemma py_strip_idem (s : pystr) : py_strip (py_strip s) = py_strip s.
Proof.
  destruct (py_strip s) as [|c t] eqn:E; [done|].
  destruct (exists_last (l := c :: t) ltac:(done)) as (x & d & Hxd).
  assert (Hd : is_space d = false) by (apply (py_strip_last s x d); rewrite E; done).
  assert (Hc : is_space c = false).
  { unfold py_strip in E. destruct (lstrip s) as [|c' u] eqn:El; [done|].
    pose proof (lstrip_head _ _ _ El) as Hc'.
    destruct (py_rstrip_head c' u Hc') as [u' Hu]. rewrite Hu in E. injection E as <- _. done. }
  unfold py_strip at 1. rewrite lstrip_nonspace by done. rewrite Hxd.
  apply py_rstrip_last_nonspace. done.
Qed.

Lemma clean_value_shape (v : option pystr) : opt_shape stripped_nonempty (clean_value v).
Proof.
  destruct v as [s|]; simpl; [|done]. case_bool_decide as E; simpl; [done|].
  split; [done|]. apply py_strip_idem.
Qed.

Lemma clean_fields_inv (row : crow) : clean_inv (clean_fields row).
Proof.
  unfold clean_fields.
  assert (H0 : clean_inv []) by (split; [constructor|split; constructor]).
  revert H0. generalize ([] : crow). induction row as [|[k v] row IH]; intros acc Hacc; simpl; [done|].
  apply IH. destruct (clean_key k) as [[|c ck]|] eqn:Hk; try done.
  apply dict_set_inv; [done| |apply clean_value_shape].
  destruct k as [|k0 k']; [done|]. injection Hk as Hk. split; [done|]. rewrite <- Hk. apply py_strip_idem.
Qed.

Lemma clean_row_some (row : crow) (pc : option pystr) :
  exists out, clean_and_normalize_row_with_policy_column row pc = Some out /\ clean_inv out /\
    out = match pc with
          | Some c => match dict_get (clean_fields row) c with
                      | Some v => dict_set (clean_fields row) POLICY_KEY v
                      | None => clean_fields row
                      end
          | None => clean_fields row
          end.
Proof.
  unfold clean_and_normalize_row_with_policy_column.
  pose proof (clean_fields_inv row) as Hinv.
  set (cf := clean_fields row) in *.
  set (cl := match pc with
             | Some c => match dict_get cf c with Some v => dict_set cf POLICY_KEY v | None => cf end
             | None => cf end).
  assert (Hcl : clean_inv cl).
  { unfold cl. destruct pc as [c|]; [|done]. destruct (dict_get cf c) as [v|] eqn:Hg; [|done].
    apply dict_set_inv; [done|split; [done|reflexivity]|].
    apply dict_get_Some_in in Hg. destruct Hinv as (_ & _ & Hv).
    rewrite Forall_forall in Hv. apply Hv. apply list_elem_of_fmap. exists (c, v). done. }
  fold cl. exists cl. split; [|done].
  destruct (dict_get cl POLICY_KEY) as [[[|p0 p]|]|] eqn:Hp; simpl; try done.
  destruct (negb (re_ok POLICY_SHAPE (py_strip (p0 :: p)))); [|done].
  assert (Hex : existsb (fun kv => truthy kv.2 && negb (bool_decide (py_strip (opt_str kv.2) = []))) cl
                = true).
  { apply existsb_exists. exists (POLICY_KEY, Some (p0 :: p)).
    apply dict_get_Some_in in Hp. split; [apply list_elem_of_In; done|].
    destruct Hcl as (_ & _ & Hv). rewrite Forall_forall in Hv.
    destruct (Hv (Some (p0 :: p))) as [Hne Hs].
    { apply list_elem_of_fmap. exists (POLICY_KEY, Some (p0 :: p)). done. }
    simpl. rewrite Hs. case_bool_decide; done. }
  rewrite Hex. done.
Qed.

Lemma omap_length_total {A B} (f : A -> option B) (l : list A) :
  (forall x, exists y, f x = Some y) -> length (omap f l) = length l.
Proof.
  intros Hf. induction l as [|x l IH]; [done|]. simpl.
  destruct (Hf x) as [y Hy]. rewrite Hy. simpl. f_equal. exact IH.
Qed.

(** X10: Cleaning the parsed rows never drops a row: each row of the parsed file gives one cleaned row. *)
Theorem clean_parsed_rows_keep_all (rows : list crow) :
  length (clean_parsed_rows rows) = length rows.
Proof.
  unfold clean_parsed_rows, normalize_rows. apply omap_length_total.
  intros r. destruct (clean_row_some r (choose_policy_column rows)) as (out & H & _). eauto.
Qed.

(** X11: A cleaned row has distinct keys; its keys and its string values are stripped and nonempty. *)
Theorem clean_row_invariants (row : crow) (pc : option pystr) :
  exists out, clean_and_normalize_row_with_policy_column row pc = Some out /\
    NoDup (map fst out) /\ Forall stripped_nonempty (map fst out) /\
    Forall (opt_shape stripped_nonempty) (map snd out).
Proof.
  destruct (clean_row_some row pc) as (out & H & Hi & _). exists out. split; [done|]. exact Hi.
Qed.

(** X12: When the chosen policy column is present in the cleaned row, the cleaned row stores its value under the policy key and leaves every other key as cleaning made it. *)
Theorem clean_row_policy_copy (row : crow) (c : pystr) (v : option pystr) :
  dict_get (clean_fields row) c = Some v ->
  exists out, clean_and_normalize_row_with_policy_column row (Some c) = Some out /\
    dict_get out POLICY_KEY = Some v /\
    forall k, k <> POLICY_KEY -> dict_get out k = dict_get (clean_fields row) k.
Proof.
  intros Hc. destruct (clean_row_some row (Some c)) as (out & H & _ & Hout).
  rewrite Hc in Hout. subst out. exists (dict_set (clean_fields row) POLICY_KEY v).
  split; [done|]. split.
  - rewrite dict_get_set. case_bool_decide; done.
  - intros k Hk. rewrite dict_get_set. case_bool_decide; done.
Qed.

Lemma replace_dq_plain (c : ascii) (r : pystr) :
  is_quote c = false -> replace_dq (c :: r) = c :: replace_dq r.
Proof. intros Hc. destruct r as [|d t]; [done|]. cbn [replace_dq]. rewrite Hc. done. Qed.

Lemma replace_dq_double (s : pystr) : replace_dq (double_quotes s) = s.
Proof.
  induction s as [|c t IH]; [done|]. cbn [double_quotes].
  destruct (is_quote c) eqn:Hc.
  - cbn [replace_dq]. rewrite Hc. simpl. rewrite IH. done.
  - rewrite replace_dq_plain by done. rewrite IH. done.
Qed.

Lemma double_quotes_no_break (s : pystr) : no_break s -> no_break (double_quotes s).
Proof.
  unfold no_break. induction s as [|c t IH]; intros H; [constructor|]. inversion H; subst.
  cbn [double_quotes]. destruct (is_quote c); repeat constructor; auto.
Qed.

Lemma splitlines_go_app (cur l s : pystr) :
  no_break l -> splitlines_go cur (l ++ s) = splitlines_go (rev l ++ cur) s.
Proof.
  unfold no_break. revert cur. induction l as [|c l IH]; intros cur H; [done|].
  inversion H; subst. simpl. rewrite H2. rewrite IH by done. rewrite <- app_assoc. done.
Qed.

Lemma splitlines_go_nl (cur s : pystr) :
  splitlines_go cur ("010"%char :: s) = rev cur :: splitlines_go [] s.
Proof. reflexivity. Qed.

Lemma splitlines_join (ls : list pystr) :
  Forall (fun l => l <> [] /\ no_break l) ls -> py_splitlines (py_join ["010"%char] ls) = ls.
Proof.
  unfold py_splitlines. induction ls as [|x [|y t] IH]; intros H; [done| |].
  - inversion H as [|? ? [Hx Hb] _]; subst. simpl.
    rewrite <- (app_nil_r x) at 1. rewrite splitlines_go_app by done. rewrite app_nil_r.
    destruct (rev x) eqn:E; [apply (f_equal (@rev _)) in E; rewrite rev_involutive in E; done|].
    change (splitlines_go (a :: l) []) with [rev (a :: l)]. rewrite <- E, rev_involutive. done.
  - inversion H as [|? ? [Hx Hb] Ht]; subst.
    change (py_join ["010"%char] (x :: y :: t)) with (x ++ ["010"%char] ++ py_join ["010"%char] (y :: t)).
    rewrite splitlines_go_app by done. rewrite app_nil_r. cbn [app].
    rewrite splitlines_go_nl, rev_involutive, IH by done. done.
Qed.

Lemma py_slice_inner {A} (a b : A) (m : list A) :
  py_slice (a :: m ++ [b]) (Some 1%Z) (Some (-1)%Z) = m.
Proof.
  unfold py_slice.
  assert (Hn : length (a :: m ++ [b]) = S (S (length m))) by (simpl; rewrite length_app; simpl; lia).
  rewrite Hn.
  assert (Hi : py_norm (Z.of_nat (S (S (length m)))) 1 = 1) by (unfold py_norm; change ((1 <? 0)%Z) with false; cbv iota; lia).
  assert (Hj : py_norm (Z.of_nat (S (S (length m)))) (-1) = S (length m))
    by (unfold py_norm; change ((-1 <? 0)%Z) with true; cbv iota; lia).
  rewrite Hi, Hj. cbn [drop]. replace (S (length m) - 1) with (length m) by lia. apply take_app_length.
Qed.

Lemma normalize_quote_line (s : pystr) : normalize_line (quote_line s) = s.
Proof.
  unfold normalize_line, quote_line, py_startswith_char, py_endswith_char.
  rewrite last_cons, last_app. simpl. rewrite py_slice_inner. apply replace_dq_double.
Qed.

(** X13: A CSV text whose lines were each wrapped in quotes, with the inner quotes doubled, is turned back by [normalize_csv_content] into the original lines. *)
Theorem normalize_csv_quoted_round_trip (ls : list pystr) :
  Forall no_break ls ->
  normalize_csv_content (py_join ["010"%char] (map quote_line ls)) = py_join ["010"%char] ls.
Proof.
  intros H. unfold normalize_csv_content. rewrite splitlines_join.
  - rewrite map_map. f_equal. rewrite <- (map_id ls) at 2. apply map_ext. apply normalize_quote_line.
  - apply Forall_map. eapply Forall_impl; [exact H|]. intros l Hl. split; [unfold quote_line; done|].
    unfold quote_line, no_break. constructor; [reflexivity|]. apply Forall_app. split.
    + apply double_quotes_no_break. done.
    + constructor; [reflexivity|constructor].
Qed.

Lemma first_some_in {A B} (f : A -> option B) (l : list A) (y : B) :
  first_some f l = Some y -> exists x, In x l /\ f x = Some y.
Proof.
  induction l as [|x l IH]; simpl; [done|].
  destruct (f x) eqn:E; [intros [= <-]; exists x; auto|].
  intros H. destruct (IH H) as (x' & ? & ?). exists x'. auto.
Qed.

Lemma fallback_date_valid (text iso : pystr) :
  fallback_date text = Some iso -> exists y m d, iso = iso_of (y, m, d) /\ valid_ymd y m d.
Proof.
  unfold fallback_date. destruct (search_date_bounded _); [|done].
  intros H. destruct (date_to_iso_some _ _ H) as (y & m & d & ? & ? & _). eauto.
Qed.

(** X14: Any date returned by the underwriting [extract_report_date_iso] is the ISO form of a real calendar date. *)
Theorem extract_report_date_iso_valid (text iso : pystr) :
  extract_report_date_iso text = Some iso ->
  exists y m d, iso = iso_of (y, m, d) /\ valid_ymd y m d.
Proof.
  unfold extract_report_date_iso.
  destruct (first_some _ _) as [iso'|] eqn:E; [|apply fallback_date_valid].
  intros [= <-]. apply first_some_in in E as (line & _ & H).
  destruct (re_search UW_HEADER_RE line); [|done].
  destruct (date_to_iso (group e "1")) as [[|c t]|] eqn:Hd; try done.
  injection H as <-. destruct (date_to_iso_some _ _ Hd) as (y & m & d & ? & ? & _). eauto.
Qed.

(** X15: Any date returned by [extract_return_report_date_iso] is the ISO form of a real calendar date. *)
Theorem extract_return_report_date_iso_valid (text iso : pystr) :
  extract_return_report_date_iso text = Some iso ->
  exists y m d, iso = iso_of (y, m, d) /\ valid_ymd y m d.
Proof.
  unfold extract_return_report_date_iso.
  destruct (first_some _ _) as [r|] eqn:E; [|apply fallback_date_valid].
  intros ->. apply first_some_in in E as (line & _ & H).
  destruct (py_contains _ _); [|done]. destruct (re_search DATE_RE line); [|done].
  injection H as H. destruct (date_to_iso_some _ _ H) as (y & m & d & ? & ? & _). eauto.
Qed.

Lemma span_app (p : ascii -> bool) (w r : pystr) :
  Forall (fun c => p c = true) w -> span p (w ++ r) = length w + span p r.
Proof.
  induction w as [|c w IH]; intros H; [done|]. inversion H as [|? ? Hc Hw]; subst.
  simpl. rewrite Hc, IH; done.
Qed.

Lemma match_atoms_cons_exact {R} (a : atom) (l : list atom) (w r : pystr)
  (k : pystr -> option R) (x : R) (h : nat) :
  a_greedy a = true -> a_hi a = Some h -> a_lo a <= length w <= h ->
  Forall (fun c => a_cls a c = true) w ->
  (length w = h \/ match r with c :: _ => a_cls a c = false | [] => True end) ->
  match_atoms l r k = Some x -> match_atoms (a :: l) (w ++ r) k = Some x.
Proof.
  intros Hg Hh Hlo Hw Hend Hk. cbn [match_atoms].
  assert (Hc : counts a (w ++ r) = length w :: rev (seq (a_lo a) (length w - a_lo a))).
  { unfold counts. rewrite Hg, Hh, span_app by done.
    assert (Hm : Nat.min h (length w + span (a_cls a) r) = length w).
    { destruct Hend as [Hend|Hend]; [lia|]. destruct r as [|c r']; simpl; [lia|].
      rewrite Hend. lia. }
    rewrite Hm. replace (S (length w) - a_lo a) with (S (length w - a_lo a)) by lia.
    rewrite seq_S, rev_app_distr. simpl. f_equal. lia. }
  rewrite Hc. cbn [first_some]. rewrite drop_app_length, Hk. done.
Qed.

Lemma match_date_atoms {R} (w r : pystr) (k : pystr -> option R) (x : R) :
  date_piece w -> no_digit_head r -> k r = Some x -> match_atoms DATE_ATOMS (w ++ r) k = Some x.
Proof.
  intros (mm & dd & yy & -> & Hm & Hd & Hy & Fm & Fd & Fy) Hr Hk.
  replace (mdy_string mm dd yy ++ r) with
    (mm ++ ["/"%char] ++ dd ++ ["/"%char] ++ yy ++ r)
    by (unfold mdy_string; rewrite <- ?app_assoc; simpl; rewrite <- ?app_assoc; simpl; reflexivity).
  unfold DATE_ATOMS.
  apply (match_atoms_cons_exact _ _ _ _ _ _ 2); try done; [right; done|].
  apply (match_atoms_cons_exact _ _ _ _ _ _ 1); try done; [repeat constructor|left; done|].
  apply (match_atoms_cons_exact _ _ _ _ _ _ 2); try done; [right; done|].
  apply (match_atoms_cons_exact _ _ _ _ _ _ 1); try done; [repeat constructor|left; done|].
  apply (match_atoms_cons_exact _ _ _ _ _ _ 4); try done.
  right. destruct r; done.
Qed.

Lemma match_items_atoms_env (l : list atom) (e : env) (s : pystr) (e' : env) :
  match_items (map IAtom l) e s (fun e _ => Some e) = Some e' -> e' = e.
Proof.
  revert s. induction l as [|a l IH]; intros s H; cbn [map match_items] in H; [congruence|].
  apply match_atoms_sound in H as (w & r & _ & _ & H). exact (IH r H).
Qed.

Lemma match_items_atoms_complete {R} (l : list atom) (e : env) (w r : pystr)
  (k : env -> pystr -> option R) :
  atoms_sem l w -> k e r <> None -> match_items (map IAtom l) e (w ++ r) k <> None.
Proof.
  revert w. induction l as [|a l IH]; intros w Hw Hk; cbn [map match_items].
  - cbn [atoms_sem] in Hw. subst. done.
  - cbn [atoms_sem] in Hw. destruct Hw as (n & Hlo & Hhi & Hlen & Hall & Hrest).
    rewrite <- (take_drop n w), <- app_assoc.
    apply match_atoms_complete; [|apply IH; done].
    cbn [atoms_sem]. exists n. rewrite length_take.
    split; [done|]. split; [done|]. split; [lia|].
    rewrite take_take, Nat.min_id. split; [done|]. apply drop_ge. rewrite length_take. lia.
Qed.

Lemma to_lower_upper (c : ascii) : to_lower (to_upper c) = to_lower c.
Proof. destruct c as [[] [] [] [] [] [] [] []]; vm_compute; reflexivity. Qed.

Lemma line_break_upper (c : ascii) : is_line_break (to_upper c) = is_line_break c.
Proof. destruct c as [[] [] [] [] [] [] [] []]; vm_compute; reflexivity. Qed.

Lemma atoms_sem_ci (ph : pystr) : atoms_sem (map ci_lit (py_upper ph)) ph.
Proof.
  induction ph as [|c ph IH]; [done|]. cbn [py_upper map atoms_sem]. exists 1.
  simpl. split; [lia|]. split; [lia|]. split; [lia|]. split; [|done].
  constructor; [|constructor]. rewrite to_lower_upper. apply Ascii.eqb_refl.
Qed.

Lemma search_go_irrel {R} (f : option ascii -> pystr -> option R) (p1 p2 : option ascii) (s : pystr) :
  (forall p p' t, f p t = f p' t) -> search_go p1 s f = search_go p2 s f.
Proof. intros Hf. destruct s; simpl; rewrite (Hf p1 p2); done. Qed.

Lemma search_go_skip {R} (f : option ascii -> pystr -> option R) (p : option ascii) (pre s : pystr) :
  (forall p' c t, In c pre -> f p' (c :: t) = None) ->
  exists p', search_go p (pre ++ s) f = search_go p' s f.
Proof.
  revert p. induction pre as [|c pre IH]; intros p Hf; [exists p; done|].
  simpl. rewrite Hf by (left; done). apply IH. intros; apply Hf; right; done.
Qed.

Lemma search_go_here {R} (f : option ascii -> pystr -> option R) (p : option ascii) (s : pystr) (x : R) :
  f p s = Some x -> search_go p s f = Some x.
Proof. intros H. destruct s; simpl; rewrite H; done. Qed.

Lemma match_date_first_fail {R} (its : list item) (e : env) (c : ascii) (t : pystr)
  (k : env -> pystr -> option R) :
  is_digit c = false -> match_items (IGroup "1" DATE_ATOMS :: its) e (c :: t) k = None.
Proof. intros Hc. cbn [match_items DATE_ATOMS match_atoms]. unfold counts. simpl. rewrite Hc. done. Qed.

Lemma re_search_date_start (its : list item) (pre s : pystr) (e : env) :
  Forall (fun c => is_digit c = false) pre ->
  match_items (IGroup "1" DATE_ATOMS :: its) [] s (fun e _ => Some e) = Some e ->
  re_search (IGroup "1" DATE_ATOMS :: its) (pre ++ s) = Some e.
Proof.
  intros Hpre Hs. unfold re_search.
  destruct (search_go_skip (fun _ t => match_items (IGroup "1" DATE_ATOMS :: its) [] t (fun e _ => Some e))
              None pre s) as [p' ->].
  - intros _ c t Hc. apply match_date_first_fail. rewrite Forall_forall in Hpre.
    apply Hpre, list_elem_of_In. done.
  - apply search_go_here. done.
Qed.

Lemma date_piece_no_break (w : pystr) : date_piece w -> no_break w.
Proof.
  intros (mm & dd & yy & -> & _ & _ & _ & Fm & Fd & Fy). unfold mdy_string, no_break.
  assert (Hd : forall l : pystr, Forall (fun c => is_digit c = true) l ->
                 Forall (fun c => is_line_break c = false) l).
  { intros l Hl. eapply Forall_impl; [exact Hl|]. intros c Hc.
    destruct c as [[] [] [] [] [] [] [] []]; vm_compute in Hc; try discriminate Hc; reflexivity. }
  apply Forall_app. split; [auto|]. constructor; [reflexivity|].
  apply Forall_app. split; [auto|]. constructor; [reflexivity|]. auto.
Qed.

Lemma splitlines_first (line rest : pystr) :
  no_break line -> py_splitlines (line ++ "010"%char :: rest) = line :: py_splitlines rest.
Proof.
  intros H. unfold py_splitlines. rewrite splitlines_go_app by done.
  rewrite app_nil_r, splitlines_go_nl, rev_involutive. done.
Qed.

Lemma uw_header_re_atoms :
  UW_HEADER_RE = IGroup "1" DATE_ATOMS :: map IAtom (plus is_space :: map ci_lit (chars UW_HEADER_TEXT)).
Proof. reflexivity. Qed.

(** X16: When the first line of the text, whatever ends it, holds a date
    that [date_to_iso] converts, with no digit before it, followed by
    whitespace and the report title in any letter case, the underwriting
    report date is that converted date. *)
Theorem extract_report_date_header (text pre w sp ph post iso : pystr) :
  hd_error (py_splitlines text) = Some (pre ++ w ++ sp ++ ph ++ post) ->
  Forall (fun c => is_digit c = false) pre ->
  date_piece w ->
  sp <> [] -> Forall (fun c => is_space c = true) sp ->
  py_upper ph = chars UW_HEADER_TEXT ->
  date_to_iso w = Some iso ->
  extract_report_date_iso text = Some iso.
Proof.
  intros Hfirst Hpre Hw Hsp Hsp' Hph Hiso.
  unfold extract_report_date_iso.
  destruct (py_splitlines text) as [|line ls]; [discriminate Hfirst|].
  injection Hfirst as ->. cbn [take first_some].
  set (X := sp ++ ph ++ post).
  assert (Hm : match_items UW_HEADER_RE [] (w ++ X) (fun e _ => Some e) = Some [("1", w)]).
  { rewrite uw_header_re_atoms. cbn [match_items].
    apply match_date_atoms; [done| |].
    - unfold X. destruct sp as [|c sp']; [done|]. inversion Hsp' as [|? ? Hc _]; subst.
      simpl. destruct c as [[] [] [] [] [] [] [] []]; vm_compute in Hc; try discriminate Hc; reflexivity.
    - rewrite length_app. replace (length w + length X - length X) with (length w) by lia.
      rewrite take_app_length. change ([] ++ [("1", w)]) with [("1", w)].
      destruct (match_items (map IAtom (plus is_space :: map ci_lit (chars UW_HEADER_TEXT)))
                  [("1", w)] X (fun e _ => Some e)) as [e'|] eqn:E.
      + apply match_items_atoms_env in E. subst. done.
      + exfalso. revert E. unfold X. rewrite app_assoc.
        apply match_items_atoms_complete; [|done].
        cbn [atoms_sem]. exists (length sp).
        rewrite take_app_length, drop_app_length, length_app.
        destruct sp as [|c sp']; [done|]. simpl length.
        split; [simpl; lia|]. split; [done|]. split; [lia|]. split; [done|].
        rewrite <- Hph. apply atoms_sem_ci. }
  rewrite uw_header_re_atoms in Hm |- *. fold X.
  rewrite (re_search_date_start (map IAtom (plus is_space :: map ci_lit (chars UW_HEADER_TEXT))) pre (w ++ X) [("1", w)] Hpre Hm).
  unfold group. simpl. rewrite Hiso.
  destruct (date_to_iso_some _ _ Hiso) as (_ & _ & _ & _ & _ & Hl).
  destruct iso; [done|]. done.
Qed.

(** X17: When the first line of the text, whatever ends it, names the
    daily return draft and holds a date with no digit before it, the
    returns report date is [date_to_iso] of that date, even when the
    conversion fails: later lines are then not consulted. *)
Theorem extract_return_first_header (text pre w post : pystr) :
  hd_error (py_splitlines text) = Some (pre ++ w ++ post) ->
  Forall (fun c => is_digit c = false) pre ->
  date_piece w -> no_digit_head post ->
  py_contains (chars "DAILY RETURN DRAFT") (py_upper (pre ++ w ++ post)) = true ->
  extract_return_report_date_iso text = date_to_iso w.
Proof.
  intros Hfirst Hpre Hw Hpost Hc.
  unfold extract_return_report_date_iso.
  destruct (py_splitlines text) as [|line ls]; [discriminate Hfirst|].
  injection Hfirst as ->. cbn [take first_some]. rewrite Hc.
  assert (Hm : match_items DATE_RE [] (w ++ post) (fun e _ => Some e) = Some [("1", w)]).
  { unfold DATE_RE. cbn [match_items]. apply match_date_atoms; [done|done|].
    rewrite length_app. replace (length w + length post - length post) with (length w) by lia.
    rewrite take_app_length. done. }
  unfold DATE_RE in Hm |- *. rewrite (re_search_date_start [] pre (w ++ post) [("1", w)] Hpre Hm).
  unfold group. simpl. done.
Qed.

Lemma column_counts_eq (rows : list crow) (cand : pystr) :
  column_counts rows cand = fold_left (column_step cand) (take 100 rows) (0, 0).
Proof. reflexivity. Qed.

Lemma column_counts_go (rows : list crow) (cand : pystr) (acc : nat * nat) :
  acc.1 < (fold_left (column_step cand) rows acc).1 ->
  exists row v, row ∈ rows /\ dict_get row cand = Some (Some v) /\ is_valid_policy_number v = true.
Proof.
  revert acc. induction rows as [|row rows IH]; intros acc H; simpl in H; [lia|].
  unfold column_step at 2 in H. revert H.
  destruct (dict_get row cand) as [[[|c v]|]|] eqn:Hg; intros H;
    try (destruct (IH _ H) as (r & v & ? & ?); exists r, v; split; [right|]; done).
  destruct (is_valid_policy_number (c :: v)) eqn:Hv.
  - exists row, (c :: v). split; [left|]. done.
  - destruct (IH (acc.1, S acc.2) H) as (r & v' & ? & ?). exists r, v'. split; [right|]; done.
Qed.

Lemma detect_scan_inv (rows : list crow) (r0 : crow) : scan_inv rows r0 (detect_scan rows r0).
Proof.
  unfold detect_scan.
  assert (H0 : scan_inv rows r0 (None, S754_zero false)) by (intros c Hc; done).
  revert H0. generalize (None : option pystr, S754_zero false) as best.
  induction (detect_candidates r0) as [|cand cs IH]; intros best Hb; simpl; [done|].
  apply IH. destruct (dict_has r0 cand) eqn:Hh; simpl; [|done].
  destruct (column_counts rows cand) as [valid total] eqn:Hc.
  destruct (0 <? total); [|done].
  destruct (f_ltb best.2 (int_div valid total)); [|done].
  intros c [= <-]. simpl. rewrite Hc. done.
Qed.

Lemma detect_policy_column_sound_aux (rows : list crow) (c : pystr) :
  detect_policy_column rows = Some c ->
  exists r0 rs, rows = r0 :: rs /\ dict_has r0 c = true /\
    exists row v, row ∈ take 100 rows /\ dict_get row c = Some (Some v) /\
      is_valid_policy_number v = true.
Proof.
  destruct rows as [|r0 rs]; [done|]. unfold detect_policy_column.
  pose proof (detect_scan_inv (r0 :: rs) r0) as Hinv.
  destruct (detect_scan (r0 :: rs) r0) as [bc bs] eqn:E.
  destruct (f_leb FLOAT_0_3 bs) eqn:Hle; [|done]. intros ->.
  destruct (Hinv c eq_refl) as [Hh Hs]. simpl in Hs.
  exists r0, rs. split; [done|]. split; [done|].
  apply (column_counts_go _ _ (0, 0)). rewrite <- column_counts_eq. simpl.
  destruct (column_counts (r0 :: rs) c) as [valid total]. simpl in Hs |- *.
  destruct valid as [|valid]; [|lia]. exfalso.
  unfold int_div in Hs. simpl in Hs. subst bs. vm_compute in Hle. discriminate Hle.
Qed.

(** X18: A detected policy column is a key of the first row and holds a valid policy number in at least one of the first hundred rows. *)
Theorem detect_policy_column_sound (rows : list crow) (c : pystr) :
  detect_policy_column rows = Some c ->
  exists r0 rs, rows = r0 :: rs /\ dict_has r0 c = true /\
    exists row v, row ∈ take 100 rows /\ dict_get row c = Some (Some v) /\
      is_valid_policy_number v = true.
Proof. apply detect_policy_column_sound_aux. Qed.

Lemma key_rows_eq (rows : list crow) : key_rows rows = fold_left key_step rows ∅.
Proof. reflexivity. Qed.

Lemma key_fold_skip (l : list crow) (m : gmap pystr crow) (pid : pystr) :
  Forall (fun r => policy_key r <> Some pid) l -> fold_left key_step l m !! pid = m !! pid.
Proof.
  revert m. induction l as [|r l IH]; intros m H; [done|]. inversion H as [|? ? Hr Hl]; subst.
  simpl. rewrite IH by done. unfold key_step.
  destruct (policy_key r) as [p|] eqn:Hp; [|done].
  rewrite lookup_insert_ne; [done|]. intros ->. done.
Qed.

Lemma key_fold_none (l : list crow) (m : gmap pystr crow) (pid : pystr) :
  fold_left key_step l m !! pid = None ->
  m !! pid = None /\ Forall (fun r => policy_key r <> Some pid) l.
Proof.
  revert m. induction l as [|r l IH]; intros m H; [done|]. simpl in H.
  destruct (IH _ H) as [Hm Hl]. unfold key_step in Hm.
  destruct (policy_key r) as [p|] eqn:Hp.
  - destruct (decide (p = pid)) as [->|Hne]; [rewrite lookup_insert_eq in Hm; done|].
    rewrite lookup_insert_ne in Hm by done. split; [done|]. constructor; [congruence|done].
  - split; [done|]. constructor; [congruence|done].
Qed.

(** X20: When several rows share a policy number, the keyed map of a file keeps the last of them. *)
Theorem key_rows_last_wins (rs1 rs2 : list crow) (r : crow) (pid : pystr) :
  policy_key r = Some pid -> Forall (fun r' => policy_key r' <> Some pid) rs2 ->
  key_rows (rs1 ++ r :: rs2) !! pid = Some r.
Proof.
  intros Hr H2. rewrite key_rows_eq, fold_left_app. simpl. rewrite key_fold_skip by done.
  unfold key_step at 1. rewrite Hr. apply lookup_insert_eq.
Qed.

Lemma omap_nodup_keyed {A B} (f : A -> option B) (key : B -> A) (l : list A) :
  NoDup l -> (forall x y, f x = Some y -> key y = x) -> NoDup (omap f l).
Proof.
  intros Hnd Hk. induction Hnd as [|x l Hx Hnd IH]; [constructor|]. simpl.
  destruct (f x) as [y|] eqn:Hf; [|done]. constructor; [|done].
  intros Hy. apply list_elem_of_omap in Hy as (x' & Hx' & Hf').
  apply Hk in Hf, Hf'. congruence.
Qed.

(** X21: The comparison reports as added exactly the keyed new rows whose policy number is missing from the old file, and as modified exactly those whose old row differs; no row is reported twice. *)
Theorem compare_rows_changes (list_new list_old added modified : list crow) :
  compare_rows list_new list_old = CmpOk added modified ->
  (forall r, r ∈ added <->
     exists pid, key_rows list_new !! pid = Some r /\ key_rows list_old !! pid = None) /\
  (forall r, r ∈ modified <->
     exists pid old_row, key_rows list_old !! pid = Some old_row /\
       key_rows list_new !! pid = Some r /\ has_changes old_row r = true) /\
  NoDup (added ++ modified).
Proof.
  unfold compare_rows.
  destruct (negb (has_policy_column list_new)); [done|].
  destruct (negb (has_policy_column list_old)); [done|].
  intros [= <- <-].
  set (mn := key_rows list_new). set (mo := key_rows list_old).
  split; [|split].
  - intros r. rewrite list_elem_of_omap. split.
    + intros (pid & Hp & Hr). apply elem_of_elements, elem_of_difference in Hp as [_ Hp].
      apply not_elem_of_dom in Hp. eauto.
    + intros (pid & Hn & Ho). exists pid. split; [|done].
      apply elem_of_elements, elem_of_difference. split; [apply elem_of_dom; eauto|].
      apply not_elem_of_dom. done.
  - intros r. rewrite list_elem_of_omap. split.
    + intros (pid & Hp & Hr).
      destruct (mo !! pid) as [o|] eqn:Ho; [|done]. destruct (mn !! pid) as [n|] eqn:Hn; [|done].
      destruct (has_changes o n) eqn:Hc; [|done]. injection Hr as <-. eauto.
    + intros (pid & o & Ho & Hn & Hc). exists pid. split.
      * apply elem_of_elements, elem_of_intersection. split; apply elem_of_dom; eauto.
      * rewrite Ho, Hn, Hc. done.
  - apply NoDup_app. split; [|split].
    + apply (omap_nodup_keyed _ (fun r => match policy_key r with Some p => p | None => [] end));
        [apply NoDup_elements|].
      intros pid r H. apply key_rows_policy in H. rewrite H. done.
    + intros r Ha Hm. apply list_elem_of_omap in Ha as (p1 & Hp1 & Hr1).
      apply list_elem_of_omap in Hm as (p2 & Hp2 & Hr2).
      apply elem_of_elements, elem_of_difference in Hp1 as [_ Hp1].
      apply elem_of_elements, elem_of_intersection in Hp2 as [_ Hp2].
      destruct (mo !! p2) as [o|] eqn:Ho; [|done]. destruct (mn !! p2) as [n|] eqn:Hn; [|done].
      destruct (has_changes o n); [|done]. injection Hr2 as <-.
      apply key_rows_policy in Hr1, Hn. rewrite Hr1 in Hn. injection Hn as <-. done.
    + apply (omap_nodup_keyed _ (fun r => match policy_key r with Some p => p | None => [] end));
        [apply NoDup_elements|].
      intros pid r H. destruct (mo !! pid) as [o|]; [|done]. destruct (mn !! pid) as [n|] eqn:Hn; [|done].
      destruct (has_changes o n); [|done]. injection H as <-. apply key_rows_policy in Hn. rewrite Hn. done.
Qed.

Lemma detect_scan_none (rows : list crow) : detect_scan rows [] = (None, S754_zero false).
Proof.
  unfold detect_scan. generalize (detect_candidates []) as cs. intros cs.
  induction cs as [|c cs IH]; [done|]. simpl. exact IH.
Qed.

Lemma dict_has_in (r : crow) (k : pystr) : dict_has r k = true -> k ∈ map fst r.
Proof.
  unfold dict_has. destruct (dict_get r k) as [v|] eqn:E; [|done]. intros _.
  apply dict_get_Some_in in E. apply list_elem_of_fmap. exists (k, v). done.
Qed.

Lemma find_key_in (f : pystr * option pystr -> bool) (r : crow) (k : pystr) (v : option pystr) :
  find f r = Some (k, v) -> k ∈ map fst r.
Proof.
  intros H. apply find_some in H as [H _]. apply list_elem_of_fmap. exists (k, v).
  split; [done|]. apply list_elem_of_In. done.
Qed.

(** X19: The column used as policy column for a nonempty file is a key of its first row; a first row with no keys gives no policy column. *)
Theorem choose_policy_column_first_row (r0 : crow) (rs : list crow) :
  match r0 with
  | [] => choose_policy_column (r0 :: rs) = None
  | _ => exists c, choose_policy_column (r0 :: rs) = Some c /\ c ∈ map fst r0
  end.
Proof.
  destruct r0 as [|[k0 v0] r0'].
  - unfold choose_policy_column, detect_policy_column. rewrite detect_scan_none.
    vm_compute. reflexivity.
  - unfold choose_policy_column.
    set (r0 := (k0, v0) :: r0').
    destruct (truthy (detect_policy_column (r0 :: rs))) eqn:Ht.
    + destruct (detect_policy_column (r0 :: rs)) as [d|] eqn:Hd; [|done].
      exists d. split; [done|]. apply detect_policy_column_sound_aux in Hd.
      destruct Hd as (r0x & rsx & [= <- <-] & Hh & _). apply dict_has_in. done.
    + assert (Hne : bool_decide (r0 = []) = false) by (apply bool_decide_eq_false; done).
      unfold r0 at 1. fold r0.
      destruct (find _ r0) as [[k v]|] eqn:Hf.
      * apply find_key_in in Hf. destruct (truthy (Some k)) eqn:Hk.
        -- exists k. simpl. done.
        -- exists k0. rewrite Hne. simpl. split; [done|]. left.
      * exists k0. rewrite Hne, Ht. simpl. split; [done|]. left.
Qed.

Lemma rfind_go_spec (c : ascii) (s : pystr) (i : nat) (acc : Z) :
  rfind_go c s i acc = acc \/
  exists j, s !! j = Some c /\ rfind_go c s i acc = Z.of_nat (i + j).
Proof.
  revert i acc. induction s as [|x s IH]; intros i acc; [left; done|]. simpl.
  destruct (IH (S i) (if Ascii.eqb x c then Z.of_nat i else acc)) as [H|(j & Hj & H)].
  - rewrite H. destruct (Ascii.eqb x c) eqn:E; [|left; done].
    right. exists 0. apply Ascii.eqb_eq in E. subst. split; [done|]. f_equal. lia.
  - right. exists (S j). split; [done|]. rewrite H. f_equal. lia.
Qed.

Lemma py_rfind_spec (c : ascii) (s : pystr) :
  py_rfind c s = (-1)%Z \/ exists j, s !! j = Some c /\ py_rfind c s = Z.of_nat j.
Proof. unfold py_rfind. destruct (rfind_go_spec c s 0 (-1)) as [H|(j & Hj & H)]; [left|right]; eauto. Qed.

Lemma hd_error_drop {A} (l : list A) (j : nat) : hd_error (drop j l) = l !! j.
Proof. revert j. induction l as [|x l IH]; intros [|j]; simpl; try done. Qed.

Lemma splitext_ext (p : pystr) :
  exists ext, (splitext p).2 = ext /\ p = (splitext p).1 ++ ext /\
    (ext = [] \/ hd_error ext = Some "."%char).
Proof.
  unfold splitext.
  assert (Hs : (-1 <= py_rfind "/"%char p)%Z)
    by (destruct (py_rfind_spec "/"%char p) as [->|(j & _ & ->)]; lia).
  destruct (Z.ltb _ _) eqn:Hlt; [destruct (existsb _ _)|]; simpl.
  - exists (drop (Z.to_nat (py_rfind "."%char p)) p).
    split; [done|]. split; [symmetry; apply take_drop|]. right.
    apply Z.ltb_lt in Hlt.
    destruct (py_rfind_spec "."%char p) as [Hd|(jd & Hjd & Hd)]; [lia|].
    rewrite Hd, Nat2Z.id, hd_error_drop. done.
  - exists []. rewrite app_nil_r. auto.
  - exists []. rewrite app_nil_r. auto.
Qed.

Lemma sub_unsafe_safe (s : pystr) : Forall (fun c => safe_char c = true) (sub_unsafe s).
Proof.
  induction s as [|c s IH]; [constructor|]. simpl. constructor; [|done].
  destruct (safe_char c) eqn:E; [done|reflexivity].
Qed.

Lemma collapse_us_Forall (P : ascii -> Prop) (b : bool) (s : pystr) :
  Forall P s -> Forall P (collapse_us b s).
Proof.
  revert b. induction s as [|c s IH]; intros b H; [constructor|]. inversion H; subst. simpl.
  destruct (Ascii.eqb c "_"%char); [destruct b|]; auto.
Qed.

Lemma no_double_us_cons2 (a b : ascii) (t : pystr) :
  no_double_us (a :: b :: t) = negb (is_us a && is_us b) && no_double_us (b :: t).
Proof. reflexivity. Qed.

Lemma collapse_us_no_double (b : bool) (s : pystr) :
  no_double_us (collapse_us b s) = true /\
  (b = true -> hd_error (collapse_us b s) <> Some "_"%char).
Proof.
  revert b. induction s as [|c s IH]; intros b; [done|]. cbn [collapse_us].
  destruct (Ascii.eqb c "_"%char) eqn:E.
  - destruct b; [apply IH|]. split; [|done].
    destruct (IH true) as [H1 H2]. specialize (H2 eq_refl).
    destruct (collapse_us true s) as [|d t] eqn:Ec; [done|].
    rewrite no_double_us_cons2, H1, andb_true_r. unfold is_us. rewrite E. simpl.
    destruct (Ascii.eqb d "_"%char) eqn:Ed; [|done]. apply Ascii.eqb_eq in Ed. subst. done.
  - split.
    + destruct (IH false) as [H1 _].
      destruct (collapse_us false s) as [|d t] eqn:Ec; [done|].
      rewrite no_double_us_cons2, H1, andb_true_r. unfold is_us. rewrite E. done.
    + intros _. simpl. intros [= ->]. done.
Qed.

Lemma lstrip_by_suffix (p : ascii -> bool) (s : pystr) : exists x, s = x ++ lstrip_by p s.
Proof.
  induction s as [|c s IH]; [exists []; done|]. simpl. destruct (p c).
  - destruct IH as [x Hx]. exists (c :: x). simpl. f_equal. done.
  - exists []. done.
Qed.

Lemma lstrip_by_head (p : ascii -> bool) (s : pystr) (c : ascii) :
  hd_error (lstrip_by p s) = Some c -> p c = false.
Proof.
  induction s as [|d s IH]; simpl; [done|]. destruct (p d) eqn:E; [exact IH|].
  intros [= <-]. done.
Qed.

Lemma strip_by_infix (p : ascii -> bool) (s : pystr) :
  exists x z, s = x ++ strip_by p s ++ z.
Proof.
  destruct (lstrip_by_suffix p s) as [x Hx].
  destruct (lstrip_by_suffix p (rev (lstrip_by p s))) as [u Hu].
  exists x, (rev u). unfold strip_by.
  assert (Hy : lstrip_by p s = rev (lstrip_by p (rev (lstrip_by p s))) ++ rev u).
  { rewrite <- rev_app_distr, <- Hu, rev_involutive. done. }
  rewrite <- Hy. exact Hx.
Qed.

Lemma strip_by_ends (p : ascii -> bool) (s : pystr) (c : ascii) :
  (hd_error (strip_by p s) = Some c \/ last (strip_by p s) = Some c) -> p c = false.
Proof.
  unfold strip_by. intros [H|H].
  - destruct (lstrip_by_suffix p (rev (lstrip_by p s))) as [u Hu].
    assert (Hy : lstrip_by p s = rev (lstrip_by p (rev (lstrip_by p s))) ++ rev u).
    { rewrite <- rev_app_distr, <- Hu, rev_involutive. done. }
    apply (lstrip_by_head p s). rewrite Hy.
    destruct (rev (lstrip_by p (rev (lstrip_by p s)))); [done|]. exact H.
  - apply (lstrip_by_head p (rev (lstrip_by p s))).
    destruct (lstrip_by p (rev (lstrip_by p s))) as [|d t]; [done|].
    simpl in H. rewrite last_app in H. simpl in H. exact H.
Qed.

Lemma no_double_us_app_l (x y : pystr) : no_double_us (x ++ y) = true -> no_double_us y = true.
Proof.
  induction x as [|a x IH]; [done|]. intros H. apply IH.
  destruct x as [|b x]; simpl in H.
  - destruct y; [done|]. apply andb_prop in H. tauto.
  - apply andb_prop in H. tauto.
Qed.

Lemma no_double_us_app_r (x y : pystr) : no_double_us (x ++ y) = true -> no_double_us x = true.
Proof.
  induction x as [|a x IH]; [done|]. intros H.
  destruct x as [|b x]; [done|]. cbn [app no_double_us] in H |- *.
  apply andb_prop in H as [H1 H2]. rewrite H1. simpl. apply IH. exact H2.
Qed.

Lemma base_name_ok_strip (s : pystr) :
  Forall (fun c => safe_char c = true) s -> no_double_us s = true ->
  strip_by is_us s <> [] -> base_name_ok (strip_by is_us s).
Proof.
  intros Hf Hn Hne. destruct (strip_by_infix is_us s) as (x & z & Hs).
  split; [done|]. split; [|split; [|split]].
  - rewrite Hs in Hf. apply Forall_app in Hf as [_ Hf]. apply Forall_app in Hf. tauto.
  - rewrite Hs in Hn. apply no_double_us_app_l in Hn. apply no_double_us_app_r in Hn. done.
  - intros H. pose proof (strip_by_ends is_us s "_"%char (or_introl H)). done.
  - intros H. pose proof (strip_by_ends is_us s "_"%char (or_intror H)). done.
Qed.

(** X22: An uploaded file name becomes a sanitised base name, an underscore, the time stamp and the original extension; an empty name becomes file.csv. *)
Theorem normalize_filename_shape (filename stamp : pystr) :
  match filename with
  | [] => normalize_filename filename stamp = chars "file.csv"
  | _ => exists n ext, normalize_filename filename stamp = n ++ "_"%char :: stamp ++ ext /\
           base_name_ok n /\ (exists pre, filename = pre ++ ext) /\
           (ext = [] \/ hd_error ext = Some "."%char)
  end.
Proof.
  destruct filename as [|c0 f0] eqn:Ef; [done|]. rewrite <- Ef.
  unfold normalize_filename. rewrite Ef. rewrite <- Ef.
  destruct (splitext_ext filename) as (ext & He & Hp & Hext).
  destruct (splitext filename) as [name ext'] eqn:Hsp. simpl in He, Hp. subst ext'.
  set (m := strip_by is_us (collapse_us false (sub_unsafe name))).
  exists (match m with [] => chars "file" | _ => m end), ext.
  split; [done|]. split; [|split; [exists name; done|done]].
  destruct m as [|d t] eqn:Em.
  - vm_compute. split; [done|]. split; [repeat constructor|]. split; [done|]. split; done.
  - rewrite <- Em. apply base_name_ok_strip.
    + apply collapse_us_Forall, sub_unsafe_safe.
    + apply collapse_us_no_double.
    + unfold m in Em. rewrite Em. done.
Qed.

(** ** Witnesses of the further properties *)

Lemma date_to_iso_four_digit_witness :
  valid_ymd 2024%Z 2%Z 29%Z /\
  date_to_iso (mdy_string (zero_pad 2 2%Z) (zero_pad 2 29%Z) (zero_pad 4 2024%Z)) = Some (iso_of (2024%Z, 2%Z, 29%Z)).
Proof.
  assert (H : valid_ymd 2024%Z 2%Z 29%Z).
  { assert (E : days_in_month 2024%Z 2%Z = 29%Z) by reflexivity. unfold valid_ymd. rewrite E. lia. }
  split; [exact H|]. exact (date_to_iso_four_digit 2024%Z 2%Z 29%Z H).
Defined.

Lemma date_to_iso_two_digit_witness :
  (0 <= 24 <= 99)%Z /\ (1 <= 2 <= 12)%Z /\ (1 <= 29 <= days_in_month (two_digit_year 24%Z) 2%Z)%Z /\
  date_to_iso (mdy_string (zero_pad 2 2%Z) (zero_pad 2 29%Z) (zero_pad 2 24%Z))
  = Some (iso_of (two_digit_year 24%Z, 2%Z, 29%Z)).
Proof.
  assert (H1 : (0 <= 24 <= 99)%Z) by lia.
  assert (H2 : (1 <= 2 <= 12)%Z) by lia.
  assert (H3 : (1 <= 29 <= days_in_month (two_digit_year 24%Z) 2%Z)%Z)
    by (assert (E : days_in_month (two_digit_year 24%Z) 2%Z = 29%Z) by reflexivity; rewrite E; lia).
  split; [exact H1|]. split; [exact H2|]. split; [exact H3|].
  exact (date_to_iso_two_digit 24%Z 2%Z 29%Z H1 H2 H3).
Defined.

Lemma date_to_iso_valid_witness :
  date_to_iso (chars " 2/29/2024 ") = Some (chars "2024-02-29") /\
  exists y m d, chars "2024-02-29" = iso_of (y, m, d) /\ valid_ymd y m d /\
    length (chars "2024-02-29") = 10.
Proof.
  assert (H : date_to_iso (chars " 2/29/2024 ") = Some (chars "2024-02-29")) by (vm_compute; reflexivity).
  split; [exact H|]. exact (date_to_iso_valid _ _ H).
Defined.

Lemma clean_row_policy_copy_witness :
  let row : crow := [(chars " Policy No ", Some (chars " 0108338110 ")); (chars "Name", Some (chars "ANN"))] in
  dict_get (clean_fields row) (chars "Policy No") = Some (Some (chars "0108338110")) /\
  exists out, clean_and_normalize_row_with_policy_column row (Some (chars "Policy No")) = Some out /\
    dict_get out POLICY_KEY = Some (Some (chars "0108338110")) /\
    forall k, k <> POLICY_KEY -> dict_get out k = dict_get (clean_fields row) k.
Proof.
  intros row.
  assert (H : dict_get (clean_fields row) (chars "Policy No") = Some (Some (chars "0108338110")))
    by (vm_compute; reflexivity).
  split; [exact H|]. exact (clean_row_policy_copy _ _ _ H).
Defined.

Lemma normalize_csv_quoted_round_trip_witness :
  let ls := [chars "Policy,Name"; chars "0108338110," ++ ["034"%char] ++ chars "ANN, B" ++ ["034"%char]] in
  Forall no_break ls /\
  normalize_csv_content (py_join ["010"%char] (map quote_line ls)) = py_join ["010"%char] ls.
Proof.
  intros ls.
  assert (H : Forall no_break ls) by (unfold ls, no_break; repeat constructor).
  split; [exact H|]. exact (normalize_csv_quoted_round_trip ls H).
Defined.

Lemma extract_report_date_iso_valid_witness :
  let text := chars "03/15/2024 DAILY NEW BUSINESS/UNDERWRITING ACTIVITY REPORT" in
  extract_report_date_iso text = Some (chars "2024-03-15") /\
  exists y m d, chars "2024-03-15" = iso_of (y, m, d) /\ valid_ymd y m d.
Proof.
  intros text.
  assert (H : extract_report_date_iso text = Some (chars "2024-03-15")) by (vm_compute; reflexivity).
  split; [exact H|]. exact (extract_report_date_iso_valid _ _ H).
Defined.

Lemma extract_return_report_date_iso_valid_witness :
  let text := chars "DAILY RETURN DRAFT 3/15/24" in
  extract_return_report_date_iso text = Some (chars "2024-03-15") /\
  exists y m d, chars "2024-03-15" = iso_of (y, m, d) /\ valid_ymd y m d.
Proof.
  intros text.
  assert (H : extract_return_report_date_iso text = Some (chars "2024-03-15")) by (vm_compute; reflexivity).
  split; [exact H|]. exact (extract_return_report_date_iso_valid _ _ H).
Defined.

Lemma date_piece_03_15_24 : date_piece (chars "03/15/24").
Proof.
  exists (chars "03"), (chars "15"), (chars "24"). split; [reflexivity|].
  simpl. split; [lia|]. split; [lia|]. split; [lia|]. repeat constructor.
Qed.

Lemma extract_report_date_header_witness :
  let pre := chars "RUN " in
  let w := chars "03/15/24" in
  let sp := chars "  " in
  let ph := chars "Daily New Business/Underwriting Activity Report" in
  let post := chars " PAGE 1" in
  let text := pre ++ w ++ sp ++ ph ++ post ++ ["013"%char; "010"%char] ++ chars "12/31/1999" in
  hd_error (py_splitlines text) = Some (pre ++ w ++ sp ++ ph ++ post) /\
  Forall (fun c => is_digit c = false) pre /\ date_piece w /\
  sp <> [] /\ Forall (fun c => is_space c = true) sp /\
  py_upper ph = chars UW_HEADER_TEXT /\
  date_to_iso w = Some (chars "2024-03-15") /\
  extract_report_date_iso text = Some (chars "2024-03-15").
Proof.
  intros pre w sp ph post text.
  assert (H0 : hd_error (py_splitlines text) = Some (pre ++ w ++ sp ++ ph ++ post))
    by (vm_compute; reflexivity).
  assert (H1 : Forall (fun c => is_digit c = false) pre) by (unfold pre; repeat constructor).
  assert (H3 : date_piece w) by exact date_piece_03_15_24.
  assert (H4 : sp <> []) by (unfold sp; discriminate).
  assert (H5 : Forall (fun c => is_space c = true) sp) by (unfold sp; repeat constructor).
  assert (H6 : py_upper ph = chars UW_HEADER_TEXT) by (vm_compute; reflexivity).
  assert (H8 : date_to_iso w = Some (chars "2024-03-15")) by (vm_compute; reflexivity).
  split; [exact H0|]. split; [exact H1|]. split; [exact H3|]. split; [exact H4|].
  split; [exact H5|]. split; [exact H6|]. split; [exact H8|].
  exact (extract_report_date_header text pre w sp ph post _ H0 H1 H3 H4 H5 H6 H8).
Defined.

Lemma date_piece_13_40_24 : date_piece (chars "13/40/24").
Proof.
  exists (chars "13"), (chars "40"), (chars "24"). split; [reflexivity|].
  simpl. split; [lia|]. split; [lia|]. split; [lia|]. repeat constructor.
Qed.

Lemma extract_return_first_header_witness :
  let pre := chars "DAILY RETURN DRAFT - " in
  let w := chars "13/40/24" in
  let post := chars " PAGE 1" in
  let text := pre ++ w ++ post ++ ["013"%char; "010"%char] ++ chars "DAILY RETURN DRAFT 01/02/2024" in
  hd_error (py_splitlines text) = Some (pre ++ w ++ post) /\
  Forall (fun c => is_digit c = false) pre /\ date_piece w /\ no_digit_head post /\
  py_contains (chars "DAILY RETURN DRAFT") (py_upper (pre ++ w ++ post)) = true /\
  extract_return_report_date_iso text = date_to_iso w /\
  date_to_iso w = None.
Proof.
  intros pre w post text.
  assert (H0 : hd_error (py_splitlines text) = Some (pre ++ w ++ post)) by (vm_compute; reflexivity).
  assert (H1 : Forall (fun c => is_digit c = false) pre) by (unfold pre; repeat constructor).
  assert (H3 : date_piece w) by exact date_piece_13_40_24.
  assert (H4 : no_digit_head post) by reflexivity.
  assert (H6 : py_contains (chars "DAILY RETURN DRAFT") (py_upper (pre ++ w ++ post)) = true)
    by (vm_compute; reflexivity).
  split; [exact H0|]. split; [exact H1|]. split; [exact H3|]. split; [exact H4|].
  split; [exact H6|].
  split; [exact (extract_return_first_header text pre w post H0 H1 H3 H4 H6)|].
  vm_compute. reflexivity.
Defined.

Lemma detect_policy_column_sound_witness :
  let rows : list crow :=
    [[(chars "Name", Some (chars "ANN")); (chars "Policy", Some (chars "0108338110"))];
     [(chars "Name", Some (chars "BO")); (chars "Policy", Some (chars "n/a"))]] in
  detect_policy_column rows = Some (chars "Policy") /\
  exists r0 rs, rows = r0 :: rs /\ dict_has r0 (chars "Policy") = true /\
    exists row v, row ∈ take 100 rows /\ dict_get row (chars "Policy") = Some (Some v) /\
      is_valid_policy_number v = true.
Proof.
  intros rows.
  assert (H : detect_policy_column rows = Some (chars "Policy")) by (vm_compute; reflexivity).
  split; [exact H|]. exact (detect_policy_column_sound _ _ H).
Defined.

Lemma key_rows_last_wins_witness :
  let pid := chars "0108338110" in
  let old : crow := [(chars "Policy", Some pid); (chars "Face", Some (chars "100"))] in
  let r : crow := [(chars "Policy", Some pid); (chars "Face", Some (chars "200"))] in
  let other : crow := [(chars "Policy", Some (chars "0107680261"))] in
  policy_key r = Some pid /\ Forall (fun r' => policy_key r' <> Some pid) [other] /\
  key_rows ([old] ++ r :: [other]) !! pid = Some r.
Proof.
  intros pid old r other.
  assert (H1 : policy_key r = Some pid) by reflexivity.
  assert (H2 : Forall (fun r' => policy_key r' <> Some pid) [other])
    by (constructor; [vm_compute; intros H; discriminate H|constructor]).
  split; [exact H1|]. split; [exact H2|]. exact (key_rows_last_wins [old] [other] r pid H1 H2).
Defined.

Lemma compare_rows_changes_witness :
  let n1 : crow := [(chars "Policy", Some (chars "0108338110")); (chars "Face", Some (chars "200.00"))] in
  let n2 : crow := [(chars "Policy", Some (chars "0107680261")); (chars "Face", Some (chars "5"))] in
  let o1 : crow := [(chars "Policy", Some (chars "0108338110")); (chars "Face", Some (chars "100.00"))] in
  compare_rows [n1; n2] [o1] = CmpOk [n2] [n1] /\
  (forall r, r ∈ [n2] <->
     exists pid, key_rows [n1; n2] !! pid = Some r /\ key_rows [o1] !! pid = None) /\
  (forall r, r ∈ [n1] <->
     exists pid old_row, key_rows [o1] !! pid = Some old_row /\
       key_rows [n1; n2] !! pid = Some r /\ has_changes old_row r = true) /\
  NoDup ([n2] ++ [n1]).
Proof.
  intros n1 n2 o1.
  assert (H : compare_rows [n1; n2] [o1] = CmpOk [n2] [n1]) by (vm_compute; reflexivity).
  split; [exact H|]. exact (compare_rows_changes _ _ _ _ H).
Defined.
